(** * fmg_api_easy: a shallow embedding of [fmg_api_client.py]

  The development follows the source file top to bottom:
  - [PyStr]: the string built-ins the program calls ([str.lower],
    [str.startswith], [str.join], slicing, [repr] of a [str]);
  - [Json]: the values the program receives from the device (decoded JSON),
    with Python's truth value, [type], [repr] and [str];
  - [TableFormatter]: [format_table] and [_flatten_value];
  - [FortiManagerAPIClient]: [_create_connection] and [execute_request],
    over an explicit trace of the effects of one run;
  - [Cli]: [parse_data_argument], the argument parser as far as it decides
    how the process ends, and [main], from the command line to the exit
    status of the process;
  - [Demo]: a concrete environment to run the model on examples;
  - [Spec]: the readings of the specification the code is compared with.

  Conventions.  Python [str] values are modelled by [string]; the
  characters are taken to be ASCII, so [len] is [String.length] and
  [str.lower] only moves [A-Z].  A Python [int] is a [Z].  A Python [float]
  is an IEEE value, [spec_float].  A [dict] is an association list in
  insertion order; a real [dict] has pairwise distinct keys, which
  [Json.wf] states.  Code that can raise returns a [result]. *)

From Stdlib Require Import ZArith Bool List String Ascii Lia.
From Stdlib Require Import Numbers.DecimalString Floats.SpecFloat.
From Stdlib Require Import Sorting.Permutation Sorting.Sorted.
Import ListNotations.
Set Warnings "-register-all".
Open Scope list_scope.
Open Scope string_scope.

(** ** Exceptions and results *)

(** The exception classes the program distinguishes.  [FMGBaseException]
  stands for that class and its subclasses other than
  [FMGValidSessionException]; [OtherException] for any further subclass of
  [Exception]; [KeyboardInterrupt] and [SystemExit], which [sys.exit(code)]
  raises, derive from [BaseException] only. *)
Inductive exn_class : Type :=
| FMGConnectionError
| FMGConnectTimeout
| FMGValidSessionException
| FMGBaseException
| ValueError
| AttributeError
| TypeError
| FileNotFoundError
| OtherException
| KeyboardInterrupt
| SystemExit (code : Z).

Record exn : Type := mkExn { exn_cls : exn_class; exn_msg : string }.

(** [isinstance(e, Exception)] *)
Definition is_Exception (e : exn) : bool :=
  match exn_cls e with
  | KeyboardInterrupt | SystemExit _ => false
  | _ => true
  end.

Inductive result (A : Type) : Type :=
| Ret (a : A)
| Raise (e : exn).
Arguments Ret {A} a.
Arguments Raise {A} e.

Definition rbind {A B} (r : result A) (k : A -> result B) : result B :=
  match r with
  | Ret a => k a
  | Raise e => Raise e
  end.

Fixpoint rmap {A B} (f : A -> result B) (l : list A) : result (list B) :=
  match l with
  | [] => Ret []
  | x :: r =>
      rbind (f x) (fun y => rbind (rmap f r) (fun ys => Ret (y :: ys)))
  end.

Definition is_ret {A} (r : result A) : bool :=
  match r with Ret _ => true | Raise _ => false end.

(** ** String built-ins *)
Module PyStr.

Definition quote : ascii := ascii_of_nat 39.
Definition dquote : ascii := ascii_of_nat 34.
Definition backslash : ascii := ascii_of_nat 92.
Definition newline : string := String (ascii_of_nat 10) EmptyString.

Definition chr (c : ascii) : string := String c EmptyString.

(** [str.lower] on ASCII text. *)
Definition lower_char (c : ascii) : ascii :=
  let n := nat_of_ascii c in
  if (65 <=? n)%nat && (n <=? 90)%nat then ascii_of_nat (n + 32) else c.

Fixpoint lower (s : string) : string :=
  match s with
  | EmptyString => EmptyString
  | String c r => String (lower_char c) (lower r)
  end.

(** [s.startswith(p)] *)
Definition startswith (p s : string) : bool := String.prefix p s.

(** [sep.join(l)] *)
Fixpoint join (sep : string) (l : list string) : string :=
  match l with
  | [] => EmptyString
  | [x] => x
  | x :: r => x ++ sep ++ join sep r
  end.

(** [x in l] for a list of strings *)
Fixpoint mem (x : string) (l : list string) : bool :=
  match l with
  | [] => false
  | y :: r => String.eqb x y || mem x r
  end.

Fixpoint contains_char (c : ascii) (s : string) : bool :=
  match s with
  | EmptyString => false
  | String d r => Ascii.eqb c d || contains_char c r
  end.

(** [str(z)] for an [int] *)
Definition of_Z (z : Z) : string := NilZero.string_of_int (Z.to_int z).
Definition of_nat (n : nat) : string := of_Z (Z.of_nat n).

(** The upper bound of the slice [x[:k]] on a sequence of length [len]:
    a negative [k] counts from the end, and the bound is clamped to
    [0..len]. *)
Definition slice_stop (k : Z) (len : nat) : nat :=
  if (k <? 0)%Z then Z.to_nat (Z.of_nat len + k)
  else Nat.min (Z.to_nat k) len.

(** [s[:k]] *)
Definition slice_to (k : Z) (s : string) : string :=
  substring 0 (slice_stop k (String.length s)) s.

Definition hex_digit (n : nat) : ascii :=
  if (n <? 10)%nat then ascii_of_nat (48 + n) else ascii_of_nat (87 + n).

(** One character of [repr(s)], inside quotes [q]. *)
Definition escape_char (q c : ascii) : string :=
  let n := nat_of_ascii c in
  if Ascii.eqb c backslash || Ascii.eqb c q then String backslash (chr c)
  else if (n =? 9)%nat then String backslash "t"
  else if (n =? 10)%nat then String backslash "n"
  else if (n =? 13)%nat then String backslash "r"
  else if (n <? 32)%nat || (n =? 127)%nat then
    String backslash
      (String "x" (String (hex_digit (n / 16)) (chr (hex_digit (n mod 16)))))
  else chr c.

Fixpoint escape (q : ascii) (s : string) : string :=
  match s with
  | EmptyString => EmptyString
  | String c r => escape_char q c ++ escape q r
  end.

(** [repr(s)] for a [str]: single quotes, unless the text has a single
    quote and no double quote. *)
Definition repr (s : string) : string :=
  let q := if contains_char quote s && negb (contains_char dquote s)
           then dquote else quote in
  String q (escape q s ++ chr q).

End PyStr.

(** ** Decoded JSON values *)
Module Json.

Inductive json : Type :=
| JNull
| JBool (b : bool)
| JInt (z : Z)
| JFloat (f : spec_float)
| JStr (s : string)
| JList (l : list json)
| JDict (d : list (string * json)).

Definition dict : Type := list (string * json).

(** [bool(v)] *)
Definition truthy (v : json) : bool :=
  match v with
  | JNull => false
  | JBool b => b
  | JInt z => negb (z =? 0)%Z
  | JFloat (S754_zero _) => false
  | JFloat _ => true
  | JStr EmptyString => false
  | JStr _ => true
  | JList [] => false
  | JList _ => true
  | JDict [] => false
  | JDict _ => true
  end.

(** [a or b] *)
Definition py_or (a b : json) : json := if truthy a then a else b.

(** [type(v).__name__] *)
Definition type_name (v : json) : string :=
  match v with
  | JNull => "NoneType"
  | JBool _ => "bool"
  | JInt _ => "int"
  | JFloat _ => "float"
  | JStr _ => "str"
  | JList _ => "list"
  | JDict _ => "dict"
  end.

Definition is_dict (v : json) : bool :=
  match v with JDict _ => true | _ => false end.

Definition is_list (v : json) : bool :=
  match v with JList _ => true | _ => false end.

(** [d.get(k)] as an option, [k in d], [d.get(k, dflt)] *)
Fixpoint lookup (d : dict) (k : string) : option json :=
  match d with
  | [] => None
  | (k', v) :: r => if String.eqb k' k then Some v else lookup r k
  end.

Definition has_key (d : dict) (k : string) : bool :=
  match lookup d k with Some _ => true | None => false end.

Definition get_default (d : dict) (k : string) (dflt : json) : json :=
  match lookup d k with Some v => v | None => dflt end.

Definition get (d : dict) (k : string) : json := get_default d k JNull.

Definition keys (d : dict) : list string := map fst d.
Definition values (d : dict) : list json := map snd d.

(** A Python [dict] has pairwise distinct keys, at every depth. *)
Fixpoint nodup_keys (ks : list string) : bool :=
  match ks with
  | [] => true
  | k :: r => negb (PyStr.mem k r) && nodup_keys r
  end.

Fixpoint wf (v : json) : bool :=
  match v with
  | JList l => forallb wf l
  | JDict d =>
      nodup_keys (map fst d) && forallb (fun kv => wf (snd kv)) d
  | _ => true
  end.

End Json.
Import Json.

(** What [json.loads] and [json.load] do with a text: they return the
    decoded value, raise [json.JSONDecodeError] with a message, or fail with
    another exception (an interrupt, [RecursionError], the [ValueError] of
    the limit on the digits of an integer). *)
Inductive decoded : Type :=
| Decoded (v : json)
| DecodeError (message : string)
| Failed (e : exn).

(** What the formatter takes from outside its own file: the float printer
    of the interpreter and the [tabulate] package, which the program calls
    with the grid format and left-aligned text. *)
Class PyEnv : Type := {
  float_repr : spec_float -> string;
  tabulate : list (list string) -> list string -> string
}.

Section Printing.
Context {env : PyEnv}.

(** [repr(v)] *)
Fixpoint py_repr (v : json) : string :=
  match v with
  | JNull => "None"
  | JBool true => "True"
  | JBool false => "False"
  | JInt z => PyStr.of_Z z
  | JFloat f => float_repr f
  | JStr s => PyStr.repr s
  | JList l => "[" ++ PyStr.join ", " (map py_repr l) ++ "]"
  | JDict d =>
      "{" ++ PyStr.join ", "
               (map (fun kv => PyStr.repr (fst kv) ++ ": " ++ py_repr (snd kv)) d)
          ++ "}"
  end.

(** [str(v)] *)
Definition py_str (v : json) : string :=
  match v with
  | JStr s => s
  | _ => py_repr v
  end.

(** [str(type(v))] *)
Definition type_repr (v : json) : string :=
  "<class '" ++ type_name v ++ "'>".

(** The exception of [v.get(...)] on a value that is no mapping. *)
Definition no_get (v : json) : exn :=
  mkExn AttributeError ("'" ++ type_name v ++ "' object has no attribute 'get'").

End Printing.

(** ** class TableFormatter *)
Module TableFormatter.
Section WithEnv.
Context {env : PyEnv}.

(** [_flatten_value(value)].  A list is judged by its first element alone:
    when that is a mapping with a [name], every element is asked
    [item.get('name', '')], which raises on an element that is no mapping. *)
Definition name_of (item : json) : result string :=
  match item with
  | JDict d => Ret (py_str (get_default d "name" (JStr EmptyString)))
  | _ => Raise (no_get item)
  end.

Definition first_has_name (v0 : json) : bool :=
  match v0 with
  | JDict d => has_key d "name"
  | _ => false
  end.

Definition _flatten_value (value : json) : result string :=
  match value with
  | JNull => Ret "-"
  | JList l =>
      match l with
      | [] => Ret "-"
      | v0 :: _ =>
          if first_has_name v0
          then rbind (rmap name_of l) (fun names => Ret (PyStr.join ", " names))
          else Ret (PyStr.join ", " (map py_str l))
      end
  | JDict d =>
      if has_key d "name" then Ret (py_str (get d "name"))
      else if (List.length d =? 1)%nat then Ret (py_str (hd JNull (values d)))
      else Ret (py_str value)
  | _ => Ret (py_str value)
  end.

(** Lines 39-50: the rows of the response; [None] is the early return for a
    response that is neither a mapping nor a list. *)
Definition candidate (d : dict) : json :=
  py_or (py_or (get d "results") (get d "data")) (get d "items").

Definition data_list_of (response_data : json) : option (list json) :=
  match response_data with
  | JDict d =>
      match candidate d with
      | JList l => Some l
      | JDict d' => Some [JDict d']
      | _ => Some [response_data]
      end
  | JList l => Some l
  | _ => None
  end.

(** Lines 56-60: [field_counts], a [dict] from key to count in first-seen
    order. *)
Definition counts : Type := list (string * nat).

Fixpoint bump (fc : counts) (key : string) : counts :=
  match fc with
  | [] => [(key, 1%nat)]
  | (k, n) :: r =>
      if String.eqb k key then (k, S n) :: r else (k, n) :: bump r key
  end.

Definition count_item (fc : counts) (item : json) : counts :=
  match item with
  | JDict d => fold_left bump (keys d) fc
  | _ => fc
  end.

Definition field_counts (data_list : list json) : counts :=
  fold_left count_item (firstn 10 data_list) [].

(** Line 61: [sorted(..., key=lambda x: x[1], reverse=True)], a stable sort
    by descending count. *)
Fixpoint insert_desc (x : string * nat) (l : counts) : counts :=
  match l with
  | [] => [x]
  | y :: r => if (snd x <? snd y)%nat then y :: insert_desc x r else x :: l
  end.

Fixpoint sorted_desc (l : counts) : counts :=
  match l with
  | [] => []
  | x :: r => insert_desc x (sorted_desc r)
  end.

(** Line 62: [common_fields[:max_fields]] and the projection on the keys. *)
Definition fields_of (data_list : list json) (max_fields : Z) : list string :=
  let common_fields := sorted_desc (field_counts data_list) in
  map fst (firstn (PyStr.slice_stop max_fields (List.length common_fields))
                  common_fields).

(** Lines 74-75: the width cap of one cell. *)
Definition truncate (max_width : Z) (formatted_value : string) : string :=
  if negb (max_width =? 0)%Z
     && (max_width <? Z.of_nat (String.length formatted_value))%Z
  then PyStr.slice_to (max_width - 3) formatted_value ++ "..."
  else formatted_value.

(** Lines 72-76: one cell; [item.get] raises when the row is no mapping. *)
Definition cell (max_width : Z) (item : json) (field : string) : result string :=
  match item with
  | JDict d =>
      rbind (_flatten_value (get_default d field (JStr "-")))
            (fun formatted_value => Ret (truncate max_width formatted_value))
  | _ => Raise (no_get item)
  end.

Definition row (max_width : Z) (fields : list string) (item : json)
  : result (list string) :=
  rmap (cell max_width item) fields.

Definition summary (data_list : list json) : string :=
  PyStr.of_nat (List.length data_list) ++ " result(s) found".

(** [format_table(response_data, max_fields, max_width)] *)
Definition format_table (response_data : json) (max_fields max_width : Z)
  : result string :=
  match data_list_of response_data with
  | None =>
      Ret ("Table format not supported for response type: "
             ++ type_repr response_data)
  | Some data_list =>
      match data_list with
      | [] => Ret "No data to display in table format"
      | _ =>
          let fields := fields_of data_list max_fields in
          match fields with
          | [] => Ret "No suitable fields found for table display"
          | _ =>
              rbind (rmap (row max_width fields) data_list)
                    (fun rows =>
                       Ret (summary data_list ++ PyStr.newline
                              ++ tabulate rows fields))
          end
      end
  end.

End WithEnv.
End TableFormatter.


(** ** The effects of one run *)

(** Keyword options of the [FortiManager] constructor. *)
Record conn_opts : Type := mkOpts {
  opt_debug : bool;
  opt_use_ssl : bool;
  opt_verify_ssl : bool;
  opt_timeout : Z
}.

(** The two ways [_create_connection] calls the constructor. *)
Inductive conn_args : Type :=
| WithApiKey (host user apikey : string) (opts : conn_opts)
| WithPassword (host user : string) (passwd : option string) (opts : conn_opts).

(** The calls on an open session: [fmg.get(url, *args)],
    [fmg.add(url, *args, **kwargs)], [fmg.update], [fmg.delete],
    [fmg.execute]. *)
Inductive wire_call : Type :=
| FmgGet (url : string) (args : list string)
| FmgAdd (url : string) (args : list string) (kwargs : dict)
| FmgUpdate (url : string) (args : list string) (kwargs : dict)
| FmgDelete (url : string) (args : list string)
| FmgExecute (url : string) (args : list string) (kwargs : dict).

Definition call_url (w : wire_call) : string :=
  match w with
  | FmgGet u _ | FmgAdd u _ _ | FmgUpdate u _ _ | FmgDelete u _
  | FmgExecute u _ _ => u
  end.

Inductive event : Type :=
| Create (c : conn_args)
| Login
| Call (w : wire_call)
| Logout
| Print (s : string)
| PrintErr (s : string).

Definition trace : Type := list event.

(** The pyFMG package together with the device behind it: whether the
    constructor, the login of [__enter__] and the logout of [__exit__] raise,
    and what a call returns or raises.  A returned pair is the status and the
    body the device answered with. *)
Record FortiManager : Type := {
  fmg_new : conn_args -> option exn;
  fmg_enter : conn_args -> option exn;
  fmg_request : conn_args -> wire_call -> result (json * json);
  fmg_exit : conn_args -> option exn
}.

(** Computations with a trace and exceptions; the trace survives a raise. *)
Definition M (A : Type) : Type := trace -> result A * trace.

Definition ret {A} (a : A) : M A := fun tr => (Ret a, tr).
Definition raise {A} (e : exn) : M A := fun tr => (Raise e, tr).
Definition emit (ev : event) : M unit := fun tr => (Ret tt, tr ++ [ev])%list.

Definition bind {A B} (m : M A) (k : A -> M B) : M B :=
  fun tr =>
    match m tr with
    | (Ret a, tr') => k a tr'
    | (Raise e, tr') => (Raise e, tr')
    end.

(** [try: m except ...: h] *)
Definition try_except {A} (m : M A) (h : exn -> M A) : M A :=
  fun tr =>
    match m tr with
    | (Ret a, tr') => (Ret a, tr')
    | (Raise e, tr') => h e tr'
    end.

Definition lift_opt (o : option exn) : M unit :=
  match o with
  | Some e => raise e
  | None => ret tt
  end.

Definition lift_result {A} (r : result A) : M A :=
  match r with
  | Ret a => ret a
  | Raise e => raise e
  end.

Declare Scope m_scope.
Delimit Scope m_scope with M.
Notation "x <- m ;; k" := (bind m (fun x => k))
  (at level 61, m at next level, right associativity) : m_scope.
Notation "m ;; k" := (bind m (fun _ => k))
  (at level 61, right associativity) : m_scope.

(** ** class FortiManagerAPIClient *)
Module FortiManagerAPIClient.

Record client : Type := mkClient {
  host : string;
  username : string;
  password : option string;
  apikey : option string;
  use_ssl : bool;
  verify_ssl : bool;
  timeout : Z;
  debug : bool
}.

(** Truth value of an [Optional[str]]. *)
Definition given (o : option string) : bool :=
  match o with
  | Some (String _ _) => true
  | _ => false
  end.

Definition or_else (o : option string) (dflt : string) : string :=
  match o with
  | Some (String c r) => String c r
  | _ => dflt
  end.

(** [__init__] *)
Definition init (host : string) (username password apikey : option string)
  (use_ssl verify_ssl : bool) (timeout : Z) (debug : bool) : result client :=
  if negb (given apikey) && negb (given password)
  then Raise (mkExn ValueError "Either password or apikey must be provided")
  else Ret (mkClient host (or_else username "admin") password apikey
                     use_ssl verify_ssl timeout debug).

(** [_create_connection]: the arguments handed to the constructor. *)
Definition _create_connection (self : client) : conn_args :=
  let kwargs := mkOpts (debug self) (use_ssl self) (verify_ssl self) (timeout self) in
  match apikey self with
  | Some (String c r) => WithApiKey (host self) (username self) (String c r) kwargs
  | _ => WithPassword (host self) (username self) (password self) kwargs
  end.

Definition supported : list string :=
  ["get"; "add"; "set"; "update"; "delete"; "exec"].

(** Lines 134-135. *)
Definition normalize (endpoint : string) : string :=
  if negb (PyStr.startswith "/" endpoint) then "/" ++ endpoint else endpoint.

(** [**kwargs] at a call: the value must be a mapping. *)
Definition unpack (kwargs : json) : result dict :=
  match kwargs with
  | JDict d => Ret d
  | _ => Raise (mkExn TypeError
                  ("argument after ** must be a mapping, not " ++ type_name kwargs))
  end.

Definition error_payload (label details : string) : json :=
  JDict [("error", JStr label); ("details", JStr details)].

Section WithRemote.
Variable fmg_lib : FortiManager.
Local Open Scope m_scope.

(** [with self._create_connection() as fmg: body fmg] *)
Definition with_connection {A} (c : conn_args) (body : M A) : M A :=
  emit (Create c) ;;
  lift_opt (fmg_new fmg_lib c) ;;
  emit Login ;;
  lift_opt (fmg_enter fmg_lib c) ;;
  fun tr =>
    let (r, tr') := body tr in
    match (emit Logout ;; lift_opt (fmg_exit fmg_lib c)) tr' with
    | (Ret _, tr'') => (r, tr'')
    | (Raise e, tr'') => (Raise e, tr'')
    end.

Definition request (c : conn_args) (w : wire_call) : M (json * json) :=
  emit (Call w) ;; lift_result (fmg_request fmg_lib c w).

(** Lines 138-151, the body of the [with] block. *)
Definition dispatch (c : conn_args) (method endpoint : string)
  (data : option json) (query_params : option (list string)) : M (json * json) :=
  let args := match query_params with Some (q :: r) => q :: r | _ => [] end in
  let kwargs := match data with Some v => py_or v (JDict []) | None => JDict [] end in
  if String.eqb method "get" then request c (FmgGet endpoint args)
  else if String.eqb method "add" then
    kw <- lift_result (unpack kwargs) ;; request c (FmgAdd endpoint args kw)
  else if PyStr.mem method ["set"; "update"] then
    kw <- lift_result (unpack kwargs) ;; request c (FmgUpdate endpoint args kw)
  else if String.eqb method "delete" then request c (FmgDelete endpoint args)
  else if String.eqb method "exec" then
    kw <- lift_result (unpack kwargs) ;; request c (FmgExecute endpoint args kw)
  else
    ret (JInt (-5), error_payload "Unsupported method"
                      ("Method " ++ method ++ " not supported")).

(** Lines 152-163, the [except] clauses in their order.  [except Exception]
    catches neither [KeyboardInterrupt] nor [SystemExit]. *)
Definition handler (e : exn) : M (json * json) :=
  let details := exn_msg e in
  match exn_cls e with
  | FMGConnectionError | FMGConnectTimeout =>
      emit (Print ("Connection error: " ++ details)) ;;
      ret (JInt (-1), error_payload "Connection failed" details)
  | FMGValidSessionException =>
      emit (Print ("Session error: " ++ details)) ;;
      ret (JInt (-2), error_payload "Invalid session" details)
  | FMGBaseException =>
      emit (Print ("FortiManager API error: " ++ details)) ;;
      ret (JInt (-3), error_payload "API error" details)
  | KeyboardInterrupt | SystemExit _ => raise e
  | _ =>
      emit (Print ("Unexpected error: " ++ details)) ;;
      ret (JInt (-4), error_payload "Unexpected error" details)
  end.

(** [execute_request(method, endpoint, data, query_params)] *)
Definition execute_request (self : client) (method endpoint : string)
  (data : option json) (query_params : option (list string)) : M (json * json) :=
  let method := PyStr.lower method in
  if negb (PyStr.mem method supported)
  then raise (mkExn ValueError ("Unsupported HTTP method: " ++ method))
  else
    let endpoint := normalize endpoint in
    let c := _create_connection self in
    try_except
      (with_connection c (dispatch c method endpoint data query_params))
      handler.

End WithRemote.
End FortiManagerAPIClient.

(** ** The command line: [parse_data_argument] and [main] *)
Module Cli.
Import FortiManagerAPIClient.

Inductive format : Type := FmtJson | FmtPretty | FmtTable.

(** The namespace [parser.parse_args()] returns. *)
Record cli_args : Type := mkArgs {
  a_config : option string;
  a_host : option string;
  a_username : string;
  a_password : option string;
  a_apikey : option string;
  a_method : string;
  a_endpoint : string;
  a_data : option string;
  a_query : option (list string);
  a_no_ssl : bool;
  a_verify_ssl : bool;
  a_ssl_warnings : bool;
  a_timeout : Z;
  a_debug : bool;
  a_format : format;
  a_table_max_width : Z;
  a_table_max_fields : Z
}.

Definition config : Type := list (string * string).

(** What [main] takes from outside the file: the [json] module, and
    [load_config_file] with the file system and the two parsers behind it,
    typed by its annotation [Dict[str, str]]. *)
Class CliEnv : Type := {
  json_dumps : json -> option nat -> string;
  json_loads : string -> decoded;
  load_config_file : string -> result config
}.

Fixpoint config_get (c : config) (k : string) : option string :=
  match c with
  | [] => None
  | (k', v) :: r => if String.eqb k' k then Some v else config_get r k
  end.

(** [a or b] on optional strings *)
Definition opt_or (a b : option string) : option string :=
  if given a then a else b.

Definition sys_exit {A} (code : Z) : M A :=
  raise (mkExn (SystemExit code) EmptyString).

(** The status the interpreter ends with: [0] after a normal return, the
    code of [sys.exit], [130] after an interrupt nobody caught, [1] after any
    other exception. *)
Definition exit_status {A} (r : result A) : Z :=
  match r with
  | Ret _ => 0
  | Raise e =>
      match exn_cls e with
      | SystemExit code => code
      | KeyboardInterrupt => 130
      | _ => 1
      end
  end.

(** The command line before [parse_args] has checked it, with every option
    but [--query] given at most once: for each option the text that was
    given, [None] when it is absent; the flags as booleans; and for
    [--query], which appends, the texts in order. *)
Record raw_args : Type := mkRaw {
  r_config : option string;
  r_host : option string;
  r_username : option string;
  r_password : option string;
  r_apikey : option string;
  r_method : option string;
  r_endpoint : option string;
  r_data : option string;
  r_query : option (list string);
  r_no_ssl : bool;
  r_verify_ssl : bool;
  r_ssl_warnings : bool;
  r_timeout : option string;
  r_debug : bool;
  r_format : option string;
  r_table_max_width : option string;
  r_table_max_fields : option string
}.

(** What [argparse] makes of [sys.argv]: [Help] when [-h] or [--help]
    comes before any error, [Unparsable] when the scan itself fails first (an
    option that is not declared, an option without its value), and otherwise
    the texts collected for the declared options. *)
Inductive command_line : Type :=
| Help
| Unparsable
| Options (r : raw_args).

(** What the declarations of lines 234-255 take from [argparse] and the
    interpreter: [int(text)] for [type=int], with [None] for its
    [ValueError], and the texts that are printed. *)
Class ArgparseEnv : Type := {
  int_of_text : string -> option Z;
  help_text : string;
  error_text : command_line -> string
}.

(** The [choices] of [--method] (line 241) and of [--format] (line 251). *)
Definition method_choices : list string :=
  ["get"; "add"; "set"; "update"; "delete"; "exec"].

Definition format_choices : list string := ["json"; "pretty"; "table"].

Record credentials : Type := mkCreds {
  c_host : string;
  c_username : option string;
  c_password : option string;
  c_apikey : option string
}.

Section WithEnv.
Context {env : PyEnv} {cli : CliEnv}.
Variable fmg_lib : FortiManager.
Local Open Scope m_scope.

(** [parse_data_argument]: only [json.JSONDecodeError] is caught and
    wrapped. *)
Definition parse_data_argument (data_str : string) : result json :=
  match json_loads data_str with
  | Decoded v => Ret v
  | DecodeError message =>
      Raise (mkExn ValueError ("Invalid JSON data: " ++ message))
  | Failed e => Raise e
  end.

(** Lines 257-263. *)
Definition load_stage (a : cli_args) : M config :=
  match a_config a with
  | Some (String c r) =>
      try_except (lift_result (load_config_file (String c r)))
        (fun e =>
           match exn_cls e with
           | FileNotFoundError | ValueError =>
               emit (PrintErr ("Error loading configuration: " ++ exn_msg e)) ;;
               sys_exit 1
           | _ => raise e
           end)
  | _ => ret []
  end.

(** Lines 268-277. *)
Definition credentials_stage (a : cli_args) (cfg : config) : M credentials :=
  let host := opt_or (opt_or (a_host a) (config_get cfg "host")) (config_get cfg "ip") in
  let username :=
    opt_or (Some (a_username a))
           (match config_get cfg "username" with
            | Some u => Some u
            | None => Some "admin"
            end) in
  let password := opt_or (a_password a) (config_get cfg "password") in
  let apikey := opt_or (a_apikey a) (config_get cfg "apikey") in
  match host with
  | Some (String c r) =>
      if negb (given apikey) && negb (given password) then
        emit (PrintErr "Error: Either API key or password is required") ;;
        sys_exit 1
      else ret (mkCreds (String c r) username password apikey)
  | _ =>
      emit (PrintErr "Error: FortiManager host/IP address is required") ;;
      sys_exit 1
  end.

(** Lines 278-284. *)
Definition data_stage (a : cli_args) : M (option json) :=
  match a_data a with
  | Some (String c r) =>
      try_except
        (v <- lift_result (parse_data_argument (String c r)) ;; ret (Some v))
        (fun e =>
           match exn_cls e with
           | ValueError =>
               emit (PrintErr ("Error parsing data: " ++ exn_msg e)) ;;
               sys_exit 1
           | _ => raise e
           end)
  | _ => ret None
  end.

(** Line 307, the [max_fields] argument handed to the formatter. *)
Definition table_max_fields (a : cli_args) : Z :=
  if negb (a_table_max_fields a =? 0)%Z then a_table_max_fields a else 999%Z.

(** Lines 303-319. *)
Definition print_response (a : cli_args) (response : json) : M unit :=
  match a_format a with
  | FmtTable =>
      try_except
        (table_output <-
           lift_result
             (TableFormatter.format_table response (table_max_fields a)
                (a_table_max_width a)) ;;
         emit (Print table_output))
        (fun e =>
           if is_Exception e then
             emit (PrintErr ("Error formatting table: " ++ exn_msg e)) ;;
             emit (Print "Falling back to JSON output:") ;;
             emit (Print (json_dumps response (Some 2%nat)))
           else raise e)
  | FmtJson => emit (Print ("Response: " ++ json_dumps response None))
  | FmtPretty =>
      emit (Print "Response:") ;;
      emit (Print (json_dumps response (Some 2%nat)))
  end.

(** Lines 320-328.  A [bool] is an [int] too, with value 0 or 1. *)
Definition exit_on_status (status_code : json) : M unit :=
  match status_code with
  | JInt z =>
      if (z <? 0)%Z then sys_exit 1
      else if (400 <=? z)%Z then sys_exit 2
      else ret tt
  | JBool _ => ret tt
  | JStr s =>
      if negb (PyStr.mem (PyStr.lower s) ["success"; "ok"]) then
        emit (PrintErr ("Warning: Unexpected status code: " ++ s)) ;;
        sys_exit 1
      else ret tt
  | _ => ret tt
  end.

(** Lines 285-334, the [try] block and its two [except] clauses. *)
Definition request_stage (a : cli_args) (cr : credentials)
  (request_data : option json) : M unit :=
  try_except
    (client <- lift_result
                 (init (c_host cr) (c_username cr) (c_password cr) (c_apikey cr)
                       (negb (a_no_ssl a)) (a_verify_ssl a) (a_timeout a)
                       (a_debug a)) ;;
     sr <- execute_request fmg_lib client (a_method a) (a_endpoint a)
             request_data (a_query a) ;;
     emit (Print ("Status Code: " ++ py_str (fst sr))) ;;
     print_response a (snd sr) ;;
     exit_on_status (fst sr))
    (fun e =>
       match exn_cls e with
       | ValueError =>
           emit (PrintErr ("Error: " ++ exn_msg e)) ;;
           sys_exit 1
       | KeyboardInterrupt =>
           emit (PrintErr (PyStr.newline ++ "Operation cancelled by user")) ;;
           sys_exit 130
       | _ => raise e
       end).

(** Lines 257-284: everything [main] does before it builds the client. *)
Definition prepare (a : cli_args) : M (credentials * option json) :=
  cfg <- load_stage a ;;
  cr <- credentials_stage a cfg ;;
  request_data <- data_stage a ;;
  ret (cr, request_data).

(** [main], after the arguments are parsed. *)
Definition main (a : cli_args) : M unit :=
  p <- prepare a ;;
  request_stage a (fst p) (snd p).

(** The exit status [main] ends with on parsed arguments. *)
Definition run (a : cli_args) (tr : trace) : Z * trace :=
  let (r, tr') := main a tr in (exit_status r, tr').

Context {argenv : ArgparseEnv}.

(** [parser.error(...)]: the usage and the message on standard error, then
    exit status 2. *)
Definition parser_error {A} (cl : command_line) : M A :=
  emit (PrintErr (error_text cl)) ;; sys_exit 2.

(** An option declared with [type=int] and a default. *)
Definition convert_int (cl : command_line) (text : option string) (dflt : Z)
  : M Z :=
  match text with
  | None => ret dflt
  | Some t =>
      match int_of_text t with
      | Some z => ret z
      | None => parser_error cl
      end
  end.

(** [--format], with its choices and its default. *)
Definition convert_format (cl : command_line) (text : option string) : M format :=
  match text with
  | None => ret FmtJson
  | Some t =>
      if String.eqb t "json" then ret FmtJson
      else if String.eqb t "pretty" then ret FmtPretty
      else if String.eqb t "table" then ret FmtTable
      else parser_error cl
  end.

(** [--method], with its choices; that it is required is checked last. *)
Definition convert_method (cl : command_line) (text : option string)
  : M (option string) :=
  match text with
  | None => ret None
  | Some m => if PyStr.mem m method_choices then ret (Some m) else parser_error cl
  end.

(** Line 256, [parser.parse_args()] on the declarations of lines 234-255:
    values are converted and checked against the choices, then the required
    options are looked for. *)
Definition parse_args (cl : command_line) : M cli_args :=
  match cl with
  | Help => emit (Print help_text) ;; sys_exit 0
  | Unparsable => parser_error cl
  | Options r =>
      method <- convert_method cl (r_method r) ;;
      timeout <- convert_int cl (r_timeout r) 300 ;;
      fmt <- convert_format cl (r_format r) ;;
      width <- convert_int cl (r_table_max_width r) 50 ;;
      fields <- convert_int cl (r_table_max_fields r) 6 ;;
      match method, r_endpoint r with
      | Some m, Some e =>
          ret (mkArgs (r_config r) (r_host r)
                      (match r_username r with Some u => u | None => "admin" end)
                      (r_password r) (r_apikey r) m e (r_data r) (r_query r)
                      (r_no_ssl r) (r_verify_ssl r) (r_ssl_warnings r) timeout
                      (r_debug r) fmt width fields)
      | _, _ => parser_error cl
      end
  end.

(** The program from the command line on: lines 256-334. *)
Definition process (cl : command_line) : M unit :=
  a <- parse_args cl ;;
  main a.

(** The exit status of the process. *)
Definition run_process (cl : command_line) (tr : trace) : Z * trace :=
  let (r, tr') := process cl tr in (exit_status r, tr').

End WithEnv.
End Cli.

(** ** A concrete environment

    Used to run the model on examples: floats print by class, the table is
    a plain rendering of headers and rows, and the device answers every call
    with the same pair. *)
Module Demo.
Import FortiManagerAPIClient Cli.

Definition show_float (f : spec_float) : string :=
  match f with
  | S754_zero false => "0.0"
  | S754_zero true => "-0.0"
  | S754_infinity false => "inf"
  | S754_infinity true => "-inf"
  | S754_nan => "nan"
  | S754_finite _ _ _ => "<float>"
  end.

Definition show_rows (rows : list (list string)) (headers : list string) : string :=
  PyStr.join PyStr.newline (map (PyStr.join " | ") (headers :: rows)).

#[export] Instance env : PyEnv := {
  float_repr := show_float;
  tabulate := show_rows
}.

#[export] Instance cli : CliEnv := {
  json_dumps := fun v _ => py_repr v;
  json_loads := fun s =>
    if String.eqb s "{}" then Decoded (JDict [])
    else DecodeError "Expecting value";
  load_config_file := fun path =>
    if String.eqb path "fmg.ini"
    then Ret [("host", "10.0.0.1"); ("password", "secret")]
    else Raise (mkExn FileNotFoundError ("Configuration file not found: " ++ path))
}.

(** A device that answers every call with [sr]. *)
Definition answering (sr : json * json) : FortiManager := {|
  fmg_new := fun _ => None;
  fmg_enter := fun _ => None;
  fmg_request := fun _ _ => Ret sr;
  fmg_exit := fun _ => None
|}.

(** A device that cannot be reached: the login raises [e]. *)
Definition unreachable (e : exn) : FortiManager := {|
  fmg_new := fun _ => None;
  fmg_enter := fun _ => Some e;
  fmg_request := fun _ _ => Raise e;
  fmg_exit := fun _ => None
|}.

Definition ok : json * json := (JInt 0, JList [JDict [("name", JStr "a")]]).

Definition self : client :=
  mkClient "10.0.0.1" "admin" (Some "secret") None true false 300 false.

Definition args : cli_args :=
  mkArgs None (Some "10.0.0.1") "admin" (Some "secret") None
         "get" "pm/config/adom/root/obj/firewall/address" None None
         false false false 300 false FmtJson 50 6.

(** The command line [-i 10.0.0.1 -p secret -m <verb> -e <path>]. *)
Definition raw (verb : string) : raw_args :=
  mkRaw None (Some "10.0.0.1") None (Some "secret") None
        (Some verb) (Some "pm/config/adom/root/obj/firewall/address") None None
        false false false None false None None None.

#[export] Instance argenv : ArgparseEnv := {
  int_of_text := fun t =>
    if String.eqb t "300" then Some 300%Z
    else if String.eqb t "0" then Some 0%Z
    else None;
  help_text := "usage: fmg_api_client.py [-h] ...";
  error_text := fun _ => "usage: fmg_api_client.py [-h] ... error"
}.

(** The same call with [--format table --table-max-fields 0]. *)
Definition table_args : cli_args :=
  mkArgs None (Some "10.0.0.1") "admin" (Some "secret") None
         "get" "pm/config/adom/root/obj/firewall/address" None None
         false false false 300 false FmtTable 50 0.

End Demo.

Import TableFormatter FortiManagerAPIClient Cli.

(** ** The specification's reading of the row selection

    The first of [results], [data], [items] that is present decides, whatever
    its value.  Compared below with [data_list_of]. *)
Module Spec.

Definition first_present (d : dict) : option json :=
  match lookup d "results" with
  | Some v => Some v
  | None =>
      match lookup d "data" with
      | Some v => Some v
      | None => lookup d "items"
      end
  end.

Definition rows_of_mapping (d : dict) : list json :=
  match first_present d with
  | Some (JList l) => l
  | Some (JDict d') => [JDict d']
  | _ => [JDict d]
  end.

(** The name of a list element as text: empty for a mapping without a
    [name]. *)
Definition name_text {env : PyEnv} (item : json) : string :=
  match item with
  | JDict d => py_str (get_default d "name" (JStr EmptyString))
  | _ => EmptyString
  end.

(** The exit codes of section 6, by status: 1 for a negative integer, 2
    for an integer of at least 400, 1 for a string other than success or ok
    in any case, 0 otherwise. *)
Definition exit_of_status (status_code : json) : Z :=
  match status_code with
  | JInt z => if (z <? 0)%Z then 1 else if (400 <=? z)%Z then 2 else 0
  | JStr s => if PyStr.mem (PyStr.lower s) ["success"; "ok"] then 0 else 1
  | _ => 0
  end.

(** [main] reaches the request, and the request returns [status_code]. *)
Definition request_returns {env : PyEnv} {cli : CliEnv} (fmg_lib : FortiManager)
  (a : cli_args) (tr : trace) (status_code : json) : Prop :=
  exists cr request_data tr1 client response tr2,
    prepare a tr = (Ret (cr, request_data), tr1)
    /\ init (c_host cr) (c_username cr) (c_password cr) (c_apikey cr)
            (negb (a_no_ssl a)) (a_verify_ssl a) (a_timeout a) (a_debug a)
       = Ret client
    /\ execute_request fmg_lib client (a_method a) (a_endpoint a) request_data
         (a_query a) tr1
       = (Ret (status_code, response), tr2).

(** [main] reaches the request, and the request raises [e]. *)
Definition request_raises {env : PyEnv} {cli : CliEnv} (fmg_lib : FortiManager)
  (a : cli_args) (tr : trace) (e : exn) : Prop :=
  exists cr request_data tr1 client tr2,
    prepare a tr = (Ret (cr, request_data), tr1)
    /\ init (c_host cr) (c_username cr) (c_password cr) (c_apikey cr)
            (negb (a_no_ssl a)) (a_verify_ssl a) (a_timeout a) (a_debug a)
       = Ret client
    /\ execute_request fmg_lib client (a_method a) (a_endpoint a) request_data
         (a_query a) tr1
       = (Raise e, tr2).

(** The command lines [parse_args] refuses: a required option is absent,
    a verb or a format is outside its choices, or a value declared as an
    integer is none. *)
Definition rejected {argenv : ArgparseEnv} (r : raw_args) : Prop :=
  r_method r = None
  \/ r_endpoint r = None
  \/ (exists m, r_method r = Some m /\ PyStr.mem m method_choices = false)
  \/ (exists t, r_format r = Some t /\ PyStr.mem t format_choices = false)
  \/ (exists t, (r_timeout r = Some t \/ r_table_max_width r = Some t
                 \/ r_table_max_fields r = Some t)
                /\ int_of_text t = None).

(** The table of section 4.3, for an exception of class [Exception]. *)
Definition classified (e : exn) : json * json :=
  match exn_cls e with
  | FMGConnectionError | FMGConnectTimeout =>
      (JInt (-1), error_payload "Connection failed" (exn_msg e))
  | FMGValidSessionException =>
      (JInt (-2), error_payload "Invalid session" (exn_msg e))
  | FMGBaseException =>
      (JInt (-3), error_payload "API error" (exn_msg e))
  | _ =>
      (JInt (-4), error_payload "Unexpected error" (exn_msg e))
  end.

End Spec.

(** The values [_flatten_value] returns on: a list that starts with a named
    mapping holds mappings only. *)
Definition flattens (value : json) : bool :=
  match value with
  | JList (v0 :: r) => if first_has_name v0 then forallb is_dict r else true
  | _ => true
  end.

(** The rows [format_table] returns on: mappings whose values flatten. *)
Definition renders (item : json) : bool :=
  match item with
  | JDict d => forallb (fun kv => flattens (snd kv)) d
  | _ => false
  end.

(** The order of the ranking, and the keys that share a count. *)
Definition desc (x y : string * nat) : Prop := (snd y <= snd x)%nat.

Definition with_count (n : nat) (l : counts) : counts :=
  filter (fun x => (snd x =? n)%nat) l.

(** [field_counts.get(key, 0)], and the number of times [key] is met when
    the keys of the mapping rows are walked in order. *)
Fixpoint count_of (fc : counts) (key : string) : nat :=
  match fc with
  | [] => 0%nat
  | (k, n) :: r => if String.eqb k key then n else count_of r key
  end.

Definition occurrences (key : string) (rows : list json) : nat :=
  list_sum
    (map (fun item =>
            match item with
            | JDict d => count_occ string_dec (keys d) key
            | _ => 0%nat
            end) rows).

(** A row with [n] distinct keys [k0], [k1], ... *)
Definition wide_row (n : nat) : dict :=
  map (fun i => ("k" ++ PyStr.of_nat i, JInt (Z.of_nat i))) (seq 0 n).

(** ** [load_config_file] *)
Module ConfigFile.

(** A file read by [configparser]: whether it has a section, and
    [dict(parser[section])], which can raise on interpolation. *)
Record ini_parser : Type := {
  has_section : string -> bool;
  section_items : string -> result (list (string * string))
}.

(** What [load_config_file] takes from outside: [Path.exists], opening and
    reading the file, [json.load] on its text and [ConfigParser.read]. *)
Class FsEnv : Type := {
  path_exists : string -> bool;
  open_read : string -> result string;
  json_load : string -> decoded;
  parser_read : string -> result ini_parser
}.

(** The two kinds of value the function returns. *)
Inductive loaded : Type :=
| FromJson (v : json)
| FromIni (items : list (string * string)).

(** [key in v] *)
Definition contains_key (v : json) (key : string) : result bool :=
  match v with
  | JDict d => Ret (has_key d key)
  | JList l =>
      Ret (existsb (fun x => match x with
                             | JStr s => String.eqb s key
                             | _ => false
                             end) l)
  | JStr s => Ret (match index 0 key s with Some _ => true | None => false end)
  | _ => Raise (mkExn TypeError
                  ("argument of type '" ++ type_name v ++ "' is not iterable"))
  end.

(** [v[key]] for a key that is a [str] *)
Definition subscript (v : json) (key : string) : result json :=
  match v with
  | JDict d =>
      match lookup d key with
      | Some x => Ret x
      | None => Raise (mkExn OtherException (PyStr.repr key))
      end
  | _ => Raise (mkExn TypeError
                  (type_name v ++ " indices must be integers"))
  end.

Section WithFs.
Context {fs : FsEnv}.

(** Lines 180-187, the INI branch. *)
Definition load_ini (config_path : string) : result loaded :=
  match rbind (parser_read config_path)
              (fun parser =>
                 let section := if has_section parser "fortimanager"
                                then "fortimanager" else "DEFAULT" in
                 section_items parser section) with
  | Ret items => Ret (FromIni items)
  | Raise e =>
      if is_Exception e
      then Raise (mkExn ValueError
                    ("Unable to parse configuration file: " ++ exn_msg e))
      else Raise e
  end.

(** [load_config_file(config_path)] *)
Definition load_config_file (config_path : string) : result loaded :=
  if negb (path_exists config_path)
  then Raise (mkExn FileNotFoundError
                ("Configuration file not found: " ++ config_path))
  else
    match open_read config_path with
    | Raise e => Raise e
    | Ret text =>
        match json_load text with
        | Decoded json_config =>
            rbind (contains_key json_config "fortimanager")
              (fun found =>
                 if found
                 then rbind (subscript json_config "fortimanager")
                            (fun config => Ret (FromJson config))
                 else Ret (FromJson json_config))
        | DecodeError _ => load_ini config_path
        | Failed e => Raise e
        end
    end.

End WithFs.
End ConfigFile.

(** A small file system for examples: [fmg.json] holds a JSON object with a
    [fortimanager] entry, [fmg.ini] an INI file, [five.json] the number 5. *)
Module DemoFs.
Import ConfigFile.

Definition ini : ini_parser := {|
  has_section := fun name => String.eqb name "fortimanager";
  section_items := fun name =>
    if String.eqb name "fortimanager"
    then Ret [("host", "10.0.0.1"); ("password", "secret")]
    else Ret []
|}.

#[export] Instance fs : FsEnv := {
  path_exists := fun p =>
    String.eqb p "fmg.json" || String.eqb p "fmg.ini" || String.eqb p "five.json";
  open_read := fun p => Ret p;
  json_load := fun text =>
    if String.eqb text "fmg.json"
    then Decoded (JDict [("fortimanager", JDict [("host", JStr "10.0.0.1")]);
                         ("other", JInt 1)])
    else if String.eqb text "five.json" then Decoded (JInt 5)
    else DecodeError "Expecting value";
  parser_read := fun p => Ret ini
}.

End DemoFs.

(** ** Vocabulary for the further properties *)

(** The arguments with one field replaced. *)
Definition with_format (a : cli_args) (f : format) : cli_args :=
  mkArgs (a_config a) (a_host a) (a_username a) (a_password a) (a_apikey a)
         (a_method a) (a_endpoint a) (a_data a) (a_query a) (a_no_ssl a)
         (a_verify_ssl a) (a_ssl_warnings a) (a_timeout a) (a_debug a) f
         (a_table_max_width a) (a_table_max_fields a).

Definition with_config (a : cli_args) (c : option string) : cli_args :=
  mkArgs c (a_host a) (a_username a) (a_password a) (a_apikey a)
         (a_method a) (a_endpoint a) (a_data a) (a_query a) (a_no_ssl a)
         (a_verify_ssl a) (a_ssl_warnings a) (a_timeout a) (a_debug a)
         (a_format a) (a_table_max_width a) (a_table_max_fields a).

Definition with_data (a : cli_args) (d : option string) : cli_args :=
  mkArgs (a_config a) (a_host a) (a_username a) (a_password a) (a_apikey a)
         (a_method a) (a_endpoint a) d (a_query a) (a_no_ssl a)
         (a_verify_ssl a) (a_ssl_warnings a) (a_timeout a) (a_debug a)
         (a_format a) (a_table_max_width a) (a_table_max_fields a).

(** Kinds of events. *)
Definition is_stderr (ev : event) : bool :=
  match ev with PrintErr _ => true | _ => false end.

Definition is_create (ev : event) : bool :=
  match ev with Create _ => true | _ => false end.

Definition is_login (ev : event) : bool :=
  match ev with Login => true | _ => false end.

Definition is_call (ev : event) : bool :=
  match ev with Call _ => true | _ => false end.

Definition is_logout (ev : event) : bool :=
  match ev with Logout => true | _ => false end.

Definition count (p : event -> bool) (evs : list event) : nat :=
  List.length (filter p evs).

(** A computation that writes to standard error only, and writes nothing
    when it returns. *)
Definition quiet {A} (m : M A) : Prop :=
  forall tr, exists evs,
    snd (m tr) = (tr ++ evs)%list
    /\ forallb is_stderr evs = true
    /\ (is_ret (fst (m tr)) = true -> evs = []).

(** [item] is a mapping that has [key]. *)
Definition holds (key : string) (item : json) : bool :=
  match item with
  | JDict d => has_key d key
  | _ => false
  end.

(** The exit status after an exception leaves the [try] block of [main]:
    its two handlers, then the interpreter. *)
Definition exit_of_exception (e : exn) : Z :=
  match exn_cls e with
  | ValueError => 1
  | KeyboardInterrupt => 130
  | SystemExit code => code
  | _ => 1
  end.

(** ** Properties of [execute_request] *)

(** C1 (as stated) fails: the verb [foo] is outside the supported set, and
    [execute_request] does not return a pair with status -5; it raises. *)
Lemma execute_request_unsupported_counterexample :
  PyStr.mem (PyStr.lower "foo") supported = false /\
  ~ (exists payload tr,
       execute_request (Demo.answering Demo.ok) Demo.self "foo" "/sys/status"
         None None [] = (Ret (JInt (-5), payload), tr)).
Proof.
  split; [reflexivity|].
  intros (payload & tr & H). vm_compute in H. discriminate H.
Qed.

(** C1 (amended).  For every verb whose lower-case form is outside
    get, add, set, update, delete, exec, [execute_request] raises
    [ValueError] with the message "Unsupported HTTP method: <verb>", and the
    trace is left as it was: no connection is created, nothing is sent. *)
Theorem execute_request_unsupported_raises :
  forall (fmg_lib : FortiManager) (self : client) (method endpoint : string)
         (data : option json) (query_params : option (list string)) (tr : trace),
    PyStr.mem (PyStr.lower method) supported = false ->
    execute_request fmg_lib self method endpoint data query_params tr
    = (Raise (mkExn ValueError ("Unsupported HTTP method: " ++ PyStr.lower method)),
       tr).
Proof.
  intros fmg_lib self method endpoint data query_params tr H.
  unfold execute_request. rewrite H. reflexivity.
Qed.

Lemma execute_request_unsupported_raises_witness :
  PyStr.mem (PyStr.lower "Foo") supported = false /\
  execute_request (Demo.answering Demo.ok) Demo.self "Foo" "/sys/status" None None []
  = (Raise (mkExn ValueError "Unsupported HTTP method: foo"), []).
Proof.
  split; [reflexivity|].
  apply (execute_request_unsupported_raises (Demo.answering Demo.ok) Demo.self
           "Foo" "/sys/status" None None []).
  reflexivity.
Defined.

(** C8.  The verbs [set] and [update] are aliases: for every device,
    client, endpoint, body and query parameters, the two runs leave the same
    trace (the same wire call) and the same result. *)
Theorem execute_request_set_update_alias :
  forall (fmg_lib : FortiManager) (self : client) (endpoint : string)
         (data : option json) (query_params : option (list string)) (tr : trace),
    execute_request fmg_lib self "set" endpoint data query_params tr
    = execute_request fmg_lib self "update" endpoint data query_params tr.
Proof.
  intros. reflexivity.
Qed.

(** *** The shape of one attempt *)

Lemma lift_result_run {A} (r : result A) (tr : trace) :
  lift_result r tr = (r, tr).
Proof. destruct r; reflexivity. Qed.

Lemma supported_cases (m : string) :
  PyStr.mem m supported = true ->
  m = "get" \/ m = "add" \/ m = "set" \/ m = "update" \/ m = "delete" \/ m = "exec".
Proof.
  unfold supported. simpl. intros H.
  repeat match type of H with
         | (String.eqb ?a ?b || _)%bool = true =>
             destruct (String.eqb_spec a b); [subst; tauto | simpl in H]
         end.
  discriminate H.
Qed.

(** Under a supported verb the body of the [with] block either fails on the
    [**kwargs] unpacking, before anything is sent, or sends exactly one call
    to the normalized path and yields what the device gives back. *)
Lemma dispatch_supported (fmg_lib : FortiManager) (c : conn_args)
  (m e : string) (d : option json) (q : option (list string)) (tr : trace) :
  PyStr.mem m supported = true ->
  (exists x, exn_cls x = TypeError /\ dispatch fmg_lib c m e d q tr = (Raise x, tr))
  \/ (exists w, call_url w = e /\
        dispatch fmg_lib c m e d q tr
        = (fmg_request fmg_lib c w, (tr ++ [Call w])%list)).
Proof.
  intros H. apply supported_cases in H.
  unfold dispatch, request, bind, emit.
  set (kwargs := match d with Some v => py_or v (JDict []) | None => JDict [] end).
  destruct H as [-> | [-> | [-> | [-> | [-> | ->]]]]]; simpl;
    try (right; eexists; split; [| rewrite lift_result_run; reflexivity];
         reflexivity);
    destruct kwargs; simpl;
      try (left; eexists; split; [| reflexivity]; reflexivity);
      right; eexists; (split; [| rewrite lift_result_run; reflexivity]);
      reflexivity.
Qed.

Lemma with_connection_run {A} (fmg_lib : FortiManager) (c : conn_args)
  (body : M A) (tr : trace) :
  with_connection fmg_lib c body tr =
  match fmg_new fmg_lib c with
  | Some x => (Raise x, (tr ++ [Create c])%list)
  | None =>
      match fmg_enter fmg_lib c with
      | Some x => (Raise x, ((tr ++ [Create c]) ++ [Login])%list)
      | None =>
          let (r, tr') := body ((tr ++ [Create c]) ++ [Login])%list in
          match fmg_exit fmg_lib c with
          | Some x => (Raise x, (tr' ++ [Logout])%list)
          | None => (r, (tr' ++ [Logout])%list)
          end
      end
  end.
Proof.
  unfold with_connection, bind, emit, lift_opt, raise, ret.
  destruct (fmg_new fmg_lib c); [reflexivity|].
  destruct (fmg_enter fmg_lib c); [reflexivity|].
  destruct (body _) as [r tr']. destruct (fmg_exit fmg_lib c); reflexivity.
Qed.

Lemma handler_Exception (e : exn) (tr : trace) :
  is_Exception e = true ->
  exists line, handler e tr = (Ret (Spec.classified e), (tr ++ [Print line])%list).
Proof.
  unfold is_Exception, handler, Spec.classified, bind, emit, ret.
  destruct (exn_cls e); intros H; try discriminate H; eexists; reflexivity.
Qed.

Lemma handler_BaseException (e : exn) (tr : trace) :
  is_Exception e = false -> handler e tr = (Raise e, tr).
Proof.
  unfold is_Exception, handler, raise.
  destruct (exn_cls e); intros H; try discriminate H; reflexivity.
Qed.

(** C3 (as stated) fails: a device that answers a [get] with status -3
    (the session opens, the call returns, the logout succeeds) makes
    [execute_request] return the negative status -3 for an answered request. *)
Lemma execute_request_negative_counterexample :
  let device := Demo.answering (JInt (-3), JDict [("message", JStr "Object does not exist")]) in
  let c := _create_connection Demo.self in
  fmg_new device c = None /\ fmg_enter device c = None /\
  fmg_request device c (FmgGet "/pm/config/adom/root/obj/firewall/address/x" [])
  = Ret (JInt (-3), JDict [("message", JStr "Object does not exist")]) /\
  fmg_exit device c = None /\
  fst (execute_request device Demo.self "get"
         "/pm/config/adom/root/obj/firewall/address/x" None None [])
  = Ret (JInt (-3), JDict [("message", JStr "Object does not exist")]) /\
  (-3 < 0)%Z.
Proof.
  cbv zeta. repeat split.
Qed.

(** *** The path that is sent *)

Lemma normalize_startswith (endpoint : string) :
  PyStr.startswith "/" (normalize endpoint) = true.
Proof.
  unfold normalize. destruct (PyStr.startswith "/" endpoint) eqn:E; simpl.
  - exact E.
  - unfold PyStr.startswith. simpl. destruct endpoint; reflexivity.
Qed.

Lemma normalize_fixed (endpoint : string) :
  PyStr.startswith "/" endpoint = true -> normalize endpoint = endpoint.
Proof. intros H. unfold normalize. rewrite H. reflexivity. Qed.

Lemma normalize_prefixes (endpoint : string) :
  PyStr.startswith "/" endpoint = false -> normalize endpoint = "/" ++ endpoint.
Proof. intros H. unfold normalize. rewrite H. reflexivity. Qed.

Lemma dispatch_sends (fmg_lib : FortiManager) (c : conn_args)
  (m e : string) (d : option json) (q : option (list string)) (tr : trace) :
  PyStr.mem m supported = true ->
  d = None \/ (exists kw, d = Some (JDict kw)) ->
  exists w, call_url w = e /\
    dispatch fmg_lib c m e d q tr = (fmg_request fmg_lib c w, (tr ++ [Call w])%list).
Proof.
  intros H Hd.
  destruct (dispatch_supported fmg_lib c m e d q tr H)
    as [(x & Hx & Hraise) | Hsend]; [| exact Hsend].
  exfalso. apply supported_cases in H.
  assert (Hk : exists kw,
             match d with Some v => py_or v (JDict []) | None => JDict [] end
             = JDict kw).
  { destruct Hd as [-> | (kw & ->)]; [eexists; reflexivity|].
    destruct kw; eexists; reflexivity. }
  destruct Hk as (kw & Hk).
  unfold dispatch, request, bind, emit in Hraise. rewrite Hk in Hraise.
  destruct H as [-> | [-> | [-> | [-> | [-> | ->]]]]]; simpl in Hraise;
    rewrite lift_result_run in Hraise; injection Hraise as _ Htr;
    apply (f_equal (@List.length event)) in Htr;
    rewrite List.length_app in Htr; simpl in Htr; lia.
Qed.

(** C3 (amended).  Under a supported verb, write [attempt] for the body of
    the [try]: constructor, login, the one call, logout.
    (1) When the attempt returns, that pair is what the device answered to a
    call on the normalized path, and [execute_request] returns it unchanged,
    whatever its sign.  (2) When the attempt raises an exception [e] of class
    [Exception], [execute_request] prints one line and returns the pair of
    the table: connection error or connect timeout (-1, "Connection failed"),
    invalid session (-2, "Invalid session"), other FortiManager exception
    (-3, "API error"), anything else (-4, "Unexpected error"), each with
    [details] the text of [e].  (3) [KeyboardInterrupt] and [SystemExit] pass
    through.  (4, 5) The attempt raises what the constructor raises, and
    else what the login raises.  (6) With no body or a mapping as body one
    call goes to the normalized path, and once the session is open: an
    answered call followed by a logout that does not raise makes
    [execute_request] return the answer unchanged; a call that raises,
    followed by such a logout, makes the attempt raise that exception; and a
    logout that raises makes the attempt raise the logout's exception,
    whatever the call gave, so that an answered request is then reported by
    the pair classified for the logout's exception. *)
Theorem execute_request_classifies :
  forall (fmg_lib : FortiManager) (self : client) (method endpoint : string)
         (data : option json) (query_params : option (list string)) (tr : trace),
    PyStr.mem (PyStr.lower method) supported = true ->
    let c := _create_connection self in
    let attempt :=
      with_connection fmg_lib c
        (dispatch fmg_lib c (PyStr.lower method) (normalize endpoint) data query_params) in
    let run := execute_request fmg_lib self method endpoint data query_params tr in
    (forall sr tr1, attempt tr = (Ret sr, tr1) ->
       run = (Ret sr, tr1) /\
       exists w, call_url w = normalize endpoint /\ fmg_request fmg_lib c w = Ret sr)
    /\ (forall e tr1, attempt tr = (Raise e, tr1) -> is_Exception e = true ->
          exists line, run = (Ret (Spec.classified e), (tr1 ++ [Print line])%list))
    /\ (forall e tr1, attempt tr = (Raise e, tr1) -> is_Exception e = false ->
          run = (Raise e, tr1))
    /\ (forall x, fmg_new fmg_lib c = Some x ->
          attempt tr = (Raise x, (tr ++ [Create c])%list))
    /\ (forall x, fmg_new fmg_lib c = None -> fmg_enter fmg_lib c = Some x ->
          attempt tr = (Raise x, (tr ++ [Create c; Login])%list))
    /\ (data = None \/ (exists kw, data = Some (JDict kw)) ->
        exists w, call_url w = normalize endpoint /\
          (fmg_new fmg_lib c = None -> fmg_enter fmg_lib c = None ->
           let tr1 := (tr ++ [Create c; Login; Call w; Logout])%list in
           (forall sr, fmg_request fmg_lib c w = Ret sr ->
                       fmg_exit fmg_lib c = None -> run = (Ret sr, tr1))
           /\ (forall x, fmg_request fmg_lib c w = Raise x ->
                         fmg_exit fmg_lib c = None -> attempt tr = (Raise x, tr1))
           /\ (forall x, fmg_exit fmg_lib c = Some x ->
                         attempt tr = (Raise x, tr1)))).
Proof.
  intros fmg_lib self method endpoint data query_params tr H c attempt run.
  assert (Hrun : run = try_except attempt handler tr).
  { unfold run, execute_request. rewrite H. reflexivity. }
  assert (Hattempt :
            attempt tr
            = with_connection fmg_lib c
                (dispatch fmg_lib c (PyStr.lower method) (normalize endpoint)
                   data query_params) tr) by reflexivity.
  rewrite with_connection_run in Hattempt.
  split; [| split; [| split; [| split; [| split]]]].
  - intros sr tr1 H0. split.
    + rewrite Hrun. unfold try_except. rewrite H0. reflexivity.
    + rewrite Hattempt in H0.
      destruct (fmg_new fmg_lib c); [discriminate H0|].
      destruct (fmg_enter fmg_lib c); [discriminate H0|].
      destruct (dispatch_supported fmg_lib c (PyStr.lower method) (normalize endpoint)
                  data query_params ((tr ++ [Create c]) ++ [Login])%list H)
        as [(x & _ & Hd) | (w & Hw & Hd)]; rewrite Hd in H0;
        destruct (fmg_exit fmg_lib c); try discriminate H0.
      exists w. split; [exact Hw|]. injection H0 as -> _. reflexivity.
  - intros e tr1 Ha He. rewrite Hrun. unfold try_except. rewrite Ha.
    apply handler_Exception, He.
  - intros e tr1 Ha He. rewrite Hrun. unfold try_except. rewrite Ha.
    apply handler_BaseException, He.
  - intros x Hn. rewrite Hattempt, Hn. reflexivity.
  - intros x Hn He. rewrite Hattempt, Hn, He.
    rewrite <- List.app_assoc. reflexivity.
  - intros Hd.
    destruct (dispatch_sends fmg_lib c (PyStr.lower method) (normalize endpoint)
                data query_params ((tr ++ [Create c]) ++ [Login])%list H Hd)
      as (w & Hw & Hs).
    exists w. split; [exact Hw|]. intros Hn He tr1.
    rewrite Hn, He, Hs in Hattempt.
    assert (Htr : ((((tr ++ [Create c]) ++ [Login]) ++ [Call w]) ++ [Logout])%list
                  = tr1).
    { unfold tr1. repeat rewrite <- List.app_assoc. reflexivity. }
    rewrite Htr in Hattempt.
    split; [| split].
    + intros sr Hr Hx. rewrite Hr, Hx in Hattempt.
      rewrite Hrun. unfold try_except. rewrite Hattempt. reflexivity.
    + intros x Hr Hx. rewrite Hr, Hx in Hattempt. exact Hattempt.
    + intros x Hx. rewrite Hx in Hattempt. exact Hattempt.
Qed.

Lemma execute_request_classifies_witness :
  PyStr.mem (PyStr.lower "GET") supported = true
  /\ fst (execute_request (Demo.unreachable (mkExn FMGConnectTimeout "timed out"))
            Demo.self "GET" "sys/status" None None [])
     = Ret (JInt (-1), error_payload "Connection failed" "timed out")
  /\ execute_request (Demo.answering (JInt 404, JNull)) Demo.self "GET"
       "sys/status" None None []
     = (Ret (JInt 404, JNull),
        [Create (_create_connection Demo.self); Login;
         Call (FmgGet "/sys/status" []); Logout])
  /\ (exists w,
        call_url w = "/sys/status"
        /\ execute_request (Demo.answering (JInt (-3), JNull)) Demo.self "GET"
             "sys/status" None None []
           = (Ret (JInt (-3), JNull),
              [Create (_create_connection Demo.self); Login; Call w; Logout])).
Proof.
  split; [reflexivity|]. split; [| split].
  - destruct (execute_request_classifies
                (Demo.unreachable (mkExn FMGConnectTimeout "timed out"))
                Demo.self "GET" "sys/status" None None [] eq_refl)
      as (_ & Hraise & _).
    destruct (Hraise (mkExn FMGConnectTimeout "timed out")
                [Create (_create_connection Demo.self); Login] eq_refl eq_refl)
      as (line & Hline).
    rewrite Hline. reflexivity.
  - destruct (execute_request_classifies
                (Demo.answering (JInt 404, JNull))
                Demo.self "GET" "sys/status" None None [] eq_refl)
      as (Hret & _).
    exact (proj1 (Hret (JInt 404, JNull)
                    [Create (_create_connection Demo.self); Login;
                     Call (FmgGet "/sys/status" []); Logout] eq_refl)).
  - destruct (execute_request_classifies
                (Demo.answering (JInt (-3), JNull))
                Demo.self "GET" "sys/status" None None [] eq_refl)
      as (_ & _ & _ & _ & _ & Hsend).
    destruct (Hsend (or_introl eq_refl)) as (w & Hw & Hopen).
    exists w. split; [exact Hw|].
    exact (proj1 (Hopen eq_refl eq_refl) (JInt (-3), JNull) eq_refl eq_refl).
Defined.

Lemma handler_trace (e : exn) (tr : trace) :
  exists evs, snd (handler e tr) = (tr ++ evs)%list /\
              forall w, ~ In (Call w) evs.
Proof.
  destruct (is_Exception e) eqn:E.
  - destruct (handler_Exception e tr E) as (line & ->). simpl.
    exists [Print line]. split; [reflexivity|].
    intros w [Hw | []]. discriminate Hw.
  - rewrite (handler_BaseException e tr E). simpl.
    exists []. split; [symmetry; apply List.app_nil_r | intros w []].
Qed.

Lemma try_except_handler_trace (m : M (json * json)) (tr : trace)
  (evs : list event) (p : string) :
  snd (m tr) = (tr ++ evs)%list ->
  (forall w, In (Call w) evs -> call_url w = p) ->
  exists evs', snd (try_except m handler tr) = (tr ++ evs')%list /\
               (forall w, In (Call w) evs' -> call_url w = p) /\
               (forall w, In (Call w) evs -> In (Call w) evs').
Proof.
  intros Hm Hp. unfold try_except. destruct (m tr) as [[sr | e] tr']; simpl in Hm.
  - exists evs. simpl. auto.
  - destruct (handler_trace e tr') as (hs & Hh & Hn). rewrite Hh, Hm.
    exists (evs ++ hs)%list. split; [symmetry; apply List.app_assoc|].
    split; intros w Hw.
    + apply List.in_app_or in Hw. destruct Hw as [Hw | Hw]; [auto|].
      elim (Hn w Hw).
    + apply List.in_or_app. left. exact Hw.
Qed.

(** C7.  Under a supported verb, the path [execute_request] works with
    begins with a slash: an endpoint that has one is kept, any other gets
    exactly one in front, and normalizing twice changes nothing.  Every call
    the run adds to the trace carries that path, and a call is sent as soon
    as the session opens and the body is absent or a mapping. *)
Theorem execute_request_path :
  forall (fmg_lib : FortiManager) (self : client) (method endpoint : string)
         (data : option json) (query_params : option (list string)) (tr : trace),
    PyStr.mem (PyStr.lower method) supported = true ->
    let p := normalize endpoint in
    let c := _create_connection self in
    PyStr.startswith "/" p = true
    /\ (PyStr.startswith "/" endpoint = true -> p = endpoint)
    /\ (PyStr.startswith "/" endpoint = false -> p = "/" ++ endpoint)
    /\ normalize p = p
    /\ exists evs,
         snd (execute_request fmg_lib self method endpoint data query_params tr)
         = (tr ++ evs)%list
         /\ (forall w, In (Call w) evs -> call_url w = p)
         /\ (fmg_new fmg_lib c = None -> fmg_enter fmg_lib c = None ->
             data = None \/ (exists kw, data = Some (JDict kw)) ->
             exists w, In (Call w) evs).
Proof.
  intros fmg_lib self method endpoint data query_params tr H p c.
  split; [apply normalize_startswith|].
  split; [apply normalize_fixed|].
  split; [apply normalize_prefixes|].
  split; [apply normalize_fixed, normalize_startswith|].
  unfold execute_request. rewrite H. simpl negb. cbv iota.
  fold p. fold c.
  set (body := dispatch fmg_lib c (PyStr.lower method) p data query_params).
  assert (Hatt : exists evs,
             snd (with_connection fmg_lib c body tr) = (tr ++ evs)%list
             /\ (forall w, In (Call w) evs -> call_url w = p)
             /\ (fmg_new fmg_lib c = None -> fmg_enter fmg_lib c = None ->
                 data = None \/ (exists kw, data = Some (JDict kw)) ->
                 exists w, In (Call w) evs)).
  { rewrite with_connection_run.
    destruct (fmg_new fmg_lib c) eqn:Hnew.
    { exists [Create c]. simpl. split; [reflexivity|]. split.
      - intros w [Hw | []]. discriminate Hw.
      - intros Hn. discriminate Hn. }
    destruct (fmg_enter fmg_lib c) eqn:Henter.
    { exists [Create c; Login]. simpl. rewrite <- List.app_assoc.
      split; [reflexivity|]. split.
      - intros w [Hw | [Hw | []]]; discriminate Hw.
      - intros _ Hn. discriminate Hn. }
    unfold body.
    destruct (dispatch_supported fmg_lib c (PyStr.lower method) p data
                query_params ((tr ++ [Create c]) ++ [Login])%list H)
      as [(x & Hx & Hd) | (w & Hw & Hd)].
    - exists [Create c; Login; Logout]. rewrite Hd.
      split; [destruct (fmg_exit fmg_lib c); simpl;
              rewrite <- !List.app_assoc; reflexivity|].
      split.
      + intros w [Hw | [Hw | [Hw | []]]]; discriminate Hw.
      + intros _ _ Hdata.
        destruct (dispatch_sends fmg_lib c (PyStr.lower method) p data
                    query_params ((tr ++ [Create c]) ++ [Login])%list H Hdata)
          as (w & _ & Hs).
        rewrite Hs in Hd. injection Hd as _ Htr.
        apply (f_equal (@List.length event)) in Htr.
        rewrite List.length_app in Htr. simpl in Htr. lia.
    - exists [Create c; Login; Call w; Logout]. rewrite Hd.
      split; [destruct (fmg_exit fmg_lib c); simpl;
              rewrite <- !List.app_assoc; reflexivity|].
      split.
      + intros w' [Hw' | [Hw' | [Hw' | [Hw' | []]]]]; try discriminate Hw'.
        injection Hw' as <-. exact Hw.
      + intros _ _ _. exists w. simpl. auto. }
  destruct Hatt as (evs & Htr & Hurl & Hsent).
  destruct (try_except_handler_trace (with_connection fmg_lib c body) tr evs p
              Htr Hurl) as (evs' & Htr' & Hurl' & Hkeep).
  exists evs'. split; [exact Htr'|]. split; [exact Hurl'|].
  intros Hn He Hd. destruct (Hsent Hn He Hd) as (w & Hw).
  exists w. apply Hkeep, Hw.
Qed.

Lemma execute_request_path_witness :
  PyStr.mem (PyStr.lower "get") supported = true /\
  PyStr.startswith "/" (normalize "sys/status") = true /\
  normalize "sys/status" = "/sys/status".
Proof.
  split; [reflexivity|].
  destruct (execute_request_path (Demo.answering Demo.ok) Demo.self "get"
              "sys/status" None None [] eq_refl) as (Hs & _ & Hp & _).
  split; [exact Hs | exact (Hp eq_refl)].
Defined.

(** ** Properties of [TableFormatter] *)

(** *** Truncation *)

Lemma length_append (s t : string) :
  String.length (s ++ t) = (String.length s + String.length t)%nat.
Proof. induction s as [| c s IH]; simpl; [reflexivity | rewrite IH; reflexivity]. Qed.

Lemma length_substring_0 (n : nat) (s : string) :
  (n <= String.length s)%nat -> String.length (substring 0 n s) = n.
Proof.
  revert n. induction s as [| c s IH]; intros [| n] H; simpl in *;
    try reflexivity; try lia.
  rewrite IH; [reflexivity | lia].
Qed.

Lemma truncate_long (max_width : Z) (text : string) :
  (3 <= max_width)%Z -> (max_width < Z.of_nat (String.length text))%Z ->
  truncate max_width text
  = substring 0 (Z.to_nat (max_width - 3)) text ++ "...".
Proof.
  intros H3 Hlt. unfold truncate, PyStr.slice_to, PyStr.slice_stop.
  destruct (Z.eqb_spec max_width 0); [lia|].
  destruct (Z.ltb_spec max_width (Z.of_nat (String.length text))); [| lia].
  destruct (Z.ltb_spec (max_width - 3) 0); [lia|].
  simpl. rewrite Nat.min_l by lia. reflexivity.
Qed.

Lemma truncate_short (max_width : Z) (text : string) :
  (Z.of_nat (String.length text) <= max_width)%Z -> truncate max_width text = text.
Proof.
  intros H. unfold truncate.
  destruct (Z.ltb_spec max_width (Z.of_nat (String.length text))); [lia|].
  rewrite Bool.andb_false_r. reflexivity.
Qed.

(** C6 fails on the code for the widths 1 and 2, which the option
    [--table-max-width] accepts and describes as the maximum width of a
    cell: the slice bound [max_width-3] of line 75 is then negative and
    counts from the end of the cell, so a cell longer than the width is
    rendered as all but its last [3-max_width] characters followed by "...",
    which is [max_width] characters longer than the cell itself, and longer
    than the width. *)
Theorem truncate_small_width_exceeds :
  forall (max_width : Z) (text : string),
    (0 < max_width < 3)%Z ->
    (max_width < Z.of_nat (String.length text))%Z ->
    truncate max_width text
    = substring 0 (String.length text - Z.to_nat (3 - max_width)) text ++ "..."
    /\ (Z.of_nat (String.length (truncate max_width text))
        = Z.of_nat (String.length text) + max_width)%Z
    /\ (max_width < Z.of_nat (String.length (truncate max_width text)))%Z.
Proof.
  intros max_width text Hw Hlt.
  assert (Ht : truncate max_width text
               = substring 0 (String.length text - Z.to_nat (3 - max_width)) text
                 ++ "...").
  { unfold truncate, PyStr.slice_to, PyStr.slice_stop.
    destruct (Z.eqb_spec max_width 0); [lia|].
    destruct (Z.ltb_spec max_width (Z.of_nat (String.length text))); [| lia].
    destruct (Z.ltb_spec (max_width - 3) 0); [| lia].
    replace (Z.to_nat (Z.of_nat (String.length text) + (max_width - 3)))
      with (String.length text - Z.to_nat (3 - max_width))%nat by lia.
    reflexivity. }
  assert (Hl : (Z.of_nat (String.length (truncate max_width text))
                = Z.of_nat (String.length text) + max_width)%Z).
  { rewrite Ht, length_append.
    rewrite length_substring_0 by (apply Nat.le_sub_l).
    simpl String.length. lia. }
  split; [exact Ht|]. split; [exact Hl | lia].
Qed.

Lemma truncate_small_width_exceeds_witness :
  (0 < 1 < 3)%Z /\ (1 < Z.of_nat (String.length "abcd"))%Z
  /\ truncate 1 "abcd" = "ab..."
  /\ Z.of_nat (String.length (truncate 1 "abcd")) = 5%Z.
Proof.
  assert (Hw : (0 < 1 < 3)%Z) by lia.
  assert (Hlt : (1 < Z.of_nat (String.length "abcd"))%Z) by (simpl; lia).
  destruct (truncate_small_width_exceeds 1 "abcd" Hw Hlt) as (Ht & Hl & _).
  split; [exact Hw|]. split; [exact Hlt|]. split; [exact Ht | exact Hl].
Defined.

(** X24.  For every flattened cell and every width of at least 3,
    a cell longer than the width is rendered as its first width-3 characters
    followed by "...", of length exactly the width; a cell of length at most
    the width is rendered unchanged, and so is every cell at width 0.  This
    is the rendering [format_table] applies to each flattened cell. *)
Theorem truncate_spec :
  forall (env : PyEnv) (max_width : Z) (text : string),
    (3 <= max_width ->
     max_width < Z.of_nat (String.length text) ->
     truncate max_width text
     = substring 0 (Z.to_nat (max_width - 3)) text ++ "..."
     /\ Z.of_nat (String.length (truncate max_width text)) = max_width)%Z
    /\ ((Z.of_nat (String.length text) <= max_width)%Z ->
        truncate max_width text = text)
    /\ truncate 0 text = text
    /\ (forall d field,
          _flatten_value (get_default d field (JStr "-")) = Ret text ->
          cell max_width (JDict d) field = Ret (truncate max_width text)).
Proof.
  intros env max_width text. split; [| split; [| split]].
  - intros H3 Hlt. split; [apply truncate_long; assumption|].
    rewrite truncate_long by assumption.
    rewrite length_append, length_substring_0 by lia. simpl. lia.
  - apply truncate_short.
  - reflexivity.
  - intros d field H. unfold cell. rewrite H. reflexivity.
Qed.

(** *** Row selection *)

(** C2 (as stated) fails: with an empty list under [results] and one row
    under [data], the first present key is [results] and gives zero rows,
    yet the formatter takes the row under [data] and renders a table. *)
Lemma format_table_rows_counterexample :
  let response :=
    [("results", JList []); ("data", JList [JDict [("name", JStr "a")]])] in
  Spec.rows_of_mapping response = []
  /\ data_list_of (JDict response) = Some [JDict [("name", JStr "a")]]
  /\ format_table (env := Demo.env) (JDict response) 6 50
     <> Ret "No data to display in table format".
Proof.
  cbv zeta. split; [reflexivity|]. split; [reflexivity|].
  simpl. discriminate.
Qed.

(** C2 (amended).  For every mapping, the candidate is the first of the
    values under [results], [data], [items] that is true in Python's sense:
    a non-empty list or mapping under [results] is used even when [data] or
    [items] are present, and an absent key or a null, false, zero or empty
    value is passed over in favour of the next key.  Such a candidate that
    is a list is the row list; one that is a mapping is wrapped as a
    one-element list; with any other one, and whenever none of the three
    values is a list or a mapping, the whole mapping becomes the single row.
    A zero-row list yields "No data to display in table format", as for a
    mapping whose only one of the three keys is [items], with an empty
    list. *)
Theorem format_table_rows_of_mapping :
  forall (env : PyEnv) (d : dict),
    let results := get d "results" in
    let data := get d "data" in
    let items := get d "items" in
    (truthy results = true -> candidate d = results)
    /\ (truthy results = false -> truthy data = true -> candidate d = data)
    /\ (truthy results = false -> truthy data = false -> truthy items = true ->
        candidate d = items)
    /\ (forall l, truthy (candidate d) = true -> candidate d = JList l ->
                  data_list_of (JDict d) = Some l)
    /\ (forall d', truthy (candidate d) = true -> candidate d = JDict d' ->
                   data_list_of (JDict d) = Some [JDict d'])
    /\ (truthy (candidate d) = true ->
        is_list (candidate d) = false -> is_dict (candidate d) = false ->
        data_list_of (JDict d) = Some [JDict d])
    /\ (is_list results = false -> is_dict results = false ->
        is_list data = false -> is_dict data = false ->
        is_list items = false -> is_dict items = false ->
        data_list_of (JDict d) = Some [JDict d])
    /\ (forall response max_fields max_width,
          data_list_of response = Some [] ->
          format_table response max_fields max_width
          = Ret "No data to display in table format")
    /\ (lookup d "results" = None -> lookup d "data" = None ->
        lookup d "items" = Some (JList []) ->
        forall max_fields max_width,
          format_table (JDict d) max_fields max_width
          = Ret "No data to display in table format").
Proof.
  intros env d results data items.
  assert (Hc : candidate d = py_or (py_or results data) items) by reflexivity.
  assert (Hshape : is_list (candidate d) = false -> is_dict (candidate d) = false ->
                   data_list_of (JDict d) = Some [JDict d]).
  { intros Hl Hd. unfold data_list_of.
    destruct (candidate d); try reflexivity; discriminate. }
  split; [| split; [| split; [| split; [| split; [| split; [| split; [| split]]]]]]].
  - intros H. rewrite Hc. unfold py_or. rewrite H, H. reflexivity.
  - intros H1 H2. rewrite Hc. unfold py_or. rewrite H1, H2. reflexivity.
  - intros H1 H2 _. rewrite Hc. unfold py_or. rewrite H1, H2. reflexivity.
  - intros l _ H. unfold data_list_of. rewrite H. reflexivity.
  - intros d' _ H. unfold data_list_of. rewrite H. reflexivity.
  - intros _. exact Hshape.
  - intros R1 R2 D1 D2 I1 I2. rewrite Hc in Hshape. unfold py_or in Hshape.
    destruct (truthy results).
    + destruct (truthy results); apply Hshape; assumption.
    + destruct (truthy data); apply Hshape; assumption.
  - intros response max_fields max_width H. unfold format_table.
    rewrite H. reflexivity.
  - intros Hr Hd Hi max_fields max_width. unfold format_table, data_list_of.
    rewrite Hc. unfold results, data, items, get, get_default.
    rewrite Hr, Hd, Hi. reflexivity.
Qed.

Lemma format_table_rows_of_mapping_witness :
  candidate [("results", JList []); ("data", JList [JDict [("name", JStr "a")]])]
  = JList [JDict [("name", JStr "a")]]
  /\ data_list_of (JDict [("status", JStr "ok"); ("data", JInt 0)])
     = Some [JDict [("status", JStr "ok"); ("data", JInt 0)]]
  /\ format_table (env := Demo.env) (JDict [("total", JInt 0); ("items", JList [])])
       6 50
     = Ret "No data to display in table format".
Proof.
  split; [| split].
  - destruct (format_table_rows_of_mapping Demo.env
                [("results", JList []); ("data", JList [JDict [("name", JStr "a")]])])
      as (_ & H & _).
    exact (H eq_refl eq_refl).
  - destruct (format_table_rows_of_mapping Demo.env
                [("status", JStr "ok"); ("data", JInt 0)])
      as (_ & _ & _ & _ & _ & _ & H & _).
    exact (H eq_refl eq_refl eq_refl eq_refl eq_refl eq_refl).
  - destruct (format_table_rows_of_mapping Demo.env
                [("total", JInt 0); ("items", JList [])])
      as (_ & _ & _ & _ & _ & _ & _ & _ & H).
    exact (H eq_refl eq_refl eq_refl 6%Z 50%Z).
Defined.

Lemma truncate_spec_witness :
  (3 <= 5)%Z /\ (5 < Z.of_nat (String.length "abcdefgh"))%Z /\
  truncate 5 "abcdefgh" = "ab..." /\
  Z.of_nat (String.length (truncate 5 "abcdefgh")) = 5%Z /\
  truncate 50 "abcdefgh" = "abcdefgh".
Proof.
  destruct (truncate_spec Demo.env 5 "abcdefgh") as (Hlong & _).
  destruct (truncate_spec Demo.env 50 "abcdefgh") as (_ & Hshort & _).
  assert (H3 : (3 <= 5)%Z) by lia.
  assert (Hlt : (5 < Z.of_nat (String.length "abcdefgh"))%Z) by (simpl; lia).
  destruct (Hlong H3 Hlt) as (Heq & Hlen).
  split; [exact H3|]. split; [exact Hlt|]. split; [exact Heq|].
  split; [exact Hlen|]. apply Hshort. simpl. lia.
Defined.

(** *** Flattening *)

Lemma rmap_name_of {env : PyEnv} (l : list json) :
  forallb is_dict l = true ->
  rmap name_of l = Ret (map Spec.name_text l).
Proof.
  induction l as [| item l IH]; simpl; [reflexivity|].
  intros H. apply Bool.andb_true_iff in H. destruct H as (Hd & Hl).
  destruct item; try discriminate Hd. simpl. rewrite (IH Hl). reflexivity.
Qed.

Lemma rmap_name_of_raises {env : PyEnv} (l : list json) :
  forallb is_dict l = false -> is_ret (rmap name_of l) = false.
Proof.
  induction l as [| item l IH]; simpl; [discriminate|].
  intros H. destruct item; try reflexivity. simpl in H.
  simpl. specialize (IH H). destruct (rmap name_of l); [discriminate IH | reflexivity].
Qed.

Lemma first_has_name_is_dict (v : json) :
  first_has_name v = true -> is_dict v = true.
Proof. destruct v; simpl; intros H; try discriminate H; reflexivity. Qed.

(** [_flatten_value] returns exactly on the values [flattens] accepts. *)
Lemma flatten_value_returns {env : PyEnv} (value : json) :
  is_ret (_flatten_value value) = flattens value.
Proof.
  destruct value as [| b | z | f | s | l | d]; try reflexivity.
  - destruct l as [| v0 r]; [reflexivity|]. unfold _flatten_value, flattens.
    destruct (first_has_name v0) eqn:E; [| reflexivity].
    pose proof (first_has_name_is_dict v0 E) as Hv0.
    destruct (forallb is_dict r) eqn:Hr.
    + rewrite rmap_name_of by (simpl; rewrite Hv0, Hr; reflexivity). reflexivity.
    + pose proof (rmap_name_of_raises (v0 :: r)) as Hraise.
      simpl forallb in Hraise. rewrite Hv0, Hr in Hraise.
      specialize (Hraise eq_refl).
      destruct (rmap name_of (v0 :: r)); [discriminate Hraise | reflexivity].
  - unfold _flatten_value.
    destruct (has_key d "name"); [reflexivity|].
    destruct (List.length d =? 1)%nat; reflexivity.
Qed.

(** C4 (as stated) fails: the list [{"name": "a"}, {"x": 1}] is not a list
    of mappings that each have a name, so the claim gives the joined string
    forms of its elements; the code joins the names instead, the second one
    empty. *)
Lemma flatten_value_list_counterexample :
  let value := [JDict [("name", JStr "a")]; JDict [("x", JInt 1)]] in
  forallb first_has_name value = false
  /\ PyStr.join ", " (map (py_str (env := Demo.env)) value) = "{'name': 'a'}, {'x': 1}"
  /\ _flatten_value (env := Demo.env) (JList value) = Ret "a, "
  /\ _flatten_value (env := Demo.env) (JList value)
     <> Ret (PyStr.join ", " (map (py_str (env := Demo.env)) value)).
Proof.
  cbv zeta. repeat split. vm_compute. discriminate.
Qed.

(** C4 (amended).  [_flatten_value] maps null to "-"; the empty list to
    "-"; a non-empty list whose first element is a mapping with a [name], and
    whose elements are all mappings, to the comma-joined names of its
    elements, where a mapping without a [name] contributes the empty text; a
    non-empty list whose first element is not a mapping with a [name] to the
    comma-joined string forms of its elements; a mapping with a [name] to the
    string form of that name; a mapping with exactly one entry to the string
    form of that entry's value; any other mapping without a [name] to its full
    string form; a boolean, number or string to its string form.  In
    particular {"name": "obj1"} gives "obj1", [{"name": "a"}, {"name": "b"}]
    gives "a, b", and null gives "-". *)
Theorem flatten_value_spec :
  forall (env : PyEnv),
    _flatten_value JNull = Ret "-"
    /\ _flatten_value (JList []) = Ret "-"
    /\ (forall v0 r,
          first_has_name v0 = true -> forallb is_dict r = true ->
          _flatten_value (JList (v0 :: r))
          = Ret (PyStr.join ", " (map Spec.name_text (v0 :: r))))
    /\ (forall d, has_key d "name" = true ->
                  Spec.name_text (JDict d) = py_str (get d "name"))
    /\ (forall d, has_key d "name" = false ->
                  Spec.name_text (JDict d) = EmptyString)
    /\ (forall v0 r,
          first_has_name v0 = false ->
          _flatten_value (JList (v0 :: r))
          = Ret (PyStr.join ", " (map py_str (v0 :: r))))
    /\ (forall d, has_key d "name" = true ->
                  _flatten_value (JDict d) = Ret (py_str (get d "name")))
    /\ (forall k v, _flatten_value (JDict [(k, v)]) = Ret (py_str v))
    /\ (forall d, has_key d "name" = false -> List.length d <> 1%nat ->
                  _flatten_value (JDict d) = Ret (py_str (JDict d)))
    /\ (forall b, _flatten_value (JBool b) = Ret (py_str (JBool b)))
    /\ (forall z, _flatten_value (JInt z) = Ret (py_str (JInt z)))
    /\ (forall f, _flatten_value (JFloat f) = Ret (py_str (JFloat f)))
    /\ (forall s, _flatten_value (JStr s) = Ret s)
    /\ _flatten_value (JDict [("name", JStr "obj1")]) = Ret "obj1"
    /\ _flatten_value (JList [JDict [("name", JStr "a")]; JDict [("name", JStr "b")]])
       = Ret "a, b"
    /\ _flatten_value JNull = Ret "-".
Proof.
  intros env.
  repeat match goal with |- _ /\ _ => split end; try reflexivity.
  - intros v0 r H0 Hr. unfold _flatten_value. rewrite H0.
    rewrite rmap_name_of; [reflexivity|].
    simpl. rewrite (first_has_name_is_dict v0 H0), Hr. reflexivity.
  - intros d H. unfold Spec.name_text, get, get_default, has_key in *.
    destruct (lookup d "name"); [reflexivity | discriminate H].
  - intros d H. unfold Spec.name_text, get_default, has_key in *.
    destruct (lookup d "name"); [discriminate H | reflexivity].
  - intros v0 r H0. unfold _flatten_value. rewrite H0. reflexivity.
  - intros d H. unfold _flatten_value. rewrite H. reflexivity.
  - intros k v. unfold _flatten_value, has_key, get, get_default. simpl.
    destruct (String.eqb k "name"); reflexivity.
  - intros d H Hlen. unfold _flatten_value. rewrite H.
    destruct (Nat.eqb_spec (List.length d) 1); [contradiction | reflexivity].
Qed.

Lemma flatten_value_spec_witness :
  _flatten_value (env := Demo.env)
    (JList [JDict [("name", JStr "a"); ("vdom", JStr "root")]; JDict [("vdom", JStr "b")]])
  = Ret "a, "
  /\ _flatten_value (env := Demo.env) (JList [JInt 1; JStr "x"; JNull]) = Ret "1, x, None"
  /\ _flatten_value (env := Demo.env) (JDict [("id", JInt 7); ("name", JInt 3)]) = Ret "3"
  /\ _flatten_value (env := Demo.env) (JDict [("a", JInt 1); ("b", JBool true)])
     = Ret "{'a': 1, 'b': True}".
Proof.
  destruct (flatten_value_spec Demo.env)
    as (_ & _ & Hnames & _ & _ & Hother & Hname & _ & Hfull & _).
  split; [exact (Hnames (JDict [("name", JStr "a"); ("vdom", JStr "root")])
                        [JDict [("vdom", JStr "b")]] eq_refl eq_refl)|].
  split; [exact (Hother (JInt 1) [JStr "x"; JNull] eq_refl)|].
  split; [exact (Hname [("id", JInt 7); ("name", JInt 3)] eq_refl)|].
  apply (Hfull [("a", JInt 1); ("b", JBool true)] eq_refl).
  simpl. discriminate.
Defined.

(** *** Where the formatter raises *)

(** C10 at its failing inputs.  The column inference skips rows that are
    not mappings, the row loop does not: a list holding a mapping and a
    number makes [format_table] raise [AttributeError] instead of returning a
    string.  [_flatten_value] raises the same way on a list whose first
    element is a named mapping and whose second is a number. *)
Theorem format_table_raises_on_mixed_rows :
  forall (env : PyEnv),
    format_table (JList [JDict [("a", JInt 1)]; JInt 5]) 6 50
    = Raise (mkExn AttributeError "'int' object has no attribute 'get'")
    /\ _flatten_value (JList [JDict [("name", JStr "a")]; JInt 1])
       = Raise (mkExn AttributeError "'int' object has no attribute 'get'")
    /\ format_table (JList [JDict [("members", JList [JDict [("name", JStr "a")]; JInt 1])]]) 6 50
       = Raise (mkExn AttributeError "'int' object has no attribute 'get'").
Proof.
  intros env. repeat split.
Qed.

Lemma rmap_raise {A B} (f : A -> result B) (l : list A) (e : exn) :
  rmap f l = Raise e -> exists x, In x l /\ f x = Raise e.
Proof.
  induction l as [| x l IH]; simpl; [discriminate|].
  destruct (f x) eqn:E; simpl.
  - destruct (rmap f l); simpl; [discriminate|].
    intros H. injection H as ->. destruct (IH eq_refl) as (y & Hy & Hf).
    exists y. auto.
  - intros H. injection H as ->. exists x. auto.
Qed.

Lemma rmap_returns {A B} (f : A -> result B) (l : list A) :
  (forall x, In x l -> is_ret (f x) = true) -> is_ret (rmap f l) = true.
Proof.
  intros H. destruct (rmap f l) eqn:E; [reflexivity|].
  destruct (rmap_raise f l e E) as (x & Hx & Hf).
  specialize (H x Hx). rewrite Hf in H. discriminate H.
Qed.

Lemma flatten_value_raise {env : PyEnv} (value : json) (e : exn) :
  _flatten_value value = Raise e -> exn_cls e = AttributeError.
Proof.
  destruct value as [| b | z | f | s | l | d]; simpl; try discriminate.
  - destruct l as [| v0 r]; [discriminate|].
    destruct (first_has_name v0); [| discriminate].
    destruct (rmap name_of (v0 :: r)) eqn:E; simpl; [discriminate|].
    intros H. injection H as ->.
    destruct (rmap_raise _ _ _ E) as (x & _ & Hx).
    destruct x; simpl in Hx; try discriminate Hx; injection Hx as <-; reflexivity.
  - destruct (has_key d "name"); [discriminate|].
    destruct (List.length d =? 1)%nat; discriminate.
Qed.

Lemma format_table_raise {env : PyEnv} (response : json) (max_fields max_width : Z)
  (e : exn) :
  format_table response max_fields max_width = Raise e ->
  exn_cls e = AttributeError.
Proof.
  unfold format_table.
  destruct (data_list_of response) as [data_list |]; [| discriminate].
  destruct data_list as [| item0 rest]; [discriminate|].
  destruct (fields_of (item0 :: rest) max_fields) as [| f0 fs]; [discriminate|].
  destruct (rmap _ (item0 :: rest)) eqn:E; simpl; [discriminate|].
  intros H. injection H as ->.
  destruct (rmap_raise _ _ _ E) as (item & _ & Hrow).
  unfold row in Hrow. destruct (rmap_raise _ _ _ Hrow) as (field & _ & Hcell).
  unfold cell in Hcell.
  destruct item; try (injection Hcell as <-; reflexivity).
  destruct (_flatten_value _) eqn:Hf; simpl in Hcell; [discriminate|].
  injection Hcell as ->. exact (flatten_value_raise _ _ Hf).
Qed.

(** *** The exit status of [main] *)

Lemma print_response_returns {env : PyEnv} {cli : CliEnv} (a : cli_args)
  (response : json) (tr : trace) :
  exists tr', print_response a response tr = (Ret tt, tr').
Proof.
  unfold print_response, try_except, bind, emit.
  destruct (a_format a); try (eexists; reflexivity).
  destruct (format_table response (table_max_fields a) (a_table_max_width a)) eqn:E;
    simpl.
  - eexists; reflexivity.
  - unfold raise. apply format_table_raise in E.
    unfold is_Exception. rewrite E. eexists; reflexivity.
Qed.

Lemma exit_on_status_run (status_code : json) (tr : trace) :
  exists tr',
    (exit_on_status status_code tr = (Ret tt, tr')
     /\ Spec.exit_of_status status_code = 0%Z)
    \/ (exists code, code <> 0%Z /\
          exit_on_status status_code tr
          = (Raise (mkExn (SystemExit code) EmptyString), tr')
          /\ Spec.exit_of_status status_code = code).
Proof.
  unfold exit_on_status, Spec.exit_of_status, sys_exit, bind, emit, raise, ret.
  destruct status_code as [| b | z | f | s | l | d];
    try (eexists; left; split; reflexivity).
  - destruct (z <? 0)%Z.
    + eexists; right; exists 1%Z. repeat split. discriminate.
    + destruct (400 <=? z)%Z.
      * eexists; right; exists 2%Z. repeat split. discriminate.
      * eexists; left; split; reflexivity.
  - destruct (PyStr.mem (PyStr.lower s) ["success"; "ok"]); simpl.
    + eexists; left; split; reflexivity.
    + eexists; right; exists 1%Z. repeat split. discriminate.
Qed.

Lemma main_after_prepare {env : PyEnv} {cli : CliEnv} (fmg_lib : FortiManager)
  (a : cli_args) (tr tr1 : trace) (cr : credentials) (rd : option json) :
  prepare a tr = (Ret (cr, rd), tr1) ->
  main fmg_lib a tr = request_stage fmg_lib a cr rd tr1.
Proof. intros H. unfold main, bind. rewrite H. reflexivity. Qed.

Lemma run_request_returns {env : PyEnv} {cli : CliEnv} (fmg_lib : FortiManager)
  (a : cli_args) (tr : trace) (status_code : json) :
  Spec.request_returns fmg_lib a tr status_code ->
  fst (run fmg_lib a tr) = Spec.exit_of_status status_code.
Proof.
  intros (cr & rd & tr1 & client & response & tr2 & Hp & Hi & He).
  unfold run. rewrite (main_after_prepare fmg_lib a tr tr1 cr rd Hp).
  unfold request_stage, try_except, bind. rewrite Hi. simpl lift_result.
  unfold ret at 1. rewrite He. unfold emit at 1. simpl fst. simpl snd.
  match goal with
  | |- context [print_response a response ?t] =>
      destruct (print_response_returns a response t) as (tr3 & ->)
  end.
  destruct (exit_on_status_run status_code tr3)
    as (tr4 & [(-> & ->) | (code & _ & -> & ->)]); reflexivity.
Qed.

Lemma run_request_raises {env : PyEnv} {cli : CliEnv} (fmg_lib : FortiManager)
  (a : cli_args) (tr : trace) (e : exn) :
  Spec.request_raises fmg_lib a tr e ->
  (exn_cls e = ValueError -> fst (run fmg_lib a tr) = 1%Z)
  /\ (exn_cls e = KeyboardInterrupt -> fst (run fmg_lib a tr) = 130%Z).
Proof.
  intros (cr & rd & tr1 & client & tr2 & Hp & Hi & He).
  unfold run. rewrite (main_after_prepare fmg_lib a tr tr1 cr rd Hp).
  unfold request_stage, try_except, bind. rewrite Hi. simpl lift_result.
  split; intros Hc; unfold ret at 1; rewrite He; cbv beta iota; rewrite Hc;
    reflexivity.
Qed.

Lemma run_prepare_raises {env : PyEnv} {cli : CliEnv} (fmg_lib : FortiManager)
  (a : cli_args) (tr tr1 : trace) (e : exn) :
  prepare a tr = (Raise e, tr1) ->
  fst (run fmg_lib a tr) = exit_status (@Raise unit e).
Proof. intros H. unfold run, main, bind. rewrite H. reflexivity. Qed.

Lemma run_config_error {env : PyEnv} {cli : CliEnv} (fmg_lib : FortiManager)
  (a : cli_args) (tr : trace) (path : string) (e : exn) :
  a_config a = Some path -> path <> EmptyString ->
  load_config_file path = Raise e ->
  exn_cls e = FileNotFoundError \/ exn_cls e = ValueError ->
  fst (run fmg_lib a tr) = 1%Z.
Proof.
  intros Hc Hp Hl He.
  assert (H : exists tr1,
             prepare a tr = (Raise (mkExn (SystemExit 1) EmptyString), tr1)).
  { unfold prepare, load_stage, bind. rewrite Hc.
    destruct path as [| c r]; [contradiction|].
    unfold try_except. rewrite Hl. simpl lift_result. unfold raise at 1.
    destruct He as [-> | ->]; eexists; reflexivity. }
  destruct H as (tr1 & H). rewrite (run_prepare_raises fmg_lib a tr tr1 _ H).
  reflexivity.
Qed.

Lemma run_missing_host {env : PyEnv} {cli : CliEnv} (fmg_lib : FortiManager)
  (a : cli_args) (tr tr1 : trace) (cfg : config) :
  load_stage a tr = (Ret cfg, tr1) ->
  given (opt_or (opt_or (a_host a) (config_get cfg "host")) (config_get cfg "ip"))
  = false ->
  fst (run fmg_lib a tr) = 1%Z.
Proof.
  intros Hl Hh.
  assert (H : exists tr2,
             prepare a tr = (Raise (mkExn (SystemExit 1) EmptyString), tr2)).
  { unfold prepare, bind. rewrite Hl. unfold credentials_stage.
    destruct (opt_or (opt_or (a_host a) (config_get cfg "host")) (config_get cfg "ip"))
      as [[| c r] |]; try discriminate Hh; eexists; reflexivity. }
  destruct H as (tr2 & H). rewrite (run_prepare_raises fmg_lib a tr tr2 _ H).
  reflexivity.
Qed.

Lemma run_missing_secret {env : PyEnv} {cli : CliEnv} (fmg_lib : FortiManager)
  (a : cli_args) (tr tr1 : trace) (cfg : config) :
  load_stage a tr = (Ret cfg, tr1) ->
  given (opt_or (a_apikey a) (config_get cfg "apikey")) = false ->
  given (opt_or (a_password a) (config_get cfg "password")) = false ->
  fst (run fmg_lib a tr) = 1%Z.
Proof.
  intros Hl Hk Hp.
  assert (H : exists tr2,
             prepare a tr = (Raise (mkExn (SystemExit 1) EmptyString), tr2)).
  { unfold prepare, bind. rewrite Hl. unfold credentials_stage.
    rewrite Hk, Hp.
    destruct (opt_or (opt_or (a_host a) (config_get cfg "host")) (config_get cfg "ip"))
      as [[| c r] |]; eexists; reflexivity. }
  destruct H as (tr2 & H). rewrite (run_prepare_raises fmg_lib a tr tr2 _ H).
  reflexivity.
Qed.

Lemma run_invalid_data {env : PyEnv} {cli : CliEnv} (fmg_lib : FortiManager)
  (a : cli_args) (tr tr1 tr2 : trace) (cfg : config) (cr : credentials)
  (text message : string) :
  load_stage a tr = (Ret cfg, tr1) ->
  credentials_stage a cfg tr1 = (Ret cr, tr2) ->
  a_data a = Some text -> text <> EmptyString ->
  json_loads text = DecodeError message ->
  fst (run fmg_lib a tr) = 1%Z.
Proof.
  intros Hl Hc Hd Ht Hj.
  assert (H : exists tr3,
             prepare a tr = (Raise (mkExn (SystemExit 1) EmptyString), tr3)).
  { unfold prepare, bind. rewrite Hl, Hc. unfold data_stage. rewrite Hd.
    destruct text as [| c r]; [contradiction|].
    unfold try_except, bind, parse_data_argument. rewrite Hj.
    eexists; reflexivity. }
  destruct H as (tr3 & H). rewrite (run_prepare_raises fmg_lib a tr tr3 _ H).
  reflexivity.
Qed.

(** *** The argument parser *)

Lemma bind_raises {A B} (m : M A) (k : A -> M B) (tr tr' : trace) (e : exn) :
  m tr = (Raise e, tr') -> bind m k tr = (Raise e, tr').
Proof. intros H. unfold bind. rewrite H. reflexivity. Qed.

Lemma bind_returns {A B} (m : M A) (k : A -> M B) (tr tr' : trace) (x : A) :
  m tr = (Ret x, tr') -> bind m k tr = k x tr'.
Proof. intros H. unfold bind. rewrite H. reflexivity. Qed.

Lemma parser_error_run {argenv : ArgparseEnv} {A} (cl : command_line) (tr : trace) :
  @parser_error argenv A cl tr
  = (Raise (mkExn (SystemExit 2) EmptyString),
     (tr ++ [PrintErr (error_text cl)])%list).
Proof. reflexivity. Qed.

(** A converter returns without an effect or ends in [parser.error]. *)
Lemma convert_method_run {argenv : ArgparseEnv} (cl : command_line)
  (text : option string) (tr : trace) :
  (convert_method cl text tr = parser_error cl tr
   /\ exists m, text = Some m /\ PyStr.mem m method_choices = false)
  \/ (convert_method cl text tr = (Ret text, tr)
      /\ forall m, text = Some m -> PyStr.mem m method_choices = true).
Proof.
  unfold convert_method. destruct text as [m |].
  - destruct (PyStr.mem m method_choices) eqn:E.
    + right. split; [reflexivity|]. intros m' H. injection H as <-. exact E.
    + left. split; [reflexivity|]. exists m. auto.
  - right. split; [reflexivity|]. discriminate.
Qed.

Lemma convert_int_run {argenv : ArgparseEnv} (cl : command_line)
  (text : option string) (dflt : Z) (tr : trace) :
  (convert_int cl text dflt tr = parser_error cl tr
   /\ exists t, text = Some t /\ int_of_text t = None)
  \/ (exists z, convert_int cl text dflt tr = (Ret z, tr)
                /\ forall t, text = Some t -> int_of_text t = Some z).
Proof.
  unfold convert_int. destruct text as [t |].
  - destruct (int_of_text t) as [z |] eqn:E.
    + right. exists z. split; [reflexivity|].
      intros t' H. injection H as <-. exact E.
    + left. split; [reflexivity|]. exists t. auto.
  - right. exists dflt. split; [reflexivity|]. discriminate.
Qed.

Lemma convert_format_run {argenv : ArgparseEnv} (cl : command_line)
  (text : option string) (tr : trace) :
  (convert_format cl text tr = parser_error cl tr
   /\ exists t, text = Some t /\ PyStr.mem t format_choices = false)
  \/ (exists f, convert_format cl text tr = (Ret f, tr)
                /\ forall t, text = Some t -> PyStr.mem t format_choices = true).
Proof.
  unfold convert_format, format_choices. destruct text as [t |].
  - destruct (String.eqb t "json") eqn:E1.
    { right. exists FmtJson. split; [reflexivity|].
      intros t' H. injection H as <-. cbn [PyStr.mem]. rewrite E1. reflexivity. }
    destruct (String.eqb t "pretty") eqn:E2.
    { right. exists FmtPretty. split; [reflexivity|].
      intros t' H. injection H as <-. cbn [PyStr.mem]. rewrite E1, E2. reflexivity. }
    destruct (String.eqb t "table") eqn:E3.
    { right. exists FmtTable. split; [reflexivity|].
      intros t' H. injection H as <-. cbn [PyStr.mem]. rewrite E1, E2, E3.
      reflexivity. }
    left. split; [reflexivity|]. exists t. split; [reflexivity|].
    cbn [PyStr.mem]. rewrite E1, E2, E3. reflexivity.
  - right. exists FmtJson. split; [reflexivity|]. discriminate.
Qed.

Lemma parse_args_options {argenv : ArgparseEnv} (r : raw_args) (tr : trace) :
  (Spec.rejected r /\ parse_args (Options r) tr = parser_error (Options r) tr)
  \/ (~ Spec.rejected r
      /\ exists a, parse_args (Options r) tr = (Ret a, tr)
                   /\ r_method r = Some (a_method a)
                   /\ r_endpoint r = Some (a_endpoint a)
                   /\ PyStr.mem (a_method a) method_choices = true).
Proof.
  unfold parse_args. set (cl := Options r).
  destruct (convert_method_run cl (r_method r) tr) as [(Hm & m & Em & Hbad) | (Hm & Hmok)].
  { left. split; [right; right; left; exists m; auto|].
    apply bind_raises. exact Hm. }
  rewrite (bind_returns _ _ _ _ _ Hm).
  destruct (convert_int_run cl (r_timeout r) 300 tr)
    as [(Ht & t & Et & Hbad) | (timeout & Ht & Htok)].
  { left. split; [do 4 right; exists t; auto|]. apply bind_raises. exact Ht. }
  rewrite (bind_returns _ _ _ _ _ Ht).
  destruct (convert_format_run cl (r_format r) tr)
    as [(Hf & t & Ef & Hbad) | (fmt & Hf & Hfok)].
  { left. split; [do 3 right; left; exists t; auto|]. apply bind_raises. exact Hf. }
  rewrite (bind_returns _ _ _ _ _ Hf).
  destruct (convert_int_run cl (r_table_max_width r) 50 tr)
    as [(Hw & t & Ew & Hbad) | (width & Hw & Hwok)].
  { left. split; [do 4 right; exists t; auto|]. apply bind_raises. exact Hw. }
  rewrite (bind_returns _ _ _ _ _ Hw).
  destruct (convert_int_run cl (r_table_max_fields r) 6 tr)
    as [(Hx & t & Ex & Hbad) | (fields & Hx & Hxok)].
  { left. split; [do 4 right; exists t; auto|]. apply bind_raises. exact Hx. }
  rewrite (bind_returns _ _ _ _ _ Hx).
  destruct (r_method r) as [m |] eqn:Em; [| left; split; [left; exact Em | reflexivity]].
  destruct (r_endpoint r) as [e |] eqn:Ee;
    [| left; split; [right; left; exact Ee | reflexivity]].
  right. split.
  - intros [H | [H | [(m' & H & Hbad) | [(t & H & Hbad) | (t & H & Hbad)]]]].
    + rewrite Em in H. discriminate H.
    + rewrite Ee in H. discriminate H.
    + rewrite Em in H. injection H as <-.
      rewrite (Hmok m eq_refl) in Hbad. discriminate Hbad.
    + rewrite (Hfok t H) in Hbad. discriminate Hbad.
    + destruct H as [H | [H | H]];
        [rewrite (Htok t H) in Hbad | rewrite (Hwok t H) in Hbad
         | rewrite (Hxok t H) in Hbad]; discriminate Hbad.
  - eexists. split; [reflexivity|]. simpl.
    split; [reflexivity|]. split; [reflexivity|]. apply Hmok. reflexivity.
Qed.

Lemma run_process_rejected {env : PyEnv} {cli : CliEnv} {argenv : ArgparseEnv}
  (fmg_lib : FortiManager) (cl : command_line) (tr : trace) :
  parse_args cl tr = parser_error cl tr -> fst (run_process fmg_lib cl tr) = 2%Z.
Proof.
  intros H. unfold run_process, process.
  rewrite (bind_raises _ _ _ _ _ H). reflexivity.
Qed.

Lemma run_process_parsed {env : PyEnv} {cli : CliEnv} {argenv : ArgparseEnv}
  (fmg_lib : FortiManager) (cl : command_line) (tr tr0 : trace) (a : cli_args) :
  parse_args cl tr = (Ret a, tr0) ->
  run_process fmg_lib cl tr = run fmg_lib a tr0.
Proof.
  intros H. unfold run_process, process, run.
  rewrite (bind_returns _ _ _ _ _ H). reflexivity.
Qed.

Lemma parse_args_returns {argenv : ArgparseEnv} (cl : command_line)
  (tr tr0 : trace) (a : cli_args) :
  parse_args cl tr = (Ret a, tr0) ->
  tr0 = tr /\ PyStr.mem (a_method a) method_choices = true
  /\ exists r, cl = Options r /\ ~ Spec.rejected r.
Proof.
  destruct cl as [| | r]; try discriminate.
  intros H.
  destruct (parse_args_options r tr) as [(_ & Hr) | (Hok & a' & Ha & _ & _ & Hm)].
  - rewrite Hr in H. discriminate H.
  - rewrite Ha in H. injection H as <- <-.
    split; [reflexivity|]. split; [exact Hm|]. exists r. auto.
Qed.

Lemma choice_is_supported (m : string) :
  PyStr.mem m method_choices = true ->
  PyStr.mem (PyStr.lower m) supported = true.
Proof.
  intros H. destruct (supported_cases m H)
    as [-> | [-> | [-> | [-> | [-> | ->]]]]]; reflexivity.
Qed.

(** With a verb among the choices, the request can only raise what
    [except Exception] lets through. *)
Lemma request_raises_BaseException {env : PyEnv} {cli : CliEnv}
  (fmg_lib : FortiManager) (a : cli_args) (tr : trace) (e : exn) :
  PyStr.mem (a_method a) method_choices = true ->
  Spec.request_raises fmg_lib a tr e -> is_Exception e = false.
Proof.
  intros Hm (cr & rd & tr1 & client & tr2 & _ & _ & He).
  unfold execute_request in He. rewrite (choice_is_supported _ Hm) in He.
  cbn [negb] in He. cbv beta iota zeta in He. unfold try_except in He.
  destruct (with_connection _ _ _ _) as [[sr | x] t]; [discriminate He|].
  destruct (is_Exception x) eqn:Ex.
  - destruct (handler_Exception x t Ex) as (line & Hh). rewrite Hh in He.
    discriminate He.
  - rewrite (handler_BaseException x t Ex) in He. injection He as <- _. exact Ex.
Qed.

(** C9 (as stated) fails: a verb outside the choices is a validation
    error, and the process ends with status 2, not 1. *)
Lemma run_process_bad_verb_counterexample :
  PyStr.mem "foo" method_choices = false
  /\ fst (run_process (env := Demo.env) (cli := Demo.cli) (argenv := Demo.argenv)
            (Demo.answering Demo.ok) (Options (Demo.raw "foo")) [])
     = 2%Z
  /\ 2%Z <> 1%Z.
Proof.
  split; [reflexivity|]. split; [reflexivity | discriminate].
Qed.

(** C9 (amended).  The exit status of the process is decided as follows.
    The argument parser ends it with 0 for the help and with 2 for a command
    line it refuses: one it cannot scan, one without [--method] or
    [--endpoint], a verb or a format outside the choices, a value of
    [--timeout], [--table-max-width] or [--table-max-fields] that is no
    integer.  On an accepted command line the verb is one of the six
    choices and the status is that of [main]: when the request returns a
    status, 1 for every negative integer, 2 for every integer of at least
    400, 0 for an integer from 0 to 399, and for a string 0 when it is
    success or ok in any letter case and 1 otherwise; 130 when the request is
    interrupted, and the request raises no [ValueError]; 1 for a
    configuration file that cannot be loaded, a missing host, a missing
    secret, and a body that is not JSON. *)
Theorem process_exit_status :
  forall (env : PyEnv) (cli : CliEnv) (argenv : ArgparseEnv)
         (fmg_lib : FortiManager) (cl : command_line) (tr : trace),
    (cl = Help -> fst (run_process fmg_lib cl tr) = 0%Z)
    /\ (cl = Unparsable -> fst (run_process fmg_lib cl tr) = 2%Z)
    /\ (forall r, cl = Options r -> Spec.rejected r ->
                  fst (run_process fmg_lib cl tr) = 2%Z)
    /\ (forall r, cl = Options r -> ~ Spec.rejected r ->
                  exists a, parse_args cl tr = (Ret a, tr))
    /\ (forall a tr0,
          parse_args cl tr = (Ret a, tr0) ->
          tr0 = tr
          /\ PyStr.mem (a_method a) method_choices = true
          /\ run_process fmg_lib cl tr = run fmg_lib a tr
          /\ (forall status_code,
                Spec.request_returns fmg_lib a tr status_code ->
                fst (run_process fmg_lib cl tr) = Spec.exit_of_status status_code)
          /\ (forall e, Spec.request_raises fmg_lib a tr e ->
                        exn_cls e <> ValueError
                        /\ (exn_cls e = KeyboardInterrupt ->
                            fst (run_process fmg_lib cl tr) = 130%Z))
          /\ (forall path e,
                a_config a = Some path -> path <> EmptyString ->
                load_config_file path = Raise e ->
                exn_cls e = FileNotFoundError \/ exn_cls e = ValueError ->
                fst (run_process fmg_lib cl tr) = 1%Z)
          /\ (forall cfg tr1,
                load_stage a tr = (Ret cfg, tr1) ->
                given (opt_or (opt_or (a_host a) (config_get cfg "host"))
                              (config_get cfg "ip")) = false ->
                fst (run_process fmg_lib cl tr) = 1%Z)
          /\ (forall cfg tr1,
                load_stage a tr = (Ret cfg, tr1) ->
                given (opt_or (a_apikey a) (config_get cfg "apikey")) = false ->
                given (opt_or (a_password a) (config_get cfg "password")) = false ->
                fst (run_process fmg_lib cl tr) = 1%Z)
          /\ (forall cfg tr1 cr tr2 text message,
                load_stage a tr = (Ret cfg, tr1) ->
                credentials_stage a cfg tr1 = (Ret cr, tr2) ->
                a_data a = Some text -> text <> EmptyString ->
                json_loads text = DecodeError message ->
                fst (run_process fmg_lib cl tr) = 1%Z))
    /\ (forall z, (z < 0)%Z -> Spec.exit_of_status (JInt z) = 1%Z)
    /\ (forall z, (400 <= z)%Z -> Spec.exit_of_status (JInt z) = 2%Z)
    /\ (forall z, (0 <= z < 400)%Z -> Spec.exit_of_status (JInt z) = 0%Z)
    /\ (forall s, PyStr.mem (PyStr.lower s) ["success"; "ok"] = false ->
                  Spec.exit_of_status (JStr s) = 1%Z)
    /\ (forall s, PyStr.mem (PyStr.lower s) ["success"; "ok"] = true ->
                  Spec.exit_of_status (JStr s) = 0%Z).
Proof.
  intros env cli argenv fmg_lib cl tr.
  split; [intros ->; reflexivity|].
  split; [intros ->; reflexivity|].
  split.
  { intros r -> Hr. apply run_process_rejected.
    destruct (parse_args_options r tr) as [(_ & H) | (H & _)];
      [exact H | contradiction]. }
  split.
  { intros r -> Hr.
    destruct (parse_args_options r tr) as [(H & _) | (_ & a & H & _)];
      [contradiction | exists a; exact H]. }
  split.
  { intros a tr0 Hp.
    destruct (parse_args_returns cl tr tr0 a Hp) as (-> & Hm & _).
    pose proof (run_process_parsed fmg_lib cl tr tr a Hp) as Hrun.
    split; [reflexivity|]. split; [exact Hm|]. split; [exact Hrun|].
    rewrite Hrun.
    split; [apply run_request_returns|].
    split.
    { intros e He. split.
      - intros Hc.
        pose proof (request_raises_BaseException fmg_lib a tr e Hm He) as Hb.
        unfold is_Exception in Hb. rewrite Hc in Hb. discriminate Hb.
      - apply (run_request_raises fmg_lib a tr e He). }
    split; [apply run_config_error|].
    split; [intros cfg tr1; apply (run_missing_host fmg_lib a tr tr1 cfg)|].
    split; [intros cfg tr1; apply (run_missing_secret fmg_lib a tr tr1 cfg)|].
    intros cfg tr1 cr tr2 text message.
    apply (run_invalid_data fmg_lib a tr tr1 tr2 cfg cr text message). }
  split.
  { intros z H. unfold Spec.exit_of_status.
    destruct (Z.ltb_spec z 0); [reflexivity | lia]. }
  split.
  { intros z H. unfold Spec.exit_of_status.
    destruct (Z.ltb_spec z 0); [lia|].
    destruct (Z.leb_spec 400 z); [reflexivity | lia]. }
  split.
  { intros z H. unfold Spec.exit_of_status.
    destruct (Z.ltb_spec z 0); [lia|].
    destruct (Z.leb_spec 400 z); [lia | reflexivity]. }
  split; intros s H; unfold Spec.exit_of_status; rewrite H; reflexivity.
Qed.

Lemma process_exit_status_witness :
  fst (run_process (env := Demo.env) (cli := Demo.cli) (argenv := Demo.argenv)
         (Demo.answering (JInt 404, JNull)) (Options (Demo.raw "get")) [])
  = 2%Z
  /\ fst (run_process (env := Demo.env) (cli := Demo.cli) (argenv := Demo.argenv)
            (Demo.unreachable (mkExn KeyboardInterrupt "interrupted"))
            (Options (Demo.raw "get")) [])
     = 130%Z
  /\ fst (run_process (env := Demo.env) (cli := Demo.cli) (argenv := Demo.argenv)
            (Demo.answering Demo.ok)
            (Options (mkRaw None (Some "10.0.0.1") None (Some "secret") None
                            (Some "get") (Some "sys/status") None None
                            false false false (Some "soon") false None None None))
            [])
     = 2%Z.
Proof.
  assert (Hret : Spec.request_returns (env := Demo.env) (cli := Demo.cli)
                   (Demo.answering (JInt 404, JNull)) Demo.args [] (JInt 404)).
  { unfold Spec.request_returns. do 6 eexists.
    split; [reflexivity|]. split; [reflexivity|]. cbv. reflexivity. }
  assert (Hraise : Spec.request_raises (env := Demo.env) (cli := Demo.cli)
                     (Demo.unreachable (mkExn KeyboardInterrupt "interrupted"))
                     Demo.args [] (mkExn KeyboardInterrupt "interrupted")).
  { unfold Spec.request_raises. do 5 eexists.
    split; [reflexivity|]. split; [reflexivity|]. cbv. reflexivity. }
  split; [| split].
  - destruct (process_exit_status Demo.env Demo.cli Demo.argenv
                (Demo.answering (JInt 404, JNull)) (Options (Demo.raw "get")) [])
      as (_ & _ & _ & _ & Hacc & _ & H400 & _).
    destruct (Hacc Demo.args [] eq_refl) as (_ & _ & _ & Hstatus & _).
    rewrite (Hstatus (JInt 404) Hret). apply H400. lia.
  - destruct (process_exit_status Demo.env Demo.cli Demo.argenv
                (Demo.unreachable (mkExn KeyboardInterrupt "interrupted"))
                (Options (Demo.raw "get")) [])
      as (_ & _ & _ & _ & Hacc & _).
    destruct (Hacc Demo.args [] eq_refl) as (_ & _ & _ & _ & Hint & _).
    exact (proj2 (Hint _ Hraise) eq_refl).
  - destruct (process_exit_status Demo.env Demo.cli Demo.argenv
                (Demo.answering Demo.ok)
                (Options (mkRaw None (Some "10.0.0.1") None (Some "secret") None
                                (Some "get") (Some "sys/status") None None
                                false false false (Some "soon") false None None
                                None)) [])
      as (_ & _ & Hrej & _).
    apply (Hrej _ eq_refl). do 4 right. exists "soon".
    split; [left; reflexivity | reflexivity].
Defined.

(** *** Where the formatter returns *)

Lemma lookup_In (d : dict) (k : string) (v : json) :
  lookup d k = Some v -> In v (values d).
Proof.
  induction d as [| [k' v'] d IH]; simpl; [discriminate|].
  destruct (String.eqb k' k).
  - intros H. injection H as ->. left. reflexivity.
  - intros H. right. apply IH, H.
Qed.

(** A row that lacks a column shows "-" in it. *)
Lemma cell_missing {env : PyEnv} (max_width : Z) (d : dict) (field : string) :
  lookup d field = None ->
  cell max_width (JDict d) field = Ret (truncate max_width "-").
Proof. intros H. unfold cell, get_default. rewrite H. reflexivity. Qed.

Lemma cell_returns {env : PyEnv} (max_width : Z) (item : json) (field : string) :
  renders item = true -> is_ret (cell max_width item field) = true.
Proof.
  destruct item as [| b | z | f | s | l | d]; simpl; try discriminate.
  intros H. unfold get_default.
  assert (Hf : flattens (match lookup d field with Some v => v | None => JStr "-" end)
               = true).
  { destruct (lookup d field) as [v |] eqn:E; [| reflexivity].
    apply lookup_In in E. unfold values in E. apply List.in_map_iff in E.
    destruct E as (kv & <- & Hin).
    rewrite List.forallb_forall in H. apply (H kv Hin). }
  rewrite <- flatten_value_returns in Hf.
  destruct (_flatten_value _); [reflexivity | discriminate Hf].
Qed.

(** On rows that are mappings whose list values are uniform, the formatter
    returns a string for every field and width cap. *)
Lemma format_table_returns {env : PyEnv} (response : json) (max_fields max_width : Z) :
  (forall rows, data_list_of response = Some rows -> forallb renders rows = true) ->
  is_ret (format_table response max_fields max_width) = true.
Proof.
  intros H. unfold format_table.
  destruct (data_list_of response) as [rows |]; [| reflexivity].
  specialize (H rows eq_refl).
  destruct rows as [| item0 rest]; [reflexivity|].
  destruct (fields_of (item0 :: rest) max_fields) as [| f0 fs]; [reflexivity|].
  assert (Hr : is_ret (rmap (row max_width (f0 :: fs)) (item0 :: rest)) = true).
  { apply rmap_returns. intros item Hin.
    rewrite List.forallb_forall in H. specialize (H item Hin).
    unfold row. apply rmap_returns. intros field _.
    apply cell_returns, H. }
  destruct (rmap _ (item0 :: rest)); [reflexivity | discriminate Hr].
Qed.

(** *** Column inference *)

Lemma field_counts_sample (rows : list json) :
  field_counts rows = field_counts (firstn 10 rows).
Proof. unfold field_counts. rewrite List.firstn_firstn. reflexivity. Qed.

Lemma count_item_skips (fc : counts) (item : json) :
  is_dict item = false -> count_item fc item = fc.
Proof. destruct item; simpl; intros H; try reflexivity; discriminate H. Qed.

Lemma fold_count_item_skips (rows : list json) (fc : counts) :
  forallb (fun item => negb (is_dict item)) rows = true ->
  fold_left count_item rows fc = fc.
Proof.
  revert fc. induction rows as [| item rows IH]; simpl; [reflexivity|].
  intros fc H. apply Bool.andb_true_iff in H. destruct H as (Hi & Hr).
  rewrite count_item_skips by (destruct (is_dict item); [discriminate Hi | reflexivity]).
  apply IH, Hr.
Qed.

(** The count of a key is the number of times the sampled mapping rows
    hold it, and a key met for the first time goes to the end. *)
Lemma bump_count_of (fc : counts) (key k : string) :
  count_of (bump fc key) k
  = if String.eqb key k then S (count_of fc k) else count_of fc k.
Proof.
  induction fc as [| [k' n] fc IH]; simpl.
  - reflexivity.
  - destruct (String.eqb_spec k' key) as [-> | Hne]; simpl.
    + destruct (String.eqb key k); reflexivity.
    + destruct (String.eqb_spec k' k) as [-> | Hne'].
      * destruct (String.eqb_spec key k) as [-> | _]; [contradiction | reflexivity].
      * exact IH.
Qed.

Lemma bump_keys (fc : counts) (key : string) :
  map fst (bump fc key)
  = if PyStr.mem key (map fst fc) then map fst fc
    else (map fst fc ++ [key])%list.
Proof.
  induction fc as [| [k' n] fc IH]; simpl; [reflexivity|].
  rewrite (String.eqb_sym key k').
  destruct (String.eqb k' key); simpl; [reflexivity|].
  rewrite IH. destruct (PyStr.mem key (map fst fc)); reflexivity.
Qed.

Lemma fold_bump_count_of (ks : list string) (fc : counts) (k : string) :
  count_of (fold_left bump ks fc) k
  = (count_of fc k + count_occ string_dec ks k)%nat.
Proof.
  revert fc. induction ks as [| key ks IH]; intros fc; simpl; [lia|].
  rewrite IH, bump_count_of.
  destruct (string_dec key k) as [-> | Hne].
  - rewrite String.eqb_refl. lia.
  - destruct (String.eqb_spec key k); [contradiction | reflexivity].
Qed.

Lemma fold_count_item_count_of (rows : list json) (fc : counts) (k : string) :
  count_of (fold_left count_item rows fc) k
  = (count_of fc k + occurrences k rows)%nat.
Proof.
  revert fc. induction rows as [| item rows IH]; intros fc;
    unfold occurrences in *; simpl; [lia|].
  rewrite IH. destruct item; simpl; try lia.
  unfold keys. rewrite fold_bump_count_of. lia.
Qed.

Lemma field_counts_count_of (rows : list json) (k : string) :
  count_of (field_counts rows) k = occurrences k (firstn 10 rows).
Proof. unfold field_counts. rewrite fold_count_item_count_of. reflexivity. Qed.

(** Without a mapping among the sampled rows there is no column, and the
    formatter answers with a message. *)
Lemma format_table_no_mapping_rows {env : PyEnv} (item0 : json) (rest : list json)
  (max_fields max_width : Z) :
  forallb (fun item => negb (is_dict item)) (firstn 10 (item0 :: rest)) = true ->
  format_table (JList (item0 :: rest)) max_fields max_width
  = Ret "No suitable fields found for table display".
Proof.
  intros H. unfold format_table, data_list_of, fields_of, field_counts.
  rewrite (fold_count_item_skips _ [] H). simpl sorted_desc.
  rewrite List.firstn_nil. reflexivity.
Qed.

(** The ranking is a stable sort by descending count: a permutation of the
    counts, in non-increasing order, that keeps keys of equal count in their
    first-seen order. *)
Lemma insert_desc_perm (x : string * nat) (l : counts) :
  Permutation (insert_desc x l) (x :: l).
Proof.
  induction l as [| y l IH]; simpl; [apply Permutation_refl|].
  destruct (snd x <? snd y)%nat; [| apply Permutation_refl].
  apply Permutation_trans with (y :: x :: l);
    [apply perm_skip, IH | apply perm_swap].
Qed.

Lemma sorted_desc_perm (l : counts) : Permutation (sorted_desc l) l.
Proof.
  induction l as [| x l IH]; simpl; [apply perm_nil|].
  apply Permutation_trans with (x :: sorted_desc l);
    [apply insert_desc_perm | apply perm_skip, IH].
Qed.

Lemma insert_desc_sorted (x : string * nat) (l : counts) :
  StronglySorted desc l -> StronglySorted desc (insert_desc x l).
Proof.
  induction l as [| y l IH]; simpl; intros H.
  - constructor; [constructor | constructor].
  - apply StronglySorted_inv in H. destruct H as (Hl & Hy).
    destruct (Nat.ltb_spec (snd x) (snd y)).
    + constructor; [apply IH, Hl|].
      apply List.Forall_forall. intros z Hz.
      apply (Permutation_in _ (insert_desc_perm x l)) in Hz.
      destruct Hz as [<- | Hz]; [unfold desc; lia|].
      rewrite List.Forall_forall in Hy. apply Hy, Hz.
    + constructor; [constructor; assumption|].
      constructor; [unfold desc; lia|].
      apply List.Forall_forall. intros z Hz.
      rewrite List.Forall_forall in Hy. specialize (Hy z Hz).
      unfold desc in *. lia.
Qed.

Lemma sorted_desc_sorted (l : counts) : StronglySorted desc (sorted_desc l).
Proof.
  induction l as [| x l IH]; simpl; [constructor|].
  apply insert_desc_sorted, IH.
Qed.

Lemma insert_desc_stable (n : nat) (x : string * nat) (l : counts) :
  StronglySorted desc l ->
  with_count n (insert_desc x l) = with_count n (x :: l).
Proof.
  unfold with_count. induction l as [| y l IH]; simpl; [reflexivity|].
  intros H. apply StronglySorted_inv in H. destruct H as (Hl & Hy).
  destruct (Nat.ltb_spec (snd x) (snd y)); [| reflexivity].
  simpl. rewrite (IH Hl). simpl.
  destruct (Nat.eqb_spec (snd x) n), (Nat.eqb_spec (snd y) n);
    try reflexivity. lia.
Qed.

Lemma sorted_desc_stable (n : nat) (l : counts) :
  with_count n (sorted_desc l) = with_count n l.
Proof.
  induction l as [| x l IH]; simpl; [reflexivity|].
  rewrite insert_desc_stable by apply sorted_desc_sorted.
  unfold with_count in *. simpl. rewrite IH. reflexivity.
Qed.

(** For a field cap that is not negative the columns are the first
    [max_fields] keys of the ranking. *)
Lemma fields_of_top (rows : list json) (max_fields : Z) :
  (0 <= max_fields)%Z ->
  fields_of rows max_fields
  = map fst (firstn (Z.to_nat max_fields) (sorted_desc (field_counts rows))).
Proof.
  intros H. unfold fields_of, PyStr.slice_stop.
  destruct (Z.ltb_spec max_fields 0); [lia|].
  f_equal. set (l := sorted_desc (field_counts rows)).
  destruct (Nat.le_ge_cases (Z.to_nat max_fields) (List.length l)) as [Hle | Hge].
  - rewrite Nat.min_l by exact Hle. reflexivity.
  - rewrite Nat.min_r by exact Hge.
    rewrite List.firstn_all. symmetry. apply List.firstn_all2, Hge.
Qed.

(** C5 at its failing input.  With [--table-max-fields 0] the command
    line hands the formatter a cap of 999, so a row with 1000 distinct keys is
    rendered with 999 columns; [format_table] itself, called with a cap of 0,
    finds no column at all. *)
Theorem table_max_fields_zero_is_capped :
  a_table_max_fields Demo.table_args = 0%Z
  /\ table_max_fields Demo.table_args = 999%Z
  /\ nodup_keys (keys (wide_row 1000)) = true
  /\ List.length (keys (wide_row 1000)) = 1000%nat
  /\ List.length (fields_of [JDict (wide_row 1000)] (table_max_fields Demo.table_args))
     = 999%nat
  /\ format_table (env := Demo.env) (JList [JDict [("name", JStr "a")]]) 0 50
     = Ret "No suitable fields found for table display".
Proof.
  repeat split; vm_compute; reflexivity.
Qed.

(** ** Further properties of [FortiManagerAPIClient] *)

Lemma lower_char_idempotent (c : ascii) :
  PyStr.lower_char (PyStr.lower_char c) = PyStr.lower_char c.
Proof.
  destruct c as [[] [] [] [] [] [] [] []]; vm_compute; reflexivity.
Qed.

Lemma lower_idempotent (s : string) : PyStr.lower (PyStr.lower s) = PyStr.lower s.
Proof.
  induction s as [| c s IH]; simpl; [reflexivity|].
  rewrite lower_char_idempotent, IH. reflexivity.
Qed.

(** X1.  The verb is matched without regard to letter case: a run with a
    verb and a run with its lower-case form give the same result and the same
    trace. *)
Theorem execute_request_verb_case :
  forall (fmg_lib : FortiManager) (self : client) (method endpoint : string)
         (data : option json) (query_params : option (list string)) (tr : trace),
    execute_request fmg_lib self method endpoint data query_params tr
    = execute_request fmg_lib self (PyStr.lower method) endpoint data
        query_params tr.
Proof.
  intros. unfold execute_request. rewrite lower_idempotent. reflexivity.
Qed.

(** X2.  The verbs [get] and [delete] never look at the body: whatever
    [data] holds, mapping or not, the run is the run without a body. *)
Theorem execute_request_get_delete_ignore_body :
  forall (fmg_lib : FortiManager) (self : client) (method endpoint : string)
         (data : option json) (query_params : option (list string)) (tr : trace),
    PyStr.lower method = "get" \/ PyStr.lower method = "delete" ->
    execute_request fmg_lib self method endpoint data query_params tr
    = execute_request fmg_lib self method endpoint None query_params tr.
Proof.
  intros fmg_lib self method endpoint data query_params tr H.
  unfold execute_request, dispatch.
  destruct H as [-> | ->]; reflexivity.
Qed.

Lemma execute_request_get_delete_ignore_body_witness :
  execute_request (Demo.answering Demo.ok) Demo.self "DELETE" "sys/status"
    (Some (JList [JInt 1])) None []
  = execute_request (Demo.answering Demo.ok) Demo.self "DELETE" "sys/status"
      None None [].
Proof.
  apply (execute_request_get_delete_ignore_body (Demo.answering Demo.ok)
           Demo.self "DELETE" "sys/status" (Some (JList [JInt 1])) None []).
  right. reflexivity.
Defined.

(** X3.  A body that is false in Python's sense (null, false, zero, empty
    text, empty list, empty mapping) is the same as no body, and an empty
    list of query parameters is the same as none. *)
Theorem execute_request_empty_inputs :
  forall (fmg_lib : FortiManager) (self : client) (method endpoint : string)
         (v : json) (data : option json) (query_params : option (list string))
         (tr : trace),
    truthy v = false ->
    execute_request fmg_lib self method endpoint (Some v) query_params tr
    = execute_request fmg_lib self method endpoint None query_params tr
    /\ execute_request fmg_lib self method endpoint data (Some []) tr
       = execute_request fmg_lib self method endpoint data None tr.
Proof.
  intros fmg_lib self method endpoint v data query_params tr H.
  unfold execute_request, dispatch, py_or. rewrite H. split; reflexivity.
Qed.

Lemma execute_request_empty_inputs_witness :
  execute_request (Demo.answering Demo.ok) Demo.self "add" "sys/status"
    (Some (JList [])) None []
  = execute_request (Demo.answering Demo.ok) Demo.self "add" "sys/status"
      None None [].
Proof.
  exact (proj1 (execute_request_empty_inputs (Demo.answering Demo.ok) Demo.self
                  "add" "sys/status" (JList []) None None [] eq_refl)).
Defined.

(** X4.  Under [add], [set], [update] or [exec], a body that is true in
    Python's sense and is not a mapping is never sent: the session is opened
    and closed without a call, and the run returns status -4 with the label
    "Unexpected error". *)
Theorem execute_request_rejects_non_mapping_body :
  forall (fmg_lib : FortiManager) (self : client) (method endpoint : string)
         (v : json) (query_params : option (list string)) (tr : trace),
    PyStr.mem (PyStr.lower method) ["add"; "set"; "update"; "exec"] = true ->
    truthy v = true -> is_dict v = false ->
    let c := _create_connection self in
    fmg_new fmg_lib c = None -> fmg_enter fmg_lib c = None ->
    fmg_exit fmg_lib c = None ->
    exists details line,
      execute_request fmg_lib self method endpoint (Some v) query_params tr
      = (Ret (JInt (-4), error_payload "Unexpected error" details),
         (tr ++ [Create c; Login; Logout; Print line])%list).
Proof.
  intros fmg_lib self method endpoint v query_params tr Hm Ht Hd c Hn He Hx.
  assert (Hs : PyStr.mem (PyStr.lower method) supported = true).
  { simpl in Hm. unfold supported. simpl.
    destruct (String.eqb (PyStr.lower method) "add"),
             (String.eqb (PyStr.lower method) "set"),
             (String.eqb (PyStr.lower method) "update"),
             (String.eqb (PyStr.lower method) "exec"); simpl in *;
      try discriminate Hm; repeat rewrite Bool.orb_true_r; reflexivity. }
  assert (Hbody : forall t,
             exists x, exn_cls x = TypeError /\
               dispatch fmg_lib c (PyStr.lower method) (normalize endpoint)
                 (Some v) query_params t = (Raise x, t)).
  { intros t. unfold dispatch, py_or. rewrite Ht.
    simpl in Hm.
    destruct (String.eqb_spec (PyStr.lower method) "add") as [-> | _].
    { destruct v; try discriminate Hd; eexists; (split; [| reflexivity]); reflexivity. }
    destruct (String.eqb_spec (PyStr.lower method) "set") as [-> | _].
    { destruct v; try discriminate Hd; eexists; (split; [| reflexivity]); reflexivity. }
    destruct (String.eqb_spec (PyStr.lower method) "update") as [-> | _].
    { destruct v; try discriminate Hd; eexists; (split; [| reflexivity]); reflexivity. }
    destruct (String.eqb_spec (PyStr.lower method) "exec") as [-> | _].
    { destruct v; try discriminate Hd; eexists; (split; [| reflexivity]); reflexivity. }
    discriminate Hm. }
  destruct (Hbody ((tr ++ [Create c]) ++ [Login])%list) as (x & Hx' & Hb).
  exists (exn_msg x), ("Unexpected error: " ++ exn_msg x).
  unfold execute_request. rewrite Hs. fold c. unfold try_except.
  cbn [negb]. cbv beta iota.
  rewrite with_connection_run, Hn, He, Hx, Hb.
  unfold handler. rewrite Hx'. unfold bind, emit, ret.
  rewrite <- !List.app_assoc. reflexivity.
Qed.

Lemma execute_request_rejects_non_mapping_body_witness :
  exists details,
    fst (execute_request (Demo.answering Demo.ok) Demo.self "add" "sys/status"
           (Some (JList [JInt 1])) None [])
    = Ret (JInt (-4), error_payload "Unexpected error" details).
Proof.
  destruct (execute_request_rejects_non_mapping_body (Demo.answering Demo.ok)
              Demo.self "add" "sys/status" (JList [JInt 1]) None []
              eq_refl eq_refl eq_refl eq_refl eq_refl eq_refl)
    as (details & line & H).
  exists details. rewrite H. reflexivity.
Defined.

Lemma count_app (p : event -> bool) (l1 l2 : list event) :
  count p (l1 ++ l2)%list = (count p l1 + count p l2)%nat.
Proof. unfold count. rewrite List.filter_app, List.length_app. reflexivity. Qed.

Lemma handler_prints (e : exn) (tr : trace) :
  exists evs, snd (handler e tr) = (tr ++ evs)%list
              /\ forallb (fun ev => match ev with Print _ => true | _ => false end) evs
                 = true.
Proof.
  destruct (is_Exception e) eqn:E.
  - destruct (handler_Exception e tr E) as (line & ->).
    exists [Print line]. split; reflexivity.
  - rewrite (handler_BaseException e tr E).
    exists []. simpl. rewrite List.app_nil_r. split; reflexivity.
Qed.

Lemma count_prints (p : event -> bool) (evs : list event) :
  (forall s, p (Print s) = false) ->
  forallb (fun ev => match ev with Print _ => true | _ => false end) evs = true ->
  count p evs = 0%nat.
Proof.
  intros Hp. induction evs as [| ev evs IH]; [reflexivity|]. simpl.
  intros H. apply Bool.andb_true_iff in H. destruct H as (Hev & Hevs).
  destruct ev; try discriminate Hev. unfold count in *. simpl.
  rewrite Hp. apply IH, Hevs.
Qed.

(** X5.  One run under a supported verb creates exactly one connection.
    The login is attempted exactly when the constructor returns, the logout
    happens exactly once exactly when the login succeeds, whatever the body
    of the block does, and at most one call is sent, only on an open
    session. *)
Theorem execute_request_session_discipline :
  forall (fmg_lib : FortiManager) (self : client) (method endpoint : string)
         (data : option json) (query_params : option (list string)) (tr : trace),
    PyStr.mem (PyStr.lower method) supported = true ->
    let c := _create_connection self in
    exists evs,
      snd (execute_request fmg_lib self method endpoint data query_params tr)
      = (tr ++ evs)%list
      /\ hd_error evs = Some (Create c)
      /\ count is_create evs = 1%nat
      /\ count is_login evs
         = match fmg_new fmg_lib c with None => 1%nat | Some _ => 0%nat end
      /\ count is_logout evs
         = match fmg_new fmg_lib c, fmg_enter fmg_lib c with
           | None, None => 1%nat
           | _, _ => 0%nat
           end
      /\ (count is_call evs <= count is_logout evs)%nat.
Proof.
  intros fmg_lib self method endpoint data query_params tr H c.
  unfold execute_request. rewrite H. fold c. unfold try_except.
  cbn [negb]. cbv beta iota. rewrite with_connection_run.
  assert (Hfin : forall (r : result (json * json)) (pre : list event),
             hd_error pre = Some (Create c) ->
             exists evs,
               snd (match r with
                    | Ret a => (Ret a, (tr ++ pre)%list)
                    | Raise e => handler e (tr ++ pre)%list
                    end) = (tr ++ evs)%list
               /\ hd_error evs = Some (Create c)
               /\ count is_create evs = count is_create pre
               /\ count is_login evs = count is_login pre
               /\ count is_logout evs = count is_logout pre
               /\ count is_call evs = count is_call pre).
  { intros r pre Hpre. destruct r as [a | e].
    - exists pre. simpl. repeat split; try reflexivity. exact Hpre.
    - destruct (handler_prints e (tr ++ pre)%list) as (hs & Hsnd & Hhs).
      exists (pre ++ hs)%list. cbv beta iota.
      split; [etransitivity; [exact Hsnd | symmetry; apply List.app_assoc]|].
      split; [destruct pre; [discriminate Hpre | exact Hpre]|].
      rewrite !count_app.
      rewrite !(count_prints _ hs) by (try exact Hhs; intros; reflexivity).
      repeat split; lia. }
  destruct (fmg_new fmg_lib c) eqn:Hnew.
  { destruct (Hfin (Raise e) [Create c] eq_refl)
      as (evs & Hs & Hh & H1 & H2 & H3 & H4).
    exists evs. split; [exact Hs|].
    rewrite Hh, H1, H2, H3, H4.
    repeat match goal with |- _ /\ _ => split end;
      try reflexivity; unfold count; simpl; lia. }
  destruct (fmg_enter fmg_lib c) eqn:Henter.
  { destruct (Hfin (Raise e) [Create c; Login] eq_refl)
      as (evs & Hs & Hh & H1 & H2 & H3 & H4).
    exists evs. split; [rewrite <- List.app_assoc; exact Hs|].
    rewrite Hh, H1, H2, H3, H4.
    repeat match goal with |- _ /\ _ => split end;
      try reflexivity; unfold count; simpl; lia. }
  destruct (dispatch_supported fmg_lib c (PyStr.lower method) (normalize endpoint)
              data query_params ((tr ++ [Create c]) ++ [Login])%list H)
    as [(x & Hx & Hd) | (w & Hw & Hd)]; rewrite Hd.
  - destruct (Hfin (match fmg_exit fmg_lib c with
                    | Some y => Raise y
                    | None => Raise x
                    end) [Create c; Login; Logout] eq_refl)
      as (evs & Hs & Hh & H1 & H2 & H3 & H4).
    exists evs. split.
    + rewrite <- Hs. destruct (fmg_exit fmg_lib c);
        rewrite <- !List.app_assoc; reflexivity.
    + rewrite Hh, H1, H2, H3, H4.
      repeat match goal with |- _ /\ _ => split end;
        try reflexivity; unfold count; simpl; lia.
  - destruct (Hfin (match fmg_exit fmg_lib c with
                    | Some y => Raise y
                    | None => fmg_request fmg_lib c w
                    end) [Create c; Login; Call w; Logout] eq_refl)
      as (evs & Hs & Hh & H1 & H2 & H3 & H4).
    exists evs. split.
    + rewrite <- Hs. destruct (fmg_exit fmg_lib c);
        rewrite <- !List.app_assoc; reflexivity.
    + rewrite Hh, H1, H2, H3, H4.
      repeat match goal with |- _ /\ _ => split end;
        try reflexivity; unfold count; simpl; lia.
Qed.

Lemma execute_request_session_discipline_witness :
  exists evs,
    snd (execute_request (Demo.unreachable (mkExn FMGConnectTimeout "timed out"))
           Demo.self "get" "sys/status" None None [])
    = evs
    /\ count is_logout evs = 0%nat /\ (count is_call evs <= 0)%nat.
Proof.
  destruct (execute_request_session_discipline
              (Demo.unreachable (mkExn FMGConnectTimeout "timed out"))
              Demo.self "get" "sys/status" None None [] eq_refl)
    as (evs & Hs & _ & _ & _ & Hout & Hcall).
  exists evs. split; [exact Hs|]. split; [exact Hout|].
  rewrite Hout in Hcall. exact Hcall.
Defined.

(** X6.  A logout that raises hides the answer of the device: when the
    session opens and [__exit__] raises an exception [e] of class
    [Exception], the run returns the pair classified for [e], also when the
    call itself was answered. *)
Theorem execute_request_failing_logout :
  forall (fmg_lib : FortiManager) (self : client) (method endpoint : string)
         (data : option json) (query_params : option (list string)) (tr : trace)
         (e : exn),
    PyStr.mem (PyStr.lower method) supported = true ->
    let c := _create_connection self in
    fmg_new fmg_lib c = None -> fmg_enter fmg_lib c = None ->
    fmg_exit fmg_lib c = Some e -> is_Exception e = true ->
    fst (execute_request fmg_lib self method endpoint data query_params tr)
    = Ret (Spec.classified e).
Proof.
  intros fmg_lib self method endpoint data query_params tr e H c Hn He Hx Hc.
  unfold execute_request. rewrite H. fold c. unfold try_except.
  cbn [negb]. cbv beta iota. rewrite with_connection_run, Hn, He, Hx.
  destruct (dispatch _ _ _ _ _ _ _) as [r tr'].
  destruct (handler_Exception e (tr' ++ [Logout])%list Hc) as (line & ->).
  reflexivity.
Qed.

Lemma execute_request_failing_logout_witness :
  fst (execute_request
         {| fmg_new := fun _ => None; fmg_enter := fun _ => None;
            fmg_request := fun _ _ => Ret Demo.ok;
            fmg_exit := fun _ => Some (mkExn FMGValidSessionException "expired") |}
         Demo.self "get" "sys/status" None None [])
  = Ret (JInt (-2), error_payload "Invalid session" "expired").
Proof.
  apply (execute_request_failing_logout
           {| fmg_new := fun _ => None; fmg_enter := fun _ => None;
              fmg_request := fun _ _ => Ret Demo.ok;
              fmg_exit := fun _ => Some (mkExn FMGValidSessionException "expired") |}
           Demo.self "get" "sys/status" None None []
           (mkExn FMGValidSessionException "expired"));
    reflexivity.
Defined.

(** X7.  The constructor raises [ValueError] exactly when neither an API
    key nor a password is given (absent or empty), and a missing or empty user
    name becomes [admin].  On the client it returns, [_create_connection]
    uses the API key whenever one is given, and then the password is not
    handed to the library; otherwise it passes the password. *)
Theorem init_create_connection :
  forall (h : string) (u p k : option string) (ssl verify : bool) (t : Z)
         (dbg : bool),
    (given k = false -> given p = false ->
     init h u p k ssl verify t dbg
     = Raise (mkExn ValueError "Either password or apikey must be provided"))
    /\ (forall key, k = Some key -> key <> EmptyString ->
          exists c, init h u p k ssl verify t dbg = Ret c
                    /\ _create_connection c
                       = WithApiKey h (or_else u "admin") key
                           (mkOpts dbg ssl verify t))
    /\ (given k = false -> given p = true ->
          exists c, init h u p k ssl verify t dbg = Ret c
                    /\ _create_connection c
                       = WithPassword h (or_else u "admin") p
                           (mkOpts dbg ssl verify t)).
Proof.
  intros h u p k ssl verify t dbg. split; [| split].
  - intros Hk Hp. unfold init. rewrite Hk, Hp. reflexivity.
  - intros key -> Hkey. destruct key as [| a r]; [contradiction|].
    eexists. split; reflexivity.
  - intros Hk Hp. unfold init. rewrite Hk, Hp. simpl.
    eexists. split; [reflexivity|].
    unfold _create_connection. simpl.
    destruct k as [[| a r] |]; try reflexivity. discriminate Hk.
Qed.

Lemma init_create_connection_witness :
  exists c,
    init "10.0.0.1" None (Some "secret") (Some "key") true false 300 false = Ret c
    /\ _create_connection c
       = WithApiKey "10.0.0.1" "admin" "key" (mkOpts false true false 300).
Proof.
  destruct (init_create_connection "10.0.0.1" None (Some "secret") (Some "key")
              true false 300 false) as (_ & Hkey & _).
  apply (Hkey "key" eq_refl). discriminate.
Defined.

(** ** Further properties of [TableFormatter] *)

Lemma rmap_Forall2 {A B} (f : A -> result B) (l : list A) (ys : list B) :
  rmap f l = Ret ys -> Forall2 (fun x y => f x = Ret y) l ys.
Proof.
  revert ys. induction l as [| x l IH]; simpl; intros ys H.
  - injection H as <-. constructor.
  - destruct (f x) as [y |] eqn:E; simpl in H; [| discriminate H].
    destruct (rmap f l) as [ys' |]; simpl in H; [| discriminate H].
    injection H as <-. constructor; [exact E | apply IH; reflexivity].
Qed.

Lemma rmap_length {A B} (f : A -> result B) (l : list A) (ys : list B) :
  rmap f l = Ret ys -> List.length ys = List.length l.
Proof.
  intros H. apply rmap_Forall2 in H. symmetry.
  induction H; simpl; [reflexivity | f_equal; assumption].
Qed.

Lemma string_append_assoc (a b c : string) : (a ++ b) ++ c = a ++ (b ++ c).
Proof. induction a as [| x a IH]; simpl; [reflexivity | rewrite IH; reflexivity]. Qed.

(** X8.  Whatever [format_table] returns is one of its three messages or
    a table: the line "<n> result(s) found" with [n] the number of rows of
    the response, sampled or not, then the grid of the inferred columns with
    one grid row per response row and one cell per column. *)
Theorem format_table_shape :
  forall (env : PyEnv) (response : json) (max_fields max_width : Z) (out : string),
    format_table response max_fields max_width = Ret out ->
    out = "Table format not supported for response type: " ++ type_repr response
    \/ out = "No data to display in table format"
    \/ out = "No suitable fields found for table display"
    \/ exists data_list rows,
         data_list_of response = Some data_list
         /\ fields_of data_list max_fields <> []
         /\ List.length rows = List.length data_list
         /\ Forall (fun r => List.length r
                             = List.length (fields_of data_list max_fields)) rows
         /\ out = PyStr.of_nat (List.length data_list) ++ " result(s) found"
                    ++ PyStr.newline
                    ++ tabulate rows (fields_of data_list max_fields).
Proof.
  intros env response max_fields max_width out H. unfold format_table in H.
  destruct (data_list_of response) as [data_list |] eqn:Hd.
  2:{ injection H as <-. left. reflexivity. }
  destruct data_list as [| item0 rest].
  { injection H as <-. right. left. reflexivity. }
  destruct (fields_of (item0 :: rest) max_fields) as [| f0 fs] eqn:Hf.
  { injection H as <-. right. right. left. reflexivity. }
  destruct (rmap (row max_width (f0 :: fs)) (item0 :: rest)) as [rows |] eqn:Hr;
    simpl in H; [| discriminate H].
  injection H as <-. right. right. right.
  exists (item0 :: rest), rows.
  split; [reflexivity|]. split; [rewrite Hf; discriminate|].
  split; [exact (rmap_length _ _ _ Hr)|]. split.
  - apply rmap_Forall2 in Hr. rewrite Hf.
    clear Hd Hf. induction Hr as [| item cells l ys Hrow _ IH]; constructor.
    + unfold row in Hrow. exact (rmap_length _ _ _ Hrow).
    + exact IH.
  - rewrite Hf. unfold summary.
    apply string_append_assoc.
Qed.

Lemma format_table_shape_witness :
  let response :=
    JDict [("results",
            JList [JDict [("name", JStr "a"); ("subnet", JStr "10.0.0.0/24")]])] in
  let out := "1 result(s) found" ++ PyStr.newline ++ "name | subnet"
               ++ PyStr.newline ++ "a | 10.0.0.0/24" in
  out = "Table format not supported for response type: "
          ++ type_repr response
  \/ out = "No data to display in table format"
  \/ out = "No suitable fields found for table display"
  \/ exists data_list rows,
       data_list_of response = Some data_list
       /\ fields_of data_list 6 <> []
       /\ List.length rows = List.length data_list
       /\ Forall (fun r => List.length r = List.length (fields_of data_list 6)) rows
       /\ out = PyStr.of_nat (List.length data_list) ++ " result(s) found"
                  ++ PyStr.newline
                  ++ tabulate (PyEnv := Demo.env) rows (fields_of data_list 6).
Proof.
  cbv zeta.
  apply (format_table_shape Demo.env
           (JDict [("results",
                    JList [JDict [("name", JStr "a"); ("subnet", JStr "10.0.0.0/24")]])])
           6 50).
  reflexivity.
Defined.

Lemma truncate_bound (max_width : Z) (text : string) :
  (3 <= max_width)%Z ->
  (Z.of_nat (String.length (truncate max_width text)) <= max_width)%Z.
Proof.
  intros H.
  destruct (Z.ltb_spec max_width (Z.of_nat (String.length text))) as [Hlt | Hge].
  - rewrite truncate_long by assumption.
    rewrite length_append, length_substring_0 by lia. simpl. lia.
  - rewrite truncate_short by assumption. exact Hge.
Qed.

(** X9.  With a width cap of at least 3, no cell of a rendered row is
    longer than the cap. *)
Theorem row_cells_within_width :
  forall (env : PyEnv) (max_width : Z) (fields : list string) (item : json)
         (cells : list string),
    (3 <= max_width)%Z ->
    row max_width fields item = Ret cells ->
    Forall (fun c => (Z.of_nat (String.length c) <= max_width)%Z) cells.
Proof.
  intros env max_width fields item cells H3 H. unfold row in H.
  apply rmap_Forall2 in H.
  induction H as [| field c l ys Hcell _ IH]; constructor; [| exact IH].
  unfold cell in Hcell. destruct item; try discriminate Hcell.
  destruct (_flatten_value _); simpl in Hcell; [| discriminate Hcell].
  injection Hcell as <-. apply truncate_bound, H3.
Qed.

Lemma row_cells_within_width_witness :
  Forall (fun c => (Z.of_nat (String.length c) <= 5)%Z) ["ab..."; "-"].
Proof.
  apply (row_cells_within_width Demo.env 5 ["comment"; "color"]
           (JDict [("comment", JStr "abcdefgh")]) ["ab..."; "-"]).
  - lia.
  - reflexivity.
Defined.

Lemma mem_In (x : string) (l : list string) : PyStr.mem x l = true <-> In x l.
Proof.
  induction l as [| y l IH]; simpl; [split; [discriminate | tauto]|].
  rewrite Bool.orb_true_iff, IH, String.eqb_eq. split; intros [H | H]; auto.
Qed.

Lemma has_key_mem (d : dict) (k : string) : has_key d k = PyStr.mem k (keys d).
Proof.
  unfold has_key, keys. induction d as [| [k' v] d IH]; simpl; [reflexivity|].
  rewrite (String.eqb_sym k k'). destruct (String.eqb k' k); [reflexivity | exact IH].
Qed.

Lemma has_key_In (d : dict) (k : string) : has_key d k = true <-> In k (keys d).
Proof. rewrite has_key_mem. apply mem_In. Qed.

Lemma bump_nodup (fc : counts) (key : string) :
  NoDup (map fst fc) -> NoDup (map fst (bump fc key)).
Proof.
  intros H. rewrite bump_keys.
  destruct (PyStr.mem key (map fst fc)) eqn:E; [exact H|].
  apply List.NoDup_app; [exact H | repeat constructor; intros [] |].
  intros x Hx [<- | []]. apply mem_In in Hx. congruence.
Qed.

Lemma bump_In (fc : counts) (key k : string) :
  In k (map fst (bump fc key)) <-> In k (map fst fc) \/ k = key.
Proof.
  rewrite bump_keys. destruct (PyStr.mem key (map fst fc)) eqn:E.
  - apply mem_In in E. split; [auto | intros [H | ->]; assumption].
  - rewrite List.in_app_iff. simpl. split; intros [H | H]; auto.
    + destruct H as [<- | []]. auto.
Qed.

Lemma fold_bump_nodup (ks : list string) (fc : counts) :
  NoDup (map fst fc) -> NoDup (map fst (fold_left bump ks fc)).
Proof.
  revert fc. induction ks as [| key ks IH]; simpl; intros fc H; [exact H|].
  apply IH, bump_nodup, H.
Qed.

Lemma fold_bump_In (ks : list string) (fc : counts) (k : string) :
  In k (map fst (fold_left bump ks fc)) <-> In k (map fst fc) \/ In k ks.
Proof.
  revert fc. induction ks as [| key ks IH]; simpl; intros fc; [tauto|].
  rewrite IH, bump_In. split; intros H; intuition auto.
Qed.

Lemma fold_count_item_nodup (rows : list json) (fc : counts) :
  NoDup (map fst fc) -> NoDup (map fst (fold_left count_item rows fc)).
Proof.
  revert fc. induction rows as [| item rows IH]; simpl; intros fc H; [exact H|].
  apply IH. destruct item; simpl; try exact H. apply fold_bump_nodup, H.
Qed.

Lemma fold_count_item_In (rows : list json) (fc : counts) (k : string) :
  In k (map fst (fold_left count_item rows fc)) ->
  In k (map fst fc) \/ exists d, In (JDict d) rows /\ In k (keys d).
Proof.
  revert fc. induction rows as [| item rows IH]; simpl; intros fc H; [auto|].
  destruct (IH _ H) as [Hfc | (d & Hd & Hk)].
  - destruct item; simpl in Hfc; auto.
    apply fold_bump_In in Hfc. destruct Hfc as [Hfc | Hk]; [auto|].
    right. eexists. split; [left; reflexivity | exact Hk].
  - right. exists d. auto.
Qed.

Lemma NoDup_firstn {A} (n : nat) (l : list A) : NoDup l -> NoDup (firstn n l).
Proof.
  intros H. rewrite <- (List.firstn_skipn n l) in H.
  exact (List.NoDup_app_remove_r _ _ H).
Qed.

Lemma In_firstn {A} (n : nat) (l : list A) (x : A) : In x (firstn n l) -> In x l.
Proof.
  intros H. rewrite <- (List.firstn_skipn n l). apply List.in_or_app. auto.
Qed.

(** X10.  The inferred columns are pairwise distinct, each is a key of
    some mapping among the first ten rows, there are no more of them than
    distinct keys, and with a cap that is not negative no more than the
    cap. *)
Theorem fields_of_invariant :
  forall (rows : list json) (max_fields : Z),
    let fields := fields_of rows max_fields in
    NoDup fields
    /\ (forall f, In f fields ->
                  exists d, In (JDict d) (firstn 10 rows) /\ has_key d f = true)
    /\ (List.length fields <= List.length (field_counts rows))%nat
    /\ ((0 <= max_fields)%Z -> (Z.of_nat (List.length fields) <= max_fields)%Z).
Proof.
  intros rows max_fields fields. unfold fields, fields_of.
  set (n := PyStr.slice_stop max_fields _).
  assert (Hperm : Permutation (map fst (sorted_desc (field_counts rows)))
                              (map fst (field_counts rows)))
    by apply Permutation_map, sorted_desc_perm.
  assert (Hnd : NoDup (map fst (field_counts rows)))
    by (apply fold_count_item_nodup; constructor).
  split; [| split; [| split]].
  - rewrite <- List.firstn_map. apply NoDup_firstn.
    apply (Permutation_NoDup (Permutation_sym Hperm) Hnd).
  - intros f Hf. rewrite <- List.firstn_map in Hf. apply In_firstn in Hf.
    apply (Permutation_in _ Hperm) in Hf.
    apply fold_count_item_In in Hf. destruct Hf as [[] | (d & Hd & Hk)].
    exists d. split; [exact Hd | apply has_key_In, Hk].
  - rewrite List.length_map, List.length_firstn.
    rewrite <- (Permutation_length (sorted_desc_perm (field_counts rows))). lia.
  - intros H0. rewrite List.length_map, List.length_firstn.
    unfold n, PyStr.slice_stop. destruct (Z.ltb_spec max_fields 0); lia.
Qed.

Lemma fields_of_invariant_witness :
  (Z.of_nat (List.length
               (fields_of [JDict [("a", JInt 1); ("b", JInt 2); ("c", JInt 3)]] 2))
   <= 2)%Z.
Proof.
  destruct (fields_of_invariant [JDict [("a", JInt 1); ("b", JInt 2); ("c", JInt 3)]] 2)
    as (_ & _ & _ & H).
  apply H. lia.
Defined.

Lemma count_occ_nodup (ks : list string) (k : string) :
  nodup_keys ks = true ->
  count_occ string_dec ks k = if PyStr.mem k ks then 1%nat else 0%nat.
Proof.
  induction ks as [| x ks IH]; simpl; [reflexivity|].
  intros H. apply Bool.andb_true_iff in H. destruct H as (Hx & Hks).
  specialize (IH Hks). destruct (string_dec x k) as [-> | Hne].
  - rewrite String.eqb_refl. simpl.
    destruct (PyStr.mem k ks); [discriminate Hx | rewrite IH; reflexivity].
  - destruct (String.eqb_spec k x) as [-> | _]; [contradiction|]. exact IH.
Qed.

(** X11.  On rows whose mappings have pairwise distinct keys, as every
    Python mapping has, the count of a key is the number of mappings among
    the first ten rows that hold it; rows after the tenth and rows that are
    not mappings add nothing. *)
Theorem field_counts_counts_rows :
  forall (rows : list json) (k : string),
    (forall d, In (JDict d) (firstn 10 rows) -> nodup_keys (keys d) = true) ->
    count_of (field_counts rows) k
    = List.length (filter (holds k) (firstn 10 rows)).
Proof.
  intros rows k H. rewrite field_counts_count_of.
  induction (firstn 10 rows) as [| item l IH]; [reflexivity|].
  unfold occurrences in *. simpl.
  rewrite IH by (intros d Hd; apply H; right; exact Hd).
  destruct item; simpl; try reflexivity.
  rewrite count_occ_nodup by (apply H; left; reflexivity).
  rewrite has_key_mem. destruct (PyStr.mem k (keys d)); reflexivity.
Qed.

Lemma field_counts_counts_rows_witness :
  count_of (field_counts [JDict [("name", JStr "a")]; JInt 5;
                          JDict [("name", JStr "b"); ("vdom", JStr "root")]])
           "name"
  = 2%nat.
Proof.
  rewrite (field_counts_counts_rows
             [JDict [("name", JStr "a")]; JInt 5;
              JDict [("name", JStr "b"); ("vdom", JStr "root")]] "name").
  - reflexivity.
  - intros d [H | [H | [H | []]]]; try discriminate H;
      injection H as <-; reflexivity.
Defined.

(** X12.  For a cap that is not negative the columns are the first
    [max_fields] keys of a ranking of the counted keys that is a permutation
    of them, in order of non-increasing count, and that keeps the keys of
    equal count in the order in which they were first met. *)
Theorem fields_of_ranking :
  forall (rows : list json) (max_fields : Z),
    (0 <= max_fields)%Z ->
    exists ranked,
      fields_of rows max_fields = map fst (firstn (Z.to_nat max_fields) ranked)
      /\ Permutation ranked (field_counts rows)
      /\ StronglySorted desc ranked
      /\ forall n, with_count n ranked = with_count n (field_counts rows).
Proof.
  intros rows max_fields H. exists (sorted_desc (field_counts rows)).
  split; [apply fields_of_top, H|].
  split; [apply sorted_desc_perm|].
  split; [apply sorted_desc_sorted|].
  intros n. apply sorted_desc_stable.
Qed.

Lemma fields_of_ranking_witness :
  exists ranked,
    fields_of [JDict [("id", JInt 1)];
               JDict [("name", JStr "a"); ("id", JInt 2); ("vdom", JStr "root")]] 6
    = map fst (firstn (Z.to_nat 6) ranked)
    /\ Permutation ranked
         (field_counts
            [JDict [("id", JInt 1)];
             JDict [("name", JStr "a"); ("id", JInt 2); ("vdom", JStr "root")]]).
Proof.
  destruct (fields_of_ranking
              [JDict [("id", JInt 1)];
               JDict [("name", JStr "a"); ("id", JInt 2); ("vdom", JStr "root")]] 6)
    as (ranked & Hf & Hp & _); [lia|].
  exists ranked. split; [exact Hf | exact Hp].
Defined.

Lemma rmap_raises_iff {A B} (f : A -> result B) (l : list A) :
  is_ret (rmap f l) = false <-> exists x, In x l /\ is_ret (f x) = false.
Proof.
  split.
  - destruct (rmap f l) eqn:E; [discriminate|]. intros _.
    destruct (rmap_raise f l e E) as (x & Hx & Hf).
    exists x. rewrite Hf. auto.
  - intros (x & Hx & Hf). induction l as [| y l IH]; [destruct Hx|].
    simpl. destruct (f y) eqn:Ey; [| reflexivity]. simpl.
    destruct Hx as [-> | Hx]; [rewrite Ey in Hf; discriminate Hf|].
    specialize (IH Hx). destruct (rmap f l); [discriminate IH | reflexivity].
Qed.

Lemma cell_raises_iff {env : PyEnv} (max_width : Z) (item : json) (field : string) :
  is_ret (cell max_width item field) = false <->
  is_dict item = false
  \/ exists d, item = JDict d /\ flattens (get_default d field (JStr "-")) = false.
Proof.
  unfold cell. destruct item as [| b | z | f | s | l | d];
    try (split; [left; reflexivity | reflexivity]).
  split.
  - intros H. right. exists d. split; [reflexivity|].
    rewrite <- flatten_value_returns.
    destruct (_flatten_value _); [discriminate H | reflexivity].
  - intros [H | (d' & Hd & H)]; [discriminate H|]. injection Hd as <-.
    rewrite <- flatten_value_returns in H.
    destruct (_flatten_value _); [discriminate H | reflexivity].
Qed.

(** X13.  [format_table] raises exactly when the response has rows and
    columns and, for some row and some column, either the row is not a
    mapping or its value in that column is a list that starts with a named
    mapping and holds an element that is not a mapping.  In every other case
    it returns a string. *)
Theorem format_table_raises_iff :
  forall (env : PyEnv) (response : json) (max_fields max_width : Z),
    is_ret (format_table response max_fields max_width) = false <->
    exists data_list item field,
      data_list_of response = Some data_list
      /\ In item data_list
      /\ In field (fields_of data_list max_fields)
      /\ (is_dict item = false
          \/ exists d, item = JDict d
                       /\ flattens (get_default d field (JStr "-")) = false).
Proof.
  intros env response max_fields max_width. unfold format_table. split.
  - destruct (data_list_of response) as [data_list |]; [| discriminate].
    destruct data_list as [| item0 rest]; [discriminate|].
    destruct (fields_of (item0 :: rest) max_fields) as [| f0 fs] eqn:Hf;
      [discriminate|].
    intros H.
    assert (Hr : is_ret (rmap (row max_width (f0 :: fs)) (item0 :: rest)) = false).
    { destruct (rmap _ (item0 :: rest)); [discriminate H | reflexivity]. }
    apply rmap_raises_iff in Hr. destruct Hr as (item & Hitem & Hrow).
    unfold row in Hrow. apply rmap_raises_iff in Hrow.
    destruct Hrow as (field & Hfield & Hcell).
    exists (item0 :: rest), item, field.
    split; [reflexivity|]. split; [exact Hitem|]. split; [rewrite Hf; exact Hfield|].
    apply (cell_raises_iff max_width), Hcell.
  - intros (data_list & item & field & -> & Hitem & Hfield & Hcell).
    destruct data_list as [| item0 rest]; [destruct Hitem|].
    destruct (fields_of (item0 :: rest) max_fields) as [| f0 fs];
      [destruct Hfield|].
    assert (Hr : is_ret (rmap (row max_width (f0 :: fs)) (item0 :: rest)) = false).
    { apply rmap_raises_iff. exists item. split; [exact Hitem|].
      unfold row. apply rmap_raises_iff. exists field.
      split; [exact Hfield|]. apply cell_raises_iff, Hcell. }
    destruct (rmap _ (item0 :: rest)); [discriminate Hr | reflexivity].
Qed.

Lemma format_table_raises_iff_witness :
  is_ret (format_table (env := Demo.env)
            (JList [JDict [("name", JStr "a")]; JStr "b"]) 6 50) = false.
Proof.
  apply (format_table_raises_iff Demo.env).
  exists [JDict [("name", JStr "a")]; JStr "b"], (JStr "b"), "name".
  split; [reflexivity|]. split; [right; left; reflexivity|].
  split; [left; reflexivity|]. left. reflexivity.
Defined.

(** X14.  A negative cap -k does not mean no limit: it drops the k
    lowest-ranked columns, and when k is at least the number of distinct
    keys the formatter has no column left and says so. *)
Theorem fields_of_negative_cap :
  forall (env : PyEnv) (rows : list json) (max_fields : Z),
    (max_fields < 0)%Z ->
    let ranked := sorted_desc (field_counts rows) in
    let kept := (List.length ranked - Z.to_nat (- max_fields))%nat in
    fields_of rows max_fields = map fst (firstn kept ranked)
    /\ List.length (fields_of rows max_fields) = kept
    /\ (forall item0 rest max_width,
          rows = item0 :: rest ->
          (List.length ranked <= Z.to_nat (- max_fields))%nat ->
          format_table (JList rows) max_fields max_width
          = Ret "No suitable fields found for table display").
Proof.
  intros env rows max_fields H ranked kept.
  assert (Hf : fields_of rows max_fields = map fst (firstn kept ranked)).
  { unfold fields_of, PyStr.slice_stop. fold ranked.
    destruct (Z.ltb_spec max_fields 0); [| lia].
    f_equal. f_equal. unfold kept. lia. }
  split; [exact Hf|]. split.
  - rewrite Hf, List.length_map, List.length_firstn. unfold kept. lia.
  - intros item0 rest max_width -> Hk. unfold format_table, data_list_of.
    rewrite Hf. replace kept with 0%nat by (unfold kept; lia). reflexivity.
Qed.

Lemma fields_of_negative_cap_witness :
  fields_of [JDict [("a", JInt 1); ("b", JInt 2); ("c", JInt 3)]] (-1) = ["a"; "b"]
  /\ format_table (env := Demo.env)
       (JList [JDict [("a", JInt 1); ("b", JInt 2); ("c", JInt 3)]]) (-3) 50
     = Ret "No suitable fields found for table display".
Proof.
  split.
  - destruct (fields_of_negative_cap Demo.env
                [JDict [("a", JInt 1); ("b", JInt 2); ("c", JInt 3)]] (-1))
      as (H & _); [lia|].
    rewrite H. reflexivity.
  - destruct (fields_of_negative_cap Demo.env
                [JDict [("a", JInt 1); ("b", JInt 2); ("c", JInt 3)]] (-3))
      as (_ & _ & H); [lia|].
    apply (H _ [] 50%Z eq_refl). simpl. lia.
Defined.

(** ** Further properties of [main] *)

Lemma quiet_ret {A} (a : A) : quiet (ret a).
Proof.
  intros tr. exists []. simpl. rewrite List.app_nil_r. auto.
Qed.

Lemma quiet_raise {A} (e : exn) : quiet (@raise A e).
Proof.
  intros tr. exists []. simpl. rewrite List.app_nil_r.
  split; [reflexivity|]. split; [reflexivity | discriminate].
Qed.

Lemma quiet_lift_result {A} (r : result A) : quiet (lift_result r).
Proof. destruct r; [apply quiet_ret | apply quiet_raise]. Qed.

Lemma quiet_exit {A} (text : string) (code : Z) :
  quiet (bind (emit (PrintErr text)) (fun _ => @sys_exit A code)).
Proof.
  intros tr. exists [PrintErr text]. unfold bind, emit, sys_exit, raise. simpl.
  split; [reflexivity|]. split; [reflexivity | discriminate].
Qed.

Lemma quiet_bind {A B} (m : M A) (k : A -> M B) :
  quiet m -> (forall a, quiet (k a)) -> quiet (bind m k).
Proof.
  intros Hm Hk tr. unfold bind.
  destruct (Hm tr) as (evs & Hs & Hq & Hr).
  destruct (m tr) as [[a | e] tr1]; simpl in *.
  - specialize (Hr eq_refl). subst evs. rewrite List.app_nil_r in Hs. subst tr1.
    apply Hk.
  - exists evs. split; [exact Hs|]. split; [exact Hq | discriminate].
Qed.

Lemma quiet_try_except {A} (m : M A) (h : exn -> M A) :
  (forall tr e tr1, m tr = (Raise e, tr1) -> tr1 = tr) ->
  quiet m -> (forall e, quiet (h e)) -> quiet (try_except m h).
Proof.
  intros Hsame Hm Hh tr. unfold try_except.
  destruct (Hm tr) as (evs & Hs & Hq & Hr).
  destruct (m tr) as [[a | e] tr1] eqn:E; simpl in *.
  - exists evs. auto.
  - rewrite (Hsame tr e tr1 E). apply Hh.
Qed.

Lemma quiet_load_stage {cli : CliEnv} (a : cli_args) : quiet (load_stage a).
Proof.
  unfold load_stage. destruct (a_config a) as [[| c r] |]; try apply quiet_ret.
  apply quiet_try_except.
  - intros tr e tr1 H. destruct (load_config_file (String c r));
      simpl in H; injection H as _ H; symmetry; exact H.
  - apply quiet_lift_result.
  - intros e. destruct (exn_cls e); try apply quiet_raise; apply quiet_exit.
Qed.

Lemma quiet_credentials_stage (a : cli_args) (cfg : config) :
  quiet (credentials_stage a cfg).
Proof.
  unfold credentials_stage.
  destruct (opt_or (opt_or (a_host a) (config_get cfg "host")) (config_get cfg "ip"))
    as [[| c r] |]; try apply quiet_exit.
  destruct (negb _ && negb _)%bool; [apply quiet_exit | apply quiet_ret].
Qed.

Lemma quiet_data_stage {cli : CliEnv} (a : cli_args) : quiet (data_stage a).
Proof.
  unfold data_stage. destruct (a_data a) as [[| c r] |]; try apply quiet_ret.
  apply quiet_try_except.
  - intros tr e tr1 H. unfold bind in H.
    destruct (parse_data_argument (String c r)); simpl in H;
      injection H as _ H; symmetry; exact H.
  - apply quiet_bind; [apply quiet_lift_result | intros v; apply quiet_ret].
  - intros e. destruct (exn_cls e); try apply quiet_raise; apply quiet_exit.
Qed.

(** X15.  Everything [main] does before it builds the client - loading
    the configuration, resolving host and secret, decoding the body - creates
    no connection and sends nothing: it writes to standard error only, writes
    nothing when it succeeds, and when it stops the run the trace of the
    process is the trace it left. *)
Theorem prepare_is_quiet :
  forall (env : PyEnv) (cli : CliEnv) (fmg_lib : FortiManager) (a : cli_args)
         (tr : trace),
    exists evs,
      snd (prepare a tr) = (tr ++ evs)%list
      /\ forallb is_stderr evs = true
      /\ (is_ret (fst (prepare a tr)) = true -> evs = [])
      /\ (is_ret (fst (prepare a tr)) = false ->
          snd (run fmg_lib a tr) = (tr ++ evs)%list).
Proof.
  intros env cli fmg_lib a tr.
  assert (Hq : quiet (prepare a)).
  { unfold prepare. apply quiet_bind; [apply quiet_load_stage|]. intros cfg.
    apply quiet_bind; [apply quiet_credentials_stage|]. intros cr.
    apply quiet_bind; [apply quiet_data_stage|]. intros rd. apply quiet_ret. }
  destruct (Hq tr) as (evs & Hs & Hst & Hr).
  exists evs. split; [exact Hs|]. split; [exact Hst|]. split; [exact Hr|].
  intros Hf. unfold run, main, bind.
  destruct (prepare a tr) as [[p | e] tr1]; [discriminate Hf | exact Hs].
Qed.

Lemma prepare_is_quiet_witness :
  exists evs,
    snd (run (env := Demo.env) (cli := Demo.cli) (Demo.answering Demo.ok)
           (with_config Demo.args (Some "missing.ini")) [])
    = evs
    /\ forallb is_stderr evs = true.
Proof.
  destruct (prepare_is_quiet Demo.env Demo.cli (Demo.answering Demo.ok)
              (with_config Demo.args (Some "missing.ini")) [])
    as (evs & _ & Hst & _ & Hrun).
  exists evs. split; [apply Hrun; reflexivity | exact Hst].
Defined.

Lemma exit_on_status_exit (status_code : json) (tr : trace) :
  exit_status (fst (exit_on_status status_code tr)) = Spec.exit_of_status status_code
  /\ (forall e, fst (exit_on_status status_code tr) = Raise e ->
                exists code, exn_cls e = SystemExit code).
Proof.
  destruct (exit_on_status_run status_code tr)
    as (tr' & [(-> & ->) | (code & _ & -> & ->)]); simpl.
  - split; [reflexivity | discriminate].
  - split; [reflexivity|]. intros e H. injection H as <-. exists code. reflexivity.
Qed.

(** The exit status once [prepare] has returned. *)
Lemma run_after_prepare {env : PyEnv} {cli : CliEnv} (fmg_lib : FortiManager)
  (a : cli_args) (tr tr1 : trace) (cr : credentials) (rd : option json) :
  prepare a tr = (Ret (cr, rd), tr1) ->
  fst (run fmg_lib a tr)
  = match init (c_host cr) (c_username cr) (c_password cr) (c_apikey cr)
            (negb (a_no_ssl a)) (a_verify_ssl a) (a_timeout a) (a_debug a) with
    | Raise e => exit_of_exception e
    | Ret client =>
        match fst (execute_request fmg_lib client (a_method a) (a_endpoint a)
                     rd (a_query a) tr1) with
        | Ret sr => Spec.exit_of_status (fst sr)
        | Raise e => exit_of_exception e
        end
    end.
Proof.
  intros Hp. unfold run. rewrite (main_after_prepare fmg_lib a tr tr1 cr rd Hp).
  unfold request_stage, try_except.
  destruct (init _ _ _ _ _ _ _ _) as [client | e0].
  2:{ unfold bind at 1. simpl lift_result. unfold raise at 1.
      cbv beta iota. unfold exit_of_exception.
      destruct e0 as [cls msg]. destruct cls; reflexivity. }
  unfold bind at 1. simpl lift_result. unfold ret at 1. cbv beta iota.
  unfold bind at 1.
  destruct (execute_request fmg_lib client (a_method a) (a_endpoint a) rd
              (a_query a) tr1) as [[[st response] | e] tr2].
  2:{ simpl fst. cbv beta iota. unfold exit_of_exception.
      destruct e as [cls msg]. destruct cls; reflexivity. }
  unfold bind at 1. unfold emit at 1. cbv beta iota. simpl fst. simpl snd.
  unfold bind at 1.
  match goal with
  | |- context [print_response a response ?t] =>
      destruct (print_response_returns a response t) as (tr3 & ->)
  end.
  cbv beta iota. cbn [fst snd].
  destruct (exit_on_status_run st tr3)
    as (tr4 & [(-> & ->) | (code & _ & -> & ->)]); reflexivity.
Qed.

(** X16.  The output format decides what is printed and nothing else: the
    exit status of the process is the same for [json], [pretty] and [table],
    also when the table formatter fails and the output falls back to JSON. *)
Theorem run_exit_independent_of_format :
  forall (env : PyEnv) (cli : CliEnv) (fmg_lib : FortiManager) (a : cli_args)
         (f : format) (tr : trace),
    fst (run fmg_lib (with_format a f) tr) = fst (run fmg_lib a tr).
Proof.
  intros env cli fmg_lib a f tr.
  assert (Hp : prepare (with_format a f) tr = prepare a tr) by reflexivity.
  destruct (prepare a tr) as [[[cr rd] | e] tr1] eqn:E.
  - rewrite (run_after_prepare fmg_lib (with_format a f) tr tr1 cr rd Hp).
    rewrite (run_after_prepare fmg_lib a tr tr1 cr rd E). reflexivity.
  - rewrite (run_prepare_raises fmg_lib (with_format a f) tr tr1 e Hp).
    rewrite (run_prepare_raises fmg_lib a tr tr1 e E). reflexivity.
Qed.

Lemma prepare_inv {cli : CliEnv} (a : cli_args) (tr tr1 : trace)
  (cr : credentials) (rd : option json) :
  prepare a tr = (Ret (cr, rd), tr1) ->
  exists cfg t0 t1,
    load_stage a tr = (Ret cfg, t0)
    /\ credentials_stage a cfg t0 = (Ret cr, t1)
    /\ data_stage a t1 = (Ret rd, tr1).
Proof.
  unfold prepare, bind. intros H.
  destruct (load_stage a tr) as [[cfg | e] t0] eqn:E1; [| discriminate H].
  destruct (credentials_stage a cfg t0) as [[cr' | e] t1] eqn:E2;
    [| discriminate H].
  destruct (data_stage a t1) as [[rd' | e] t2] eqn:E3; [| discriminate H].
  unfold ret in H. injection H as -> -> ->.
  exists cfg, t0, t1. split; [reflexivity|]. split; assumption.
Qed.

Lemma credentials_stage_inv (a : cli_args) (cfg : config) (tr tr' : trace)
  (cr : credentials) :
  credentials_stage a cfg tr = (Ret cr, tr') ->
  tr' = tr
  /\ Some (c_host cr)
     = opt_or (opt_or (a_host a) (config_get cfg "host")) (config_get cfg "ip")
  /\ c_host cr <> EmptyString
  /\ c_username cr
     = opt_or (Some (a_username a))
              (match config_get cfg "username" with
               | Some u => Some u
               | None => Some "admin"
               end)
  /\ c_password cr = opt_or (a_password a) (config_get cfg "password")
  /\ c_apikey cr = opt_or (a_apikey a) (config_get cfg "apikey")
  /\ (given (c_apikey cr) = true \/ given (c_password cr) = true).
Proof.
  unfold credentials_stage.
  destruct (opt_or (opt_or (a_host a) (config_get cfg "host")) (config_get cfg "ip"))
    as [[| c r] |]; try discriminate.
  destruct (given (opt_or (a_apikey a) (config_get cfg "apikey"))) eqn:Hk;
    destruct (given (opt_or (a_password a) (config_get cfg "password"))) eqn:Hp;
    simpl; try discriminate; unfold ret; intros H; injection H as <- <-; simpl;
    rewrite ?Hk, ?Hp;
    repeat match goal with |- _ /\ _ => split end;
    try reflexivity; try discriminate; auto.
Qed.

(** X17.  What the command line gives wins over the configuration file:
    the host is the [--host] argument if given, else the file's [host], else
    its [ip]; password and API key are the argument if given, else the file's.
    The user name of the file is used only when the argument is the empty
    string, and since the argument defaults to [admin] a file cannot override
    that default.  Resolving the credentials prints nothing. *)
Theorem credentials_precedence :
  forall (a : cli_args) (cfg : config) (tr tr' : trace) (cr : credentials),
    credentials_stage a cfg tr = (Ret cr, tr') ->
    tr' = tr
    /\ (given (a_host a) = true -> Some (c_host cr) = a_host a)
    /\ (given (a_host a) = false -> given (config_get cfg "host") = true ->
        Some (c_host cr) = config_get cfg "host")
    /\ (given (a_host a) = false -> given (config_get cfg "host") = false ->
        Some (c_host cr) = config_get cfg "ip")
    /\ (given (a_password a) = true -> c_password cr = a_password a)
    /\ (given (a_password a) = false ->
        c_password cr = config_get cfg "password")
    /\ (given (a_apikey a) = true -> c_apikey cr = a_apikey a)
    /\ (given (a_apikey a) = false -> c_apikey cr = config_get cfg "apikey")
    /\ (a_username a <> EmptyString -> c_username cr = Some (a_username a))
    /\ (a_username a = EmptyString ->
        c_username cr = Some (match config_get cfg "username" with
                              | Some u => u
                              | None => "admin"
                              end)).
Proof.
  intros a cfg tr tr' cr H.
  destruct (credentials_stage_inv a cfg tr tr' cr H)
    as (Htr & Hh & _ & Hu & Hp & Hk & _).
  rewrite Hh, Hu, Hp, Hk. unfold opt_or.
  split; [exact Htr|].
  split; [intros E; repeat (rewrite E; cbv iota); reflexivity|].
  split; [intros E1 E2; repeat (rewrite ?E1, ?E2; cbv iota); reflexivity|].
  split; [intros E1 E2; repeat (rewrite ?E1, ?E2; cbv iota); reflexivity|].
  split; [intros E; rewrite E; reflexivity|].
  split; [intros E; rewrite E; reflexivity|].
  split; [intros E; rewrite E; reflexivity|].
  split; [intros E; rewrite E; reflexivity|].
  split.
  - intros E. destruct (a_username a); [contradiction | reflexivity].
  - intros ->. simpl. destruct (config_get cfg "username"); reflexivity.
Qed.

Lemma credentials_precedence_witness :
  let cfg := [("host", "192.0.2.7"); ("username", "operator")] in
  let cr := mkCreds "10.0.0.1" (Some "admin") (Some "secret") None in
  credentials_stage Demo.args cfg [] = (Ret cr, [])
  /\ Some (c_host cr) = a_host Demo.args
  /\ c_username cr = Some (a_username Demo.args).
Proof.
  cbv zeta. split; [reflexivity|].
  destruct (credentials_precedence Demo.args
              [("host", "192.0.2.7"); ("username", "operator")] [] []
              (mkCreds "10.0.0.1" (Some "admin") (Some "secret") None) eq_refl)
    as (_ & Hhost & _ & _ & _ & _ & _ & _ & Huser & _).
  split; [apply Hhost; reflexivity | apply Huser; discriminate].
Defined.

(** X18.  Once [prepare] has returned, the constructor of the client
    cannot fail: [main] has already refused a run without a secret, so the
    [ValueError] of [__init__] is never raised from [main], and the client is
    built on a host that is not empty. *)
Theorem prepared_client_is_built :
  forall (cli : CliEnv) (a : cli_args) (tr tr1 : trace) (cr : credentials)
         (rd : option json),
    prepare a tr = (Ret (cr, rd), tr1) ->
    exists client,
      init (c_host cr) (c_username cr) (c_password cr) (c_apikey cr)
           (negb (a_no_ssl a)) (a_verify_ssl a) (a_timeout a) (a_debug a)
      = Ret client
      /\ host client = c_host cr
      /\ host client <> EmptyString
      /\ username client <> EmptyString.
Proof.
  intros cli a tr tr1 cr rd H.
  destruct (prepare_inv a tr tr1 cr rd H) as (cfg & t0 & t1 & _ & Hc & _).
  destruct (credentials_stage_inv a cfg t0 t1 cr Hc)
    as (_ & _ & Hhost & _ & _ & _ & Hsecret).
  unfold init.
  assert (Hg : (negb (given (c_apikey cr)) && negb (given (c_password cr)))%bool
               = false).
  { destruct Hsecret as [-> | ->]; [reflexivity | apply Bool.andb_false_r]. }
  rewrite Hg. eexists. split; [reflexivity|]. simpl.
  split; [reflexivity|]. split; [exact Hhost|].
  destruct (c_username cr) as [[| c r] |]; discriminate.
Qed.

Lemma prepared_client_is_built_witness :
  exists client,
    init "10.0.0.1" (Some "admin") (Some "secret") None true false 300 false
    = Ret client
    /\ host client = "10.0.0.1".
Proof.
  destruct (prepared_client_is_built Demo.cli Demo.args [] []
              (mkCreds "10.0.0.1" (Some "admin") (Some "secret") None) None
              eq_refl)
    as (client & Hi & Hh & _).
  exists client. split; [exact Hi | exact Hh].
Defined.

(** X19.  Every failure on the client's side ends the process with
    status 1: when the run reaches the request under a supported verb and the
    attempt raises an exception of class [Exception] - no connection, a
    timeout, an invalid session, an error of the library, anything
    unexpected - [main] exits with 1. *)
Theorem client_side_failure_exits_1 :
  forall (env : PyEnv) (cli : CliEnv) (fmg_lib : FortiManager) (a : cli_args)
         (tr tr1 tr2 : trace) (cr : credentials) (rd : option json)
         (client : client) (e : exn),
    prepare a tr = (Ret (cr, rd), tr1) ->
    init (c_host cr) (c_username cr) (c_password cr) (c_apikey cr)
         (negb (a_no_ssl a)) (a_verify_ssl a) (a_timeout a) (a_debug a)
    = Ret client ->
    PyStr.mem (PyStr.lower (a_method a)) supported = true ->
    with_connection fmg_lib (_create_connection client)
      (dispatch fmg_lib (_create_connection client) (PyStr.lower (a_method a))
         (normalize (a_endpoint a)) rd (a_query a)) tr1
    = (Raise e, tr2) ->
    is_Exception e = true ->
    fst (run fmg_lib a tr) = 1%Z.
Proof.
  intros env cli fmg_lib a tr tr1 tr2 cr rd client e Hp Hi Hs Ha He.
  rewrite (run_after_prepare fmg_lib a tr tr1 cr rd Hp), Hi.
  unfold execute_request. rewrite Hs. cbn [negb]. cbv beta iota zeta.
  unfold try_except. rewrite Ha.
  destruct (handler_Exception e tr2 He) as (line & ->). cbn [fst].
  unfold Spec.classified. destruct (exn_cls e); reflexivity.
Qed.

Lemma client_side_failure_exits_1_witness :
  fst (run (env := Demo.env) (cli := Demo.cli)
         (Demo.unreachable (mkExn FMGConnectTimeout "timed out")) Demo.args [])
  = 1%Z.
Proof.
  apply (client_side_failure_exits_1 Demo.env Demo.cli
           (Demo.unreachable (mkExn FMGConnectTimeout "timed out")) Demo.args
           [] []
           [Create (_create_connection Demo.self); Login]
           (mkCreds "10.0.0.1" (Some "admin") (Some "secret") None) None
           Demo.self (mkExn FMGConnectTimeout "timed out"));
    reflexivity.
Defined.

(** X20.  An empty [--config] and an empty [--data] are not errors: the
    run is the run without the option, so no file is looked for and no JSON
    is decoded. *)
Theorem empty_option_is_absent :
  forall (env : PyEnv) (cli : CliEnv) (fmg_lib : FortiManager) (a : cli_args)
         (tr : trace),
    (a_config a = Some EmptyString ->
     main fmg_lib a tr = main fmg_lib (with_config a None) tr)
    /\ (a_data a = Some EmptyString ->
        main fmg_lib a tr = main fmg_lib (with_data a None) tr).
Proof.
  intros env cli fmg_lib a tr. split; intros H.
  - unfold main, prepare, load_stage. rewrite H. reflexivity.
  - unfold main, prepare, data_stage. rewrite H. reflexivity.
Qed.

Lemma empty_option_is_absent_witness :
  main (env := Demo.env) (cli := Demo.cli) (Demo.answering Demo.ok)
    (with_data Demo.args (Some EmptyString)) []
  = main (env := Demo.env) (cli := Demo.cli) (Demo.answering Demo.ok)
      Demo.args [].
Proof.
  exact (proj2 (empty_option_is_absent Demo.env Demo.cli (Demo.answering Demo.ok)
                  (with_data Demo.args (Some EmptyString)) []) eq_refl).
Defined.

(** ** Properties of [load_config_file] *)

Import ConfigFile.

Lemma subscript_found (d : dict) (key : string) :
  has_key d key = true ->
  subscript (JDict d) key = Ret (get d key).
Proof.
  unfold has_key, subscript, get, get_default.
  destruct (lookup d key); [reflexivity | discriminate].
Qed.

Lemma load_ini_raise_class {fs : FsEnv} (p : string) (e : exn) :
  load_ini p = Raise e -> exn_cls e = ValueError \/ is_Exception e = false.
Proof.
  unfold load_ini. destruct (rbind _ _) as [items | x]; [discriminate|].
  destruct (is_Exception x) eqn:E; intros H; injection H as <-; auto.
Qed.

(** X21.  Every way [load_config_file] can fail: the path does not exist
    ([FileNotFoundError] naming the path); the file cannot be opened or read
    (that error, as it is); [json.load] fails with anything but a
    [JSONDecodeError] (that error, as it is); the text decodes to JSON that
    is not an object ([TypeError], which [main] does not handle); or the
    text is not JSON and the INI reading fails ([ValueError], unless the
    failure is no [Exception]).  When the text decodes to a JSON object the
    function does not fail. *)
Theorem load_config_file_failures :
  forall (fs : FsEnv) (p : string) (e : exn),
    load_config_file p = Raise e ->
    (path_exists p = false
     /\ e = mkExn FileNotFoundError ("Configuration file not found: " ++ p))
    \/ (path_exists p = true /\ open_read p = Raise e)
    \/ (exists text,
          path_exists p = true /\ open_read p = Ret text
          /\ json_load text = Failed e)
    \/ (exists text v,
          path_exists p = true /\ open_read p = Ret text
          /\ json_load text = Decoded v /\ is_dict v = false
          /\ exn_cls e = TypeError)
    \/ (exists text message,
          path_exists p = true /\ open_read p = Ret text
          /\ json_load text = DecodeError message
          /\ load_ini p = Raise e
          /\ (exn_cls e = ValueError \/ is_Exception e = false)).
Proof.
  intros fs p e. unfold load_config_file.
  destruct (path_exists p) eqn:Hex; simpl.
  2:{ intros H. injection H as <-. left. auto. }
  destruct (open_read p) as [text |] eqn:Hopen.
  2:{ intros H. injection H as <-. right. left. auto. }
  destruct (json_load text) as [v | message | x] eqn:Hjson.
  - intros H. right. right. right. left. exists text, v.
    repeat split; try reflexivity; try assumption.
    + destruct v as [| b | z | f | s | l | d]; try reflexivity.
      unfold contains_key, rbind in H.
      destruct (has_key d "fortimanager") eqn:Hk; [| discriminate H].
      rewrite (subscript_found d "fortimanager" Hk) in H. discriminate H.
    + destruct v as [| b | z | f | s | l | d]; simpl in H;
        try (injection H as <-; reflexivity).
      * destruct (match index 0 "fortimanager" s with Some _ => true | None => false end);
          simpl in H; [injection H as <-; reflexivity | discriminate H].
      * destruct (existsb _ l); simpl in H;
          [injection H as <-; reflexivity | discriminate H].
      * unfold has_key in H. destruct (lookup d "fortimanager");
          discriminate H.
  - intros H. do 4 right. exists text, message.
    repeat split; try reflexivity; try assumption.
    exact (load_ini_raise_class p e H).
  - intros H. injection H as <-. right. right. left. exists text. auto.
Qed.

Lemma load_config_file_failures_witness :
  exists text v,
    path_exists (FsEnv := DemoFs.fs) "five.json" = true
    /\ open_read (FsEnv := DemoFs.fs) "five.json" = Ret text
    /\ json_load (FsEnv := DemoFs.fs) text = Decoded v
    /\ is_dict v = false.
Proof.
  destruct (load_config_file_failures DemoFs.fs "five.json"
              (mkExn TypeError "argument of type 'int' is not iterable") eq_refl)
    as [(H & _) | [(_ & H) | [(text & _ & H & H')
        | [(text & v & H1 & H2 & H3 & H4 & _) | (text & m & _ & H & H' & _)]]]].
  - discriminate H.
  - discriminate H.
  - injection H as <-. discriminate H'.
  - exists text, v. auto.
  - injection H as <-. discriminate H'.
Defined.

(** X22.  What [load_config_file] returns and from where.  A value read
    as JSON is the entry [fortimanager] of the decoded object when it has
    one, and otherwise the whole decoded document, which is then a mapping
    without that key, or a list or text that does not contain
    "fortimanager".  A value read as INI is returned only when the JSON
    decoding failed, and is the section [fortimanager] when the file has it
    and the section [DEFAULT] otherwise. *)
Theorem load_config_file_returns :
  forall (fs : FsEnv) (p : string) (r : loaded),
    load_config_file p = Ret r ->
    exists text,
      path_exists p = true /\ open_read p = Ret text
      /\ match r with
         | FromJson v =>
             exists json_config,
               json_load text = Decoded json_config
               /\ ((exists d, json_config = JDict d
                              /\ lookup d "fortimanager" = Some v)
                   \/ (v = json_config
                       /\ contains_key json_config "fortimanager" = Ret false))
         | FromIni items =>
             (exists message, json_load text = DecodeError message)
             /\ exists parser,
                  parser_read p = Ret parser
                  /\ section_items parser
                       (if has_section parser "fortimanager"
                        then "fortimanager" else "DEFAULT")
                     = Ret items
         end.
Proof.
  intros fs p r. unfold load_config_file.
  destruct (path_exists p); simpl; [| discriminate].
  destruct (open_read p) as [text |]; [| discriminate].
  intros H. exists text. split; [reflexivity|]. split; [reflexivity|].
  destruct (json_load text) as [json_config | message | x];
    [| | discriminate H].
  - destruct (contains_key json_config "fortimanager") as [[|] |] eqn:Hc;
      simpl in H; try discriminate H.
    + destruct json_config as [| b | z | f | s | l | d]; simpl in H;
        try discriminate H.
      simpl in Hc. injection Hc as Hc.
      unfold has_key in Hc. destruct (lookup d "fortimanager") as [x |] eqn:Hl;
        [| discriminate Hc].
      simpl in H. injection H as <-.
      exists (JDict d). split; [reflexivity|]. left. exists d. auto.
    + injection H as <-. exists json_config. split; [reflexivity|]. right. auto.
  - unfold load_ini in H.
    destruct (parser_read p) as [parser |]; simpl in H.
    + destruct (section_items parser _) as [items |] eqn:Hs.
      * injection H as <-. split; [exists message; reflexivity|].
        exists parser. auto.
      * destruct (is_Exception e); discriminate H.
    + destruct (is_Exception e); discriminate H.
Qed.

Lemma load_config_file_returns_witness :
  load_config_file (fs := DemoFs.fs) "fmg.json"
  = Ret (FromJson (JDict [("host", JStr "10.0.0.1")]))
  /\ exists text,
       path_exists (FsEnv := DemoFs.fs) "fmg.ini" = true
       /\ open_read (FsEnv := DemoFs.fs) "fmg.ini" = Ret text
       /\ exists message,
            json_load (FsEnv := DemoFs.fs) text = DecodeError message.
Proof.
  split; [reflexivity|].
  destruct (load_config_file_returns DemoFs.fs "fmg.ini"
              (FromIni [("host", "10.0.0.1"); ("password", "secret")]) eq_refl)
    as (text & H1 & H2 & H3 & _).
  exists text. auto.
Defined.

(** X23.  By kind of JSON document.  An object gives its [fortimanager]
    entry, or itself when it has none.  A number, a boolean or null raises
    [TypeError], and so does a list that holds the string "fortimanager" and
    a text that contains it; any other list or text is returned as it is,
    though it is no mapping. *)
Theorem load_config_file_by_json_kind :
  forall (fs : FsEnv) (p text : string) (v : json),
    path_exists p = true -> open_read p = Ret text ->
    json_load text = Decoded v ->
    match v with
    | JDict d =>
        load_config_file p
        = Ret (FromJson (match lookup d "fortimanager" with
                         | Some x => x
                         | None => JDict d
                         end))
    | JNull | JBool _ | JInt _ | JFloat _ =>
        exists e, load_config_file p = Raise e /\ exn_cls e = TypeError
    | JList _ | JStr _ =>
        (contains_key v "fortimanager" = Ret false
         /\ load_config_file p = Ret (FromJson v))
        \/ (contains_key v "fortimanager" = Ret true
            /\ exists e, load_config_file p = Raise e /\ exn_cls e = TypeError)
    end.
Proof.
  intros fs p text v Hex Hopen Hjson.
  unfold load_config_file. rewrite Hex, Hopen, Hjson. simpl.
  destruct v as [| b | z | f | s | l | d]; try (eexists; split; reflexivity).
  - unfold contains_key.
    destruct (match index 0 "fortimanager" s with Some _ => true | None => false end);
      simpl; [right | left]; split; try reflexivity.
    eexists; split; reflexivity.
  - unfold contains_key. destruct (existsb _ l); simpl; [right | left];
      split; try reflexivity.
    eexists; split; reflexivity.
  - unfold contains_key, subscript, has_key, rbind.
    destruct (lookup d "fortimanager"); reflexivity.
Qed.

Lemma load_config_file_by_json_kind_witness :
  exists e,
    load_config_file (fs := DemoFs.fs) "five.json" = Raise e
    /\ exn_cls e = TypeError.
Proof.
  exact (load_config_file_by_json_kind DemoFs.fs "five.json" "five.json" (JInt 5)
           eq_refl eq_refl eq_refl).
Defined.
